(** * Paradox Machine: the extractor, the normalizers, the report builder,
      the formatter, the chat client and the four-stage pipeline of
      [src/agents.py], embedded as Rocq functions.

    Python text is modelled by [string]: a character is a code point
    below 256.  A Python [dict] is an association list in insertion order
    (the order [dict.values()] and [json.dumps] walk it).  An exception
    is a value of [exn]; code that may raise returns [exn + A]. *)

From Stdlib Require Import String Ascii List ZArith NArith Lia Bool Arith.
From Stdlib Require Import Permutation OrderedTypeEx.
Import ListNotations.
Open Scope string_scope.

(* ===================================================================== *)
(** * Python's [str] methods used by the program *)
(* ===================================================================== *)

Module Py.

(** [str.isspace] of one character (code points below 256). *)
Definition isspace (c : ascii) : bool :=
  let n := nat_of_ascii c in
  (((9 <=? n) && (n <=? 13)) || ((28 <=? n) && (n <=? 32))
   || (n =? 133) || (n =? 160))%nat.

Fixpoint lstrip_with (p : ascii -> bool) (s : string) : string :=
  match s with
  | EmptyString => EmptyString
  | String c r => if p c then lstrip_with p r else s
  end.

Fixpoint rstrip_with (p : ascii -> bool) (s : string) : string :=
  match s with
  | EmptyString => EmptyString
  | String c r =>
      match rstrip_with p r with
      | EmptyString => if p c then EmptyString else String c EmptyString
      | r' => String c r'
      end
  end.

Definition strip_with (p : ascii -> bool) (s : string) : string :=
  rstrip_with p (lstrip_with p s).

(** [s.strip()] *)
Definition strip (s : string) : string := strip_with isspace s.

(** [s.strip(chars)] *)
Definition strip_chars (chars s : string) : string :=
  strip_with (fun c => existsb (Ascii.eqb c) (list_ascii_of_string chars)) s.

(** [s.startswith(p)] *)
Definition startswith (p s : string) : bool := String.prefix p s.

Fixpoint drop (n : nat) (s : string) : string :=
  match n, s with
  | S k, String _ r => drop k r
  | _, _ => s
  end.

(** [s.replace(old, new)] for a non-empty [old]: occurrences are taken
    left to right and do not overlap; [skip] counts the characters of
    the occurrence just replaced that are still to be passed over. *)
Fixpoint replace_from (old new : string) (skip : nat) (s : string) : string :=
  match s with
  | EmptyString => EmptyString
  | String c r =>
      match skip with
      | S k => replace_from old new k r
      | O =>
          if String.prefix old s
          then new ++ replace_from old new (String.length old - 1) r
          else String c (replace_from old new 0 r)
      end
  end.

Definition replace (old new s : string) : string := replace_from old new 0 s.

(** [s.find(c, start)] for a one-character [c]: [None] stands for -1. *)
Fixpoint find_from (c : ascii) (s : string) (start : nat) : option nat :=
  match s with
  | EmptyString => None
  | String a r =>
      match start with
      | S k => option_map S (find_from c r k)
      | O => if Ascii.eqb a c then Some 0
             else option_map S (find_from c r 0)
      end
  end.

(** [sep.join(items)] *)
Fixpoint join (sep : string) (items : list string) : string :=
  match items with
  | [] => EmptyString
  | [x] => x
  | x :: rest => x ++ sep ++ join sep rest
  end.

(** [str(n)] of an integer. *)
Definition digit (n : N) : ascii := ascii_of_N (48 + n).

Fixpoint pos_digits (fuel : nat) (n : N) (acc : string) : string :=
  match fuel with
  | O => acc
  | S f =>
      let acc' := String (digit (N.modulo n 10)) acc in
      if N.ltb n 10 then acc' else pos_digits f (N.div n 10) acc'
  end.

Definition str_N (n : N) : string := pos_digits (S (N.to_nat (N.log2 n))) n EmptyString.

Definition str_Z (z : Z) : string :=
  match z with
  | Zneg p => String "-" (str_N (Npos p))
  | _ => str_N (Z.to_N z)
  end.

Definition str_nat (n : nat) : string := str_N (N.of_nat n).

End Py.

(* ===================================================================== *)
(** * JSON values and Python's [json] module *)
(* ===================================================================== *)

(** A Python float.  Only its text is ever used here, so a finite float
    is kept as the decimal literal that denotes it. *)
Inductive pyfloat : Type :=
| FNum (lit : string)
| FNaN
| FInf
| FNegInf.

(** What [json.loads] returns: [None], [bool], [int], [float], [str],
    [list], and [dict] with [str] keys in insertion order. *)
#[warning="-register-all"]
Inductive json : Type :=
| JNull
| JBool (b : bool)
| JInt (n : Z)
| JFloat (f : pyfloat)
| JStr (s : string)
| JList (l : list json)
| JDict (d : list (string * json)).

Definition pydict : Type := list (string * json).

(** The double quote, and [Q]: a text written with an apostrophe wherever
    it has a double quote. *)
Definition dq : ascii := "034"%char.

Fixpoint Q (s : string) : string :=
  match s with
  | EmptyString => EmptyString
  | String c r => String (if Ascii.eqb c "'" then dq else c) (Q r)
  end.

(** [d.get(key)] and [d.get(key, default)] *)
Fixpoint dict_get (d : pydict) (key : string) : option json :=
  match d with
  | [] => None
  | (k, v) :: r => if String.eqb k key then Some v else dict_get r key
  end.

Definition dict_get_or (d : pydict) (key : string) (default : json) : json :=
  match dict_get d key with Some v => v | None => default end.

(** [d[key] = v]: an existing key keeps its place. *)
Fixpoint dict_set (d : pydict) (key : string) (v : json) : pydict :=
  match d with
  | [] => [(key, v)]
  | (k, w) :: r =>
      if String.eqb k key then (k, v) :: r else (k, w) :: dict_set r key v
  end.

Definition dict_keys (d : pydict) : list string := map fst d.
Definition dict_values (d : pydict) : list json := map snd d.

Module Json.

Definition is_ws (c : ascii) : bool :=
  let n := nat_of_ascii c in
  ((n =? 32) || (n =? 9) || (n =? 10) || (n =? 13))%nat.

Definition skip_ws (s : string) : string := Py.lstrip_with is_ws s.

Definition is_digit (c : ascii) : bool :=
  let n := nat_of_ascii c in ((48 <=? n) && (n <=? 57))%nat.

Definition hex_val (c : ascii) : option N :=
  let n := N_of_ascii c in
  if ((48 <=? n) && (n <=? 57))%N then Some (n - 48)%N
  else if ((97 <=? n) && (n <=? 102))%N then Some (n - 87)%N
  else if ((65 <=? n) && (n <=? 70))%N then Some (n - 55)%N
  else None.

Definition hex4 (a b c d : ascii) : option N :=
  match hex_val a, hex_val b, hex_val c, hex_val d with
  | Some x, Some y, Some z, Some w => Some (((x * 16 + y) * 16 + z) * 16 + w)%N
  | _, _, _, _ => None
  end.

(** The one-letter escapes of a JSON string. *)
Definition unescape (e : ascii) : option ascii :=
  if Ascii.eqb e dq then Some dq
  else if Ascii.eqb e "\" then Some "\"%char
  else if Ascii.eqb e "/" then Some "/"%char
  else if Ascii.eqb e "b" then Some "008"%char
  else if Ascii.eqb e "f" then Some "012"%char
  else if Ascii.eqb e "n" then Some "010"%char
  else if Ascii.eqb e "r" then Some "013"%char
  else if Ascii.eqb e "t" then Some "009"%char
  else None.

Definition cons_fst (c : ascii) (r : option (string * string))
  : option (string * string) :=
  match r with
  | Some (s, rest) => Some (String c s, rest)
  | None => None
  end.

(** [scanstring] in strict mode, from just after the opening quote:
    the decoded string and the text after the closing quote.  An
    escape [\uXXXX] above U+00FF has no character in this model. *)
Fixpoint scan_string (s : string) : option (string * string) :=
  match s with
  | EmptyString => None
  | String c r =>
      if Ascii.eqb c dq then Some (EmptyString, r)
      else if Ascii.eqb c "\" then
        match r with
        | String e r2 =>
            if Ascii.eqb e "u" then
              match r2 with
              | String h1 (String h2 (String h3 (String h4 r3))) =>
                  match hex4 h1 h2 h3 h4 with
                  | Some n =>
                      if (n <? 256)%N
                      then cons_fst (ascii_of_N n) (scan_string r3)
                      else None
                  | None => None
                  end
              | _ => None
              end
            else
              match unescape e with
              | Some ch => cons_fst ch (scan_string r2)
              | None => None
              end
        | EmptyString => None
        end
      else if (nat_of_ascii c <? 32)%nat then None
      else cons_fst c (scan_string r)
  end.

(** The longest run of digits at the head of [s], and the rest. *)
Fixpoint span_digits (s : string) : string * string :=
  match s with
  | String c r =>
      if is_digit c
      then let '(ds, rest) := span_digits r in (String c ds, rest)
      else (EmptyString, s)
  | EmptyString => (EmptyString, EmptyString)
  end.

Fixpoint digits_value (ds : string) (acc : N) : N :=
  match ds with
  | EmptyString => acc
  | String c r => digits_value r (acc * 10 + (N_of_ascii c - 48))%N
  end.

(** A number: an optional minus, then 0 or a run of digits not starting
    with 0, then an optional fraction (a dot and digits), then an
    optional exponent (e or E, an optional sign, digits).  Without
    fraction and exponent it is an [int], else a [float]. *)
Definition scan_number (s : string) : option (json * string) :=
  let '(sign, s1) :=
    match s with
    | String "-" r => ("-", r)
    | _ => (EmptyString, s)
    end in
  let int_part :=
    match s1 with
    | String "0" r => Some ("0", r)
    | String c _ =>
        if is_digit c then Some (span_digits s1) else None
    | EmptyString => None
    end in
  match int_part with
  | None => None
  | Some (ds, r1) =>
      let '(frac, r2) :=
        match r1 with
        | String "." r =>
            match span_digits r with
            | (EmptyString, _) => (EmptyString, r1)
            | (fs, rest) => (String "." fs, rest)
            end
        | _ => (EmptyString, r1)
        end in
      let '(expo, r3) :=
        match r2 with
        | String e r =>
            if Ascii.eqb e "e" || Ascii.eqb e "E" then
              let '(sg, r') :=
                match r with
                | String "+" t => ("+", t)
                | String "-" t => ("-", t)
                | _ => (EmptyString, r)
                end in
              match span_digits r' with
              | (EmptyString, _) => (EmptyString, r2)
              | (es, rest) => (String e (sg ++ es), rest)
              end
            else (EmptyString, r2)
        | EmptyString => (EmptyString, r2)
        end in
      match frac, expo with
      | EmptyString, EmptyString =>
          let v := Z.of_N (digits_value ds 0) in
          Some (JInt (if String.eqb sign "-" then Z.opp v else v), r3)
      | _, _ => Some (JFloat (FNum (sign ++ ds ++ frac ++ expo)), r3)
      end
  end.

(** [scan_once]: one JSON value at the head of [s], and the rest.
    [parse_members] starts just after the opening quote of a key,
    [parse_elems] at the first character of an element. *)
Fixpoint parse_value (fuel : nat) (s : string) {struct fuel}
  : option (json * string) :=
  match fuel with
  | O => None
  | S f =>
      match s with
      | EmptyString => None
      | String c r =>
          if Ascii.eqb c dq then
            match scan_string r with
            | Some (str, rest) => Some (JStr str, rest)
            | None => None
            end
          else if Ascii.eqb c "{" then
            match skip_ws r with
            | String c1 r1 =>
                if Ascii.eqb c1 "}" then Some (JDict [], r1)
                else if Ascii.eqb c1 dq then parse_members f r1 []
                else None
            | EmptyString => None
            end
          else if Ascii.eqb c "[" then
            match skip_ws r with
            | String c1 r1 =>
                if Ascii.eqb c1 "]" then Some (JList [], r1)
                else parse_elems f (String c1 r1) []
            | EmptyString => parse_elems f EmptyString []
            end
          else if String.prefix "null" s then Some (JNull, Py.drop 4 s)
          else if String.prefix "true" s then Some (JBool true, Py.drop 4 s)
          else if String.prefix "false" s then Some (JBool false, Py.drop 5 s)
          else
            match scan_number s with
            | Some res => Some res
            | None =>
                if String.prefix "NaN" s
                then Some (JFloat FNaN, Py.drop 3 s)
                else if String.prefix "Infinity" s
                then Some (JFloat FInf, Py.drop 8 s)
                else if String.prefix "-Infinity" s
                then Some (JFloat FNegInf, Py.drop 9 s)
                else None
            end
      end
  end
with parse_members (fuel : nat) (s : string) (acc : pydict) {struct fuel}
  : option (json * string) :=
  match fuel with
  | O => None
  | S f =>
      match scan_string s with
      | None => None
      | Some (key, r1) =>
          match skip_ws r1 with
          | String c2 r2 =>
              if Ascii.eqb c2 ":" then
                match parse_value f (skip_ws r2) with
                | None => None
                | Some (v, r3) =>
                    let acc' := dict_set acc key v in
                    match skip_ws r3 with
                    | String c4 r4 =>
                        if Ascii.eqb c4 "}" then Some (JDict acc', r4)
                        else if Ascii.eqb c4 "," then
                          match skip_ws r4 with
                          | String c5 r5 =>
                              if Ascii.eqb c5 dq then parse_members f r5 acc'
                              else None
                          | EmptyString => None
                          end
                        else None
                    | EmptyString => None
                    end
                end
              else None
          | EmptyString => None
          end
      end
  end
with parse_elems (fuel : nat) (s : string) (acc : list json) {struct fuel}
  : option (json * string) :=
  match fuel with
  | O => None
  | S f =>
      match parse_value f s with
      | None => None
      | Some (v, r1) =>
          match skip_ws r1 with
          | String c2 r2 =>
              if Ascii.eqb c2 "]" then Some (JList (acc ++ [v]), r2)
              else if Ascii.eqb c2 "," then parse_elems f (skip_ws r2) (acc ++ [v])
              else None
          | EmptyString => None
          end
      end
  end.

(** [json.loads(s)]: [None] stands for [json.JSONDecodeError]. *)
Definition loads (s : string) : option json :=
  match parse_value (S (S (2 * String.length s))) (skip_ws s) with
  | Some (v, rest) =>
      match skip_ws rest with
      | EmptyString => Some v
      | _ => None
      end
  | None => None
  end.

End Json.

(* ===================================================================== *)
(** * Python's [str()] and [json.dumps] on JSON values *)
(* ===================================================================== *)

Module PyStr.

Definition contains (c : ascii) (s : string) : bool :=
  existsb (Ascii.eqb c) (list_ascii_of_string s).

Definition hex_digit (n : N) : ascii :=
  if (n <? 10)%N then ascii_of_N (48 + n) else ascii_of_N (87 + n).

Definition hex2 (c : ascii) : string :=
  let n := N_of_ascii c in
  String (hex_digit (n / 16)) (String (hex_digit (n mod 16)) EmptyString).

Definition printable (c : ascii) : bool :=
  let n := nat_of_ascii c in
  (((32 <=? n) && (n <=? 126)) || ((161 <=? n) && negb (n =? 173)))%nat.

(** [repr] of a string: the quote is the apostrophe unless the string
    has an apostrophe and no double quote. *)
Definition repr_char (quote c : ascii) : string :=
  if Ascii.eqb c quote || Ascii.eqb c "\" then String "\" (String c EmptyString)
  else if Ascii.eqb c "009" then "\t"
  else if Ascii.eqb c "010" then "\n"
  else if Ascii.eqb c "013" then "\r"
  else if printable c then String c EmptyString
  else "\x" ++ hex2 c.

Fixpoint repr_body (quote : ascii) (s : string) : string :=
  match s with
  | EmptyString => EmptyString
  | String c r => repr_char quote c ++ repr_body quote r
  end.

Definition repr_str (s : string) : string :=
  let quote := if contains "'" s && negb (contains dq s) then dq else "'"%char in
  String quote (repr_body quote s ++ String quote EmptyString).

Definition str_float (f : pyfloat) : string :=
  match f with
  | FNum lit => lit
  | FNaN => "nan"
  | FInf => "inf"
  | FNegInf => "-inf"
  end.

Fixpoint repr (v : json) : string :=
  match v with
  | JNull => "None"
  | JBool true => "True"
  | JBool false => "False"
  | JInt n => Py.str_Z n
  | JFloat f => str_float f
  | JStr s => repr_str s
  | JList l => "[" ++ Py.join ", " (map repr l) ++ "]"
  | JDict d =>
      "{" ++ Py.join ", "
               (map (fun kv => let '(k, w) := kv in repr_str k ++ ": " ++ repr w) d)
          ++ "}"
  end.

(** [str(v)] *)
Definition str (v : json) : string :=
  match v with
  | JStr s => s
  | _ => repr v
  end.

End PyStr.

Module JsonDumps.

(** The encoder's string escapes with [ensure_ascii=False]. *)
Definition escape_char (c : ascii) : string :=
  if Ascii.eqb c dq then String "\" (String dq EmptyString)
  else if Ascii.eqb c "\" then "\\"
  else if Ascii.eqb c "010" then "\n"
  else if Ascii.eqb c "013" then "\r"
  else if Ascii.eqb c "009" then "\t"
  else if Ascii.eqb c "008" then "\b"
  else if Ascii.eqb c "012" then "\f"
  else if (nat_of_ascii c <? 32)%nat then "\u00" ++ PyStr.hex2 c
  else String c EmptyString.

Fixpoint escape (s : string) : string :=
  match s with
  | EmptyString => EmptyString
  | String c r => escape_char c ++ escape r
  end.

Definition encode_string (s : string) : string :=
  String dq (escape s ++ String dq EmptyString).

Definition encode_float (f : pyfloat) : string :=
  match f with
  | FNum lit => lit
  | FNaN => "NaN"
  | FInf => "Infinity"
  | FNegInf => "-Infinity"
  end.

(** [sorted(items)] on the items of a dict: by key, keys being distinct. *)
Fixpoint insert_item (x : string * string) (l : list (string * string))
  : list (string * string) :=
  match l with
  | [] => [x]
  | y :: r => if String.leb (fst x) (fst y) then x :: l else y :: insert_item x r
  end.

Fixpoint sort_items (l : list (string * string)) : list (string * string) :=
  match l with
  | [] => []
  | x :: r => insert_item x (sort_items r)
  end.

Definition encode_item (kv : string * string) : string :=
  encode_string (fst kv) ++ ": " ++ snd kv.

(** [json.dumps(v, ensure_ascii=False, sort_keys=sort_keys)] *)
Fixpoint dumps (sort_keys : bool) (v : json) : string :=
  match v with
  | JNull => "null"
  | JBool true => "true"
  | JBool false => "false"
  | JInt n => Py.str_Z n
  | JFloat f => encode_float f
  | JStr s => encode_string s
  | JList l => "[" ++ Py.join ", " (map (dumps sort_keys) l) ++ "]"
  | JDict d =>
      let items := map (fun kv => let '(k, w) := kv in (k, dumps sort_keys w)) d in
      let items := if sort_keys then sort_items items else items in
      "{" ++ Py.join ", " (map encode_item items) ++ "}"
  end.

End JsonDumps.

(* ===================================================================== *)
(** * Exceptions *)
(* ===================================================================== *)

Inductive exn : Type :=
| AgentAPIError (msg : string)
| ValueError (msg : string)
| KeyError
| IndexError
| TypeError
| AttributeError
| JSONDecodeError.

(* ===================================================================== *)
(** * The JSON extractor: [_extract_json_dict] *)
(* ===================================================================== *)

(** Lines 88-90: the text the extractor works on. *)
Definition clean_text (text : string) : string :=
  let cleaned := Py.replace "```json" "```" (Py.strip text) in
  if Py.startswith "```" cleaned
  then Py.strip (Py.strip_chars "`" cleaned)
  else cleaned.

(** How the inner [for] loop ends: with a [return], with the [break],
    or by running off the end of the text. *)
Inductive scan_outcome : Type :=
| Found (d : pydict)
| Broke
| Exhausted.

(** Lines 102-115: the [for idx in range(start, len(cleaned))] loop, with
    [n] iterations left, at index [idx] and brace depth [depth]. *)
Fixpoint scan_candidate (cleaned : string) (start n idx : nat) (depth : Z)
  : scan_outcome :=
  match n with
  | O => Exhausted
  | S n' =>
      match String.get idx cleaned with
      | None => Exhausted
      | Some ch =>
          if Ascii.eqb ch "{" then
            scan_candidate cleaned start n' (S idx) (depth + 1)
          else if Ascii.eqb ch "}" then
            let depth := (depth - 1)%Z in
            if (depth =? 0)%Z then
              match Json.loads (substring start (idx + 1 - start) cleaned) with
              | Some (JDict d) => Found d
              | Some _ => scan_candidate cleaned start n' (S idx) depth
              | None => Broke
              end
            else scan_candidate cleaned start n' (S idx) depth
          else scan_candidate cleaned start n' (S idx) depth
      end
  end.

(** Lines 99-116: the [while start != -1] loop.  [start] grows at every
    round, so [S (length cleaned)] rounds of [fuel] are never used up. *)
Fixpoint scan_starts (fuel : nat) (cleaned : string) (start : option nat)
  : option pydict :=
  match fuel, start with
  | S f, Some st =>
      match scan_candidate cleaned st (String.length cleaned - st) st 0 with
      | Found d => Some d
      | _ => scan_starts f cleaned (Py.find_from "{" cleaned (S st))
      end
  | _, _ => None
  end.

Definition parse_error (text : string) : exn :=
  ValueError ("Could not parse JSON object from model output: " ++ text).

Definition _extract_json_dict (text : string) : exn + pydict :=
  let cleaned := clean_text text in
  match Json.loads cleaned with
  | Some (JDict d) => inr d
  | _ =>
      match scan_starts (S (String.length cleaned)) cleaned
                        (Py.find_from "{" cleaned 0) with
      | Some d => inr d
      | None => inl (parse_error text)
      end
  end.

(* ===================================================================== *)
(** * [hashlib.sha256] and [str.encode("utf-8")] *)
(* ===================================================================== *)

Module Sha256.
Local Open Scope N_scope.

Definition w32 (x : N) : N := N.land x 0xffffffff.
Definition add32 (x y : N) : N := w32 (x + y).
Definition rotr (n x : N) : N := N.lor (N.shiftr x n) (w32 (N.shiftl x (32 - n))).
Definition not32 (x : N) : N := N.lxor x 0xffffffff.

Definition ch (x y z : N) : N := N.lxor (N.land x y) (N.land (not32 x) z).
Definition maj (x y z : N) : N :=
  N.lxor (N.lxor (N.land x y) (N.land x z)) (N.land y z).
Definition bsig0 (x : N) : N := N.lxor (N.lxor (rotr 2 x) (rotr 13 x)) (rotr 22 x).
Definition bsig1 (x : N) : N := N.lxor (N.lxor (rotr 6 x) (rotr 11 x)) (rotr 25 x).
Definition ssig0 (x : N) : N := N.lxor (N.lxor (rotr 7 x) (rotr 18 x)) (N.shiftr x 3).
Definition ssig1 (x : N) : N := N.lxor (N.lxor (rotr 17 x) (rotr 19 x)) (N.shiftr x 10).

(** The largest [r] below [2 ^ bits] with [r ^ k <= n], found bit by bit. *)
Fixpoint root_search (k : N) (bits : nat) (n acc : N) : N :=
  match bits with
  | O => acc
  | S b =>
      let cand := acc + 2 ^ N.of_nat b in
      if cand ^ k <=? n then root_search k b n cand else root_search k b n acc
  end.

Definition is_prime (n : nat) : bool :=
  forallb (fun d => negb (Nat.eqb (Nat.modulo n d) 0)) (seq 2 (n - 2)).

Definition primes_up_to (n : nat) : list N :=
  map N.of_nat (filter is_prime (seq 2 (n - 1))).

(** The first 32 bits of the fractional part of the [k]-th root of [p]. *)
Definition root_fraction (k p : N) : N :=
  w32 (root_search k 40 (p * 2 ^ (32 * k)) 0).

(** The round constants: cube roots of the first 64 primes. *)
Definition K : list N :=
  Eval vm_compute in map (root_fraction 3) (primes_up_to 311).

(** The initial hash value: square roots of the first 8 primes. *)
Definition H0 : list N :=
  Eval vm_compute in map (root_fraction 2) (primes_up_to 19).

(** The message followed by 0x80, zeros up to 56 modulo 64, and the bit
    length on eight bytes, most significant first. *)
Definition be_bytes (count : nat) (x : N) : list N :=
  map (fun i => N.land (N.shiftr x (8 * N.of_nat i)) 0xff) (rev (seq 0 count)).

Definition pad (msg : list N) : list N :=
  let len := List.length msg in
  let zeros := ((64 - ((len + 9) mod 64)) mod 64)%nat in
  msg ++ [0x80] ++ repeat 0 zeros ++ be_bytes 8 (8 * N.of_nat len).

Fixpoint words (fuel : nat) (bytes : list N) : list N :=
  match fuel, bytes with
  | S f, a :: b :: c :: d :: rest =>
      (((a * 256 + b) * 256 + c) * 256 + d) :: words f rest
  | _, _ => []
  end.

(** The message schedule: [w] holds the words so far, newest first. *)
Fixpoint schedule (count : nat) (w : list N) : list N :=
  match count with
  | O => w
  | S k =>
      let next :=
        add32 (add32 (ssig1 (nth 1 w 0)) (nth 6 w 0))
              (add32 (ssig0 (nth 14 w 0)) (nth 15 w 0)) in
      schedule k (next :: w)
  end.

Definition round (st : list N) (kw : N * N) : list N :=
  match st with
  | [a; b; c; d; e; f; g; h] =>
      let t1 := add32 (add32 (add32 h (bsig1 e)) (add32 (ch e f g) (fst kw))) (snd kw) in
      let t2 := add32 (bsig0 a) (maj a b c) in
      [add32 t1 t2; a; b; c; add32 d t1; e; f; g]
  | _ => st
  end.

Definition compress (st : list N) (block : list N) : list N :=
  let w := rev (schedule 48 (rev (words 16 block))) in
  let st' := fold_left round (combine K w) st in
  map (fun p => add32 (fst p) (snd p)) (combine st st').

Fixpoint blocks (fuel : nat) (bytes : list N) (st : list N) : list N :=
  match fuel, bytes with
  | S f, _ :: _ => blocks f (skipn 64 bytes) (compress st (firstn 64 bytes))
  | _, _ => st
  end.

Definition digest_words (msg : list N) : list N :=
  let p := pad msg in blocks (List.length p) p H0.

Definition hex_byte (b : N) : string :=
  String (PyStr.hex_digit (b / 16)) (String (PyStr.hex_digit (b mod 16)) EmptyString).

Definition hex_word (w : N) : string :=
  String.concat EmptyString (map hex_byte (be_bytes 4 w)).

(** [hashlib.sha256(msg).hexdigest()] *)
Definition hexdigest (msg : list N) : string :=
  String.concat EmptyString (map hex_word (digest_words msg)).

End Sha256.

(** [s.encode("utf-8")] for code points below 256. *)
Fixpoint utf8 (s : string) : list N :=
  match s with
  | EmptyString => []
  | String c r =>
      let n := N_of_ascii c in
      if (n <? 128)%N then n :: utf8 r
      else N.lor 0xc0 (N.shiftr n 6) :: N.lor 0x80 (N.land n 0x3f) :: utf8 r
  end.

(** [s[:n]] *)
Definition str_take (n : nat) (s : string) : string := substring 0 n s.

(* ===================================================================== *)
(** * Field normalizers *)
(* ===================================================================== *)

(** Truth value of a string: non-empty. *)
Definition truthy (s : string) : bool :=
  match s with
  | EmptyString => false
  | String _ _ => true
  end.

(** [s or default] on strings. *)
Definition str_or (s default : string) : string :=
  if truthy s then s else default.

Definition _as_string_list (value : json) : list string :=
  match value with
  | JList l =>
      flat_map (fun v => if truthy (Py.strip (PyStr.str v))
                         then [Py.strip (PyStr.str v)] else []) l
  | JNull => []
  | _ =>
      let text := Py.strip (PyStr.str value) in
      if truthy text then [text] else []
  end.

Definition _text_or_na (value : json) : string :=
  let text := Py.strip (PyStr.str value) in
  if truthy text then text else "N/A".

Definition _phase_1_to_core_vars (phase_1 : pydict) : list string :=
  let vars_value := dict_get_or phase_1 "core_variables" JNull in
  let vars_list := _as_string_list vars_value in
  match vars_list with
  | _ :: _ => vars_list
  | [] =>
      let legacy := dict_get_or phase_1 "variables" JNull in
      match legacy with
      | JDict d =>
          fold_left (fun merged raw => (merged ++ _as_string_list raw)%list)
                    (dict_values d) []
      | _ => _as_string_list legacy
      end
  end.

Definition _s1_internal_knowledge_items (s1_result : pydict) : list string :=
  let raw := dict_get_or s1_result "internal_knowledge" JNull in
  match raw with
  | JList l =>
      fold_left
        (fun items entry =>
           match entry with
           | JDict e =>
               let item_text := Py.strip (PyStr.str (dict_get_or e "item" (JStr EmptyString))) in
               if truthy item_text then (items ++ [item_text])%list else items
           | _ =>
               let text := Py.strip (PyStr.str entry) in
               if truthy text then (items ++ [text])%list else items
           end)
        l []
  | _ => _as_string_list raw
  end.

(* ===================================================================== *)
(** * The report and its builder: [_build_report] *)
(* ===================================================================== *)

Record logical_breakdown : Type := {
  primary_goal : string;
  core_variables : list string;
  retrieved_internal_knowledge : list string;
  internal_knowledge_used : list string;
  knowledge_gaps : list string;
  hidden_assumptions : list string;
  reality_gaps : list string
}.

Record branch : Type := {
  branch_name : string;
  branch_result : string;
  goal_impact : string
}.

Record paradox_diagnosis : Type := {
  diagnosis_type : string;
  reasoning : string;
  contradiction_path : list string
}.

Record raw_phases : Type := {
  s1_knowledge_retrieval : pydict;
  phase_1 : pydict;
  phase_2 : pydict;
  phase_3 : pydict
}.

Record report : Type := {
  report_id : string;
  logical : logical_breakdown;
  stress_test_results : list branch;
  diagnosis : paradox_diagnosis;
  suggested_mitigation : list string;
  raw : raw_phases
}.

(** Lines 261-271: the text that is hashed. *)
Definition digest_src (user_input : string) (s1_knowledge p1 p2 p3 : pydict) : string :=
  JsonDumps.dumps true
    (JDict [ ("user_input", JStr user_input);
             ("s1_knowledge", JDict s1_knowledge);
             ("phase_1", JDict p1);
             ("phase_2", JDict p2);
             ("phase_3", JDict p3) ]).

(** Line 272. *)
Definition compute_report_id (user_input : string) (s1_knowledge p1 p2 p3 : pydict)
  : string :=
  str_take 12 (Sha256.hexdigest (utf8 (digest_src user_input s1_knowledge p1 p2 p3))).

(** Lines 281-285: the record of one branch. *)
Definition branch_record (item : pydict) : branch :=
  {| branch_name := _text_or_na (dict_get_or item "name" (JStr EmptyString));
     branch_result := _text_or_na (dict_get_or item "result" (JStr EmptyString));
     goal_impact := _text_or_na (dict_get_or item "goal_impact" (JStr EmptyString)) |}.

(** Lines 274-286: entries of [branches] that are not objects are skipped. *)
Definition build_branches (p2 : pydict) : list branch :=
  match dict_get_or p2 "branches" JNull with
  | JList l =>
      fold_left
        (fun branches item =>
           match item with
           | JDict it => (branches ++ [branch_record it])%list
           | _ => branches
           end)
        l []
  | _ => []
  end.

Definition _build_report (user_input : string) (s1_knowledge p1 p2 p3 : pydict)
  : report :=
  {| report_id := compute_report_id user_input s1_knowledge p1 p2 p3;
     logical :=
       {| primary_goal := Py.strip (PyStr.str (dict_get_or p1 "stated_goal" (JStr EmptyString)));
          core_variables := _phase_1_to_core_vars p1;
          retrieved_internal_knowledge := _s1_internal_knowledge_items s1_knowledge;
          internal_knowledge_used :=
            _as_string_list (dict_get_or p1 "internal_knowledge_used" JNull);
          knowledge_gaps := _as_string_list (dict_get_or s1_knowledge "knowledge_gaps" JNull);
          hidden_assumptions := _as_string_list (dict_get_or p1 "hidden_assumptions" JNull);
          reality_gaps := _as_string_list (dict_get_or p1 "reality_gaps" JNull) |};
     stress_test_results := build_branches p2;
     diagnosis :=
       {| diagnosis_type :=
            str_or (Py.strip (PyStr.str (dict_get_or p3 "paradox_type" (JStr "None")))) "None";
          reasoning := Py.strip (PyStr.str (dict_get_or p3 "reasoning" (JStr EmptyString)));
          contradiction_path := _as_string_list (dict_get_or p3 "contradiction_path" JNull) |};
     suggested_mitigation := _as_string_list (dict_get_or p3 "mitigation" JNull);
     raw := {| s1_knowledge_retrieval := s1_knowledge;
               phase_1 := p1; phase_2 := p2; phase_3 := p3 |} |}.

(* ===================================================================== *)
(** * The report formatter: [format_report] *)
(* ===================================================================== *)

(** The formatter appends to [lines] as it goes; [lines_append x] is
    [lines.append(x)] and [seq_] runs one statement after another. *)
Definition writer : Type := list string -> list string.
Definition lines_append (x : string) : writer := fun lines => (lines ++ [x])%list.
Definition seq_ (a b : writer) : writer := fun lines => b (a lines).
Notation "a >> b" := (seq_ a b) (at level 61, right associativity).

(** [for item in items: lines.append(prefix + item)] *)
Fixpoint for_each {A : Type} (items : list A) (body : A -> writer) : writer :=
  match items with
  | [] => fun lines => lines
  | x :: rest => body x >> for_each rest body
  end.

(** The [if items: for ... else: lines.append(prefix + "N/A")] block. *)
Definition bullets (prefix : string) (items : list string) : writer :=
  match items with
  | _ :: _ => for_each items (fun item => lines_append (prefix ++ item))
  | [] => lines_append (prefix ++ "N/A")
  end.

(** [enumerate(branches, start=idx)] *)
Fixpoint enumerate {A : Type} (idx : nat) (l : list A) : list (nat * A) :=
  match l with
  | [] => []
  | x :: r => (idx, x) :: enumerate (S idx) r
  end.

Definition format_lines (r : report) : list string :=
  (lines_append ("REPORT ID: " ++ report_id r) >>
   lines_append EmptyString >>
   lines_append "1. LOGICAL BREAKDOWN" >>
   lines_append ("- Primary Goal: " ++ primary_goal (logical r)) >>
   lines_append ("- Core Variables: "
           ++ str_or (Py.join ", " (core_variables (logical r))) "N/A") >>
   lines_append "- Retrieved Internal Knowledge (S1):" >>
   bullets "  - " (retrieved_internal_knowledge (logical r)) >>
   lines_append "- Internal Knowledge Used (Phase I):" >>
   bullets "  - " (internal_knowledge_used (logical r)) >>
   lines_append "- Knowledge Gaps:" >>
   bullets "  - " (knowledge_gaps (logical r)) >>
   lines_append "- Hidden Assumptions:" >>
   bullets "  - " (hidden_assumptions (logical r)) >>
   lines_append "- Reality Gaps:" >>
   bullets "  - " (reality_gaps (logical r)) >>
   lines_append EmptyString >>
   lines_append "2. STRESS TEST RESULTS (Phase II)" >>
   match stress_test_results r with
   | _ :: _ =>
       for_each (enumerate 1 (stress_test_results r))
         (fun ib =>
            lines_append ("- Branch " ++ Py.str_nat (fst ib) ++ ": " ++ branch_name (snd ib)) >>
            lines_append ("  Result: " ++ branch_result (snd ib)) >>
            lines_append ("  Goal Impact: " ++ goal_impact (snd ib)))
   | [] => lines_append "- N/A"
   end >>
   lines_append EmptyString >>
   lines_append "3. PARADOX DIAGNOSIS (Phase III)" >>
   lines_append ("- Type: " ++ diagnosis_type (diagnosis r)) >>
   lines_append ("- Reasoning: " ++ str_or (reasoning (diagnosis r)) "N/A") >>
   lines_append "- Contradiction Path:" >>
   bullets "  - " (contradiction_path (diagnosis r)) >>
   lines_append EmptyString >>
   lines_append "4. SUGGESTED MITIGATION" >>
   bullets "- " (suggested_mitigation r))
  [].

Definition newline : string := String "010" EmptyString.

Definition format_report (r : report) : string :=
  Py.join newline (format_lines r).

(* ===================================================================== *)
(** * The chat client: [OpenAICompatClient.chat] *)
(* ===================================================================== *)

Record ModelAPIConfig : Type := {
  provider : string;
  model : string;
  base_url : string;
  api_key : string;
  timeout_seconds : pyfloat;
  chat_completions_path : string;
  default_temperature : pyfloat;
  headers : option (list (string * string))
}.

Definition endpoint (config : ModelAPIConfig) : string :=
  Py.rstrip_with (Ascii.eqb "/") (base_url config) ++ chat_completions_path config.

(** The request handed to [urllib.request.urlopen]; [data] is the payload
    that [json.dumps] puts on the wire. *)
Record http_request : Type := {
  url : string;
  data : json;
  req_headers : list (string * string);
  method : string;
  timeout : pyfloat
}.

(** What [urlopen] does with a request: a response whose body decodes to
    [raw], an [HTTPError] with its status code and body, or a [URLError]
    with its text. *)
Inductive http_outcome : Type :=
| Response (raw : string)
| HTTPError (code : Z) (detail : string)
| URLError (text : string).

Fixpoint header_set (hs : list (string * string)) (key value : string)
  : list (string * string) :=
  match hs with
  | [] => [(key, value)]
  | (k, w) :: r =>
      if String.eqb k key then (k, value) :: r else (k, w) :: header_set r key value
  end.

(** [exn + A] as the error monad. *)
Definition bind_exn {A B : Type} (c : exn + A) (k : A -> exn + B) : exn + B :=
  match c with
  | inl e => inl e
  | inr a => k a
  end.

(** [v[key]] for a string key. *)
Definition getitem_key (v : json) (key : string) : exn + json :=
  match v with
  | JDict d =>
      match dict_get d key with
      | Some x => inr x
      | None => inl KeyError
      end
  | _ => inl TypeError
  end.

(** [v[0]] *)
Definition getitem_0 (v : json) : exn + json :=
  match v with
  | JList (x :: _) => inr x
  | JList [] => inl IndexError
  | JDict _ => inl KeyError
  | JStr (String c _) => inr (JStr (String c EmptyString))
  | JStr EmptyString => inl IndexError
  | _ => inl TypeError
  end.

(** [v.strip()] *)
Definition method_strip (v : json) : exn + string :=
  match v with
  | JStr s => inr (Py.strip s)
  | _ => inl AttributeError
  end.

(** Lines 78-79: the body of the second [try]. *)
Definition read_completion (raw : string) : exn + string :=
  match Json.loads raw with
  | None => inl JSONDecodeError
  | Some data =>
      bind_exn (getitem_key data "choices") (fun choices =>
      bind_exn (getitem_0 choices) (fun first =>
      bind_exn (getitem_key first "message") (fun message =>
      bind_exn (getitem_key message "content") method_strip)))
  end.

Definition chat (urlopen : http_request -> http_outcome) (config : ModelAPIConfig)
  (system_prompt user_prompt : string) (temperature : option pyfloat)
  : exn + string :=
  if negb (truthy (api_key config)) then
    inl (AgentAPIError "API key is empty in loaded model config.")
  else
    let resolved_temperature :=
      match temperature with
      | None => default_temperature config
      | Some t => t
      end in
    let payload :=
      JDict [ ("model", JStr (model config));
              ("messages",
               JList [ JDict [("role", JStr "system"); ("content", JStr system_prompt)];
                       JDict [("role", JStr "user"); ("content", JStr user_prompt)] ]);
              ("temperature", JFloat resolved_temperature) ] in
    let hs :=
      header_set (match headers config with Some h => h | None => [] end)
                 "Authorization" ("Bearer " ++ api_key config) in
    let req := {| url := endpoint config; data := payload; req_headers := hs;
                  method := "POST"; timeout := timeout_seconds config |} in
    match urlopen req with
    | HTTPError code detail =>
        inl (AgentAPIError (provider config ++ " request failed with HTTP "
                            ++ Py.str_Z code ++ ": " ++ detail))
    | URLError text =>
        inl (AgentAPIError (provider config ++ " request failed: " ++ text))
    | Response raw =>
        match read_completion raw with
        | inl KeyError | inl IndexError | inl TypeError | inl JSONDecodeError =>
            inl (AgentAPIError (provider config
                                ++ " response is not in expected format: " ++ raw))
        | other => other
        end
    end.

(* ===================================================================== *)
(** * The pipeline: [ParadoxDetector.analyze] *)
(* ===================================================================== *)

(** The prompt templates of [src/prompts.py], each already applied to
    [str.format] (and to [json.dumps(..., indent=2)] for the stage
    results it quotes). *)
Record prompts : Type := {
  BASE_SYSTEM_PROMPT : string;
  S1_KNOWLEDGE_TEMPLATE : string -> string -> string;
  PHASE_1_TEMPLATE : string -> pydict -> string -> string;
  PHASE_2_TEMPLATE : string -> pydict -> string -> string;
  PHASE_3_TEMPLATE : string -> pydict -> pydict -> string -> string
}.

Section Pipeline.

(** The state of whatever answers the client (the endpoint, or a mock). *)
Variable World : Type.

(** [self.client.chat(system_prompt=..., user_prompt=...)] *)
Variable client_chat : string -> string -> World -> (exn + string) * World.

Variable P : prompts.
Variable output_language : string.

(** The run so far: the world and the calls made to the client. *)
Record run : Type := {
  world : World;
  calls : list (string * string)
}.

(** A computation that may raise and that talks to the client. *)
Definition M (A : Type) : Type := run -> (exn + A) * run.

Definition ret {A : Type} (a : A) : M A := fun st => (inr a, st).

Definition bind {A B : Type} (c : M A) (k : A -> M B) : M B :=
  fun st =>
    match c st with
    | (inl e, st') => (inl e, st')
    | (inr a, st') => k a st'
    end.

Definition lift {A : Type} (r : exn + A) : M A := fun st => (r, st).

Definition call_chat (system_prompt user_prompt : string) : M string :=
  fun st =>
    let '(r, w) := client_chat system_prompt user_prompt (world st) in
    (r, {| world := w; calls := (calls st ++ [(system_prompt, user_prompt)])%list |}).

Notation "x <- c ;; k" := (bind c (fun x => k))
  (at level 61, c at next level, right associativity).

Definition _run_s1_knowledge_retrieval (user_input : string) : M pydict :=
  let prompt := S1_KNOWLEDGE_TEMPLATE P output_language user_input in
  raw <- call_chat (BASE_SYSTEM_PROMPT P) prompt ;;
  lift (_extract_json_dict raw).

Definition _run_phase_1 (user_input : string) (s1_knowledge_result : pydict)
  : M pydict :=
  let prompt := PHASE_1_TEMPLATE P output_language s1_knowledge_result user_input in
  raw <- call_chat (BASE_SYSTEM_PROMPT P) prompt ;;
  lift (_extract_json_dict raw).

Definition _run_phase_2 (user_input : string) (phase_1_result : pydict)
  : M pydict :=
  let prompt := PHASE_2_TEMPLATE P output_language phase_1_result user_input in
  raw <- call_chat (BASE_SYSTEM_PROMPT P) prompt ;;
  lift (_extract_json_dict raw).

Definition _run_phase_3 (user_input : string) (phase_1_result phase_2_result : pydict)
  : M pydict :=
  let prompt :=
    PHASE_3_TEMPLATE P output_language phase_1_result phase_2_result user_input in
  raw <- call_chat (BASE_SYSTEM_PROMPT P) prompt ;;
  lift (_extract_json_dict raw).

Definition analyze (user_input : string) : M report :=
  s1_knowledge <- _run_s1_knowledge_retrieval user_input ;;
  p1 <- _run_phase_1 user_input s1_knowledge ;;
  p2 <- _run_phase_2 user_input p1 ;;
  p3 <- _run_phase_3 user_input p1 p2 ;;
  ret (_build_report user_input s1_knowledge p1 p2 p3).

(** One stage in the words of the specification: the prompt is sent with
    the base system prompt and a JSON object is extracted from the answer. *)
Definition stage_outcome (prompt : string) (w : World) : (exn + pydict) * World :=
  match client_chat (BASE_SYSTEM_PROMPT P) prompt w with
  | (inl e, w') => (inl e, w')
  | (inr raw, w') => (_extract_json_dict raw, w')
  end.

End Pipeline.

Arguments world {World} _.
Arguments calls {World} _.
Arguments Build_run {World} _ _.

(* ===================================================================== *)
(** * What the statements below are written with *)
(* ===================================================================== *)

(** A character occurs in a text. *)
Definition has_char (c : ascii) (s : string) : bool := PyStr.contains c s.

(** The shortest prefix of [s] at whose end the brace depth, [depth]
    before [s], is back to zero. *)
Fixpoint close_from (depth : nat) (s : string) : option string :=
  match s with
  | EmptyString => None
  | String c r =>
      if Ascii.eqb c "{" then option_map (String c) (close_from (S depth) r)
      else if Ascii.eqb c "}" then
        match depth with
        | 0 => None
        | 1 => Some (String c EmptyString)
        | S d => option_map (String c) (close_from d r)
        end
      else option_map (String c) (close_from depth r)
  end.

(** The candidate that starts at the head of [s]: from an opening brace
    to the first place where the depth returns to zero. *)
Definition balanced_prefix (s : string) : option string :=
  match s with
  | String c r =>
      if Ascii.eqb c "{" then option_map (String c) (close_from 1 r) else None
  | EmptyString => None
  end.

(** The candidates of a text, leftmost first: one for every opening
    brace whose depth returns to zero before the text ends. *)
Fixpoint candidates (s : string) : list string :=
  match s with
  | EmptyString => []
  | String c r =>
      match balanced_prefix s with
      | Some cand => cand :: candidates r
      | None => candidates r
      end
  end.

(** A candidate is tried by parsing it; a mapping is a success. *)
Definition as_mapping (c : string) : option pydict :=
  match Json.loads c with
  | Some (JDict d) => Some d
  | _ => None
  end.

(** The first success of a list of candidates. *)
Fixpoint first_mapping (cands : list string) : option pydict :=
  match cands with
  | [] => None
  | c :: rest =>
      match as_mapping c with
      | Some d => Some d
      | None => first_mapping rest
      end
  end.

Definition is_list (v : json) : bool :=
  match v with JList _ => true | _ => false end.

Definition is_null (v : json) : bool :=
  match v with JNull => true | _ => false end.

(** A trimmed text: neither its first nor its last character is a space. *)
Definition trimmed (s : string) : Prop := Py.strip s = s.

(** The outcome of trying one candidate in the inner loop. *)
Definition try_candidate (c : string) : scan_outcome :=
  match as_mapping c with
  | Some m => Found m
  | None => Broke
  end.

(** The first character of a text, if any, is not one that [p] strips. *)
Definition head_kept (p : ascii -> bool) (s : string) : Prop :=
  match s with
  | EmptyString => True
  | String c _ => p c = false
  end.


(** The lines of a list field: one per item, or the placeholder. *)
Definition item_lines (prefix : string) (items : list string) : list string :=
  match items with
  | [] => [prefix ++ "N/A"]
  | _ :: _ => map (String.append prefix) items
  end.

(** The three lines of a numbered branch. *)
Definition branch_lines (ib : nat * branch) : list string :=
  [ "- Branch " ++ Py.str_nat (fst ib) ++ ": " ++ branch_name (snd ib);
    "  Result: " ++ branch_result (snd ib);
    "  Goal Impact: " ++ goal_impact (snd ib) ].

Definition branches_lines (branches : list branch) : list string :=
  match branches with
  | [] => ["- N/A"]
  | _ :: _ => flat_map branch_lines (enumerate 1 branches)
  end.

(** The four-section layout, around a given line for the primary goal. *)
Definition layout (goal_line : string) (r : report) : list string :=
  (("REPORT ID: " ++ report_id r)%string
   :: EmptyString
   :: "1. LOGICAL BREAKDOWN"
   :: goal_line
   :: ("- Core Variables: "
       ++ str_or (Py.join ", " (core_variables (logical r))) "N/A")%string
   :: "- Retrieved Internal Knowledge (S1):"
   :: item_lines "  - " (retrieved_internal_knowledge (logical r))
   ++ "- Internal Knowledge Used (Phase I):"
   :: item_lines "  - " (internal_knowledge_used (logical r))
   ++ "- Knowledge Gaps:"
   :: item_lines "  - " (knowledge_gaps (logical r))
   ++ "- Hidden Assumptions:"
   :: item_lines "  - " (hidden_assumptions (logical r))
   ++ "- Reality Gaps:"
   :: item_lines "  - " (reality_gaps (logical r))
   ++ EmptyString
   :: "2. STRESS TEST RESULTS (Phase II)"
   :: branches_lines (stress_test_results r)
   ++ EmptyString
   :: "3. PARADOX DIAGNOSIS (Phase III)"
   :: ("- Type: " ++ diagnosis_type (diagnosis r))%string
   :: ("- Reasoning: " ++ str_or (reasoning (diagnosis r)) "N/A")%string
   :: "- Contradiction Path:"
   :: item_lines "  - " (contradiction_path (diagnosis r))
   ++ EmptyString
   :: "4. SUGGESTED MITIGATION"
   :: item_lines "- " (suggested_mitigation r))%list.

(** A writer that only adds the lines [added] after those already there. *)
Definition emits (w : writer) (added : list string) : Prop :=
  forall lines, w lines = (lines ++ added)%list.

(** A configuration with a credential, for the examples. *)
Definition example_config : ModelAPIConfig :=
  {| provider := "deepseek";
     model := "deepseek-chat";
     base_url := "https://api.deepseek.com/";
     api_key := "sk-test";
     timeout_seconds := FNum "90.0";
     chat_completions_path := "/chat/completions";
     default_temperature := FNum "0.2";
     headers := Some [("Content-Type", "application/json")] |}.

(** A mocked client: the world is the number of calls answered so far, and
    the [n]-th call gets the [n]-th of the canned [answers]. *)
Definition mock_chat (answers : list (exn + string))
  (system_prompt user_prompt : string) (n : nat) : (exn + string) * nat :=
  (nth n answers (inl (AgentAPIError "no more answers")), S n).

(** Templates that only name the stage and quote the statement. *)
Definition example_prompts : prompts :=
  {| BASE_SYSTEM_PROMPT := "base";
     S1_KNOWLEDGE_TEMPLATE := fun lang u => "S1 " ++ lang ++ ": " ++ u;
     PHASE_1_TEMPLATE := fun lang s1 u => "P1 " ++ lang ++ ": " ++ u;
     PHASE_2_TEMPLATE := fun lang p1 u => "P2 " ++ lang ++ ": " ++ u;
     PHASE_3_TEMPLATE := fun lang p1 p2 u => "P3 " ++ lang ++ ": " ++ u |}.

(** A report built from a Phase 1 result with two core variables and no
    stated goal. *)
Definition example_report : report :=
  _build_report "s" []
    [("core_variables", JList [JStr "alpha"; JStr "beta"])] [] [].

(** The body of a 200 response whose completion has no text. *)
Definition null_content_body : string :=
  Q "{'choices':[{'message':{'content':null}}]}".

(* ===================================================================== *)
(** * Further definitions: normal forms *)
(* ===================================================================== *)

(** A normalized text is non-empty and trimmed; a normalized list holds
    normalized texts only. *)
Definition normalized (t : string) : Prop := t <> EmptyString /\ trimmed t.

Definition normalized_list (l : list string) : Prop := Forall normalized l.

(** The text that [_s1_internal_knowledge_items] takes from one entry. *)
Definition knowledge_text (entry : json) : string :=
  match entry with
  | JDict e => Py.strip (PyStr.str (dict_get_or e "item" (JStr EmptyString)))
  | _ => Py.strip (PyStr.str entry)
  end.

(* ===================================================================== *)
(** * Further definitions: the request of [chat] *)
(* ===================================================================== *)

(** [hs.get(key)] on headers. *)
Fixpoint header_get (hs : list (string * string)) (key : string) : option string :=
  match hs with
  | [] => None
  | (k, v) :: r => if String.eqb k key then Some v else header_get r key
  end.

(** Lines 45-64 of [chat] on their own: the request it hands to
    [urlopen]. *)
Definition chat_request (config : ModelAPIConfig)
  (system_prompt user_prompt : string) (temperature : option pyfloat)
  : http_request :=
  let resolved_temperature :=
    match temperature with
    | None => default_temperature config
    | Some t => t
    end in
  let payload :=
    JDict [ ("model", JStr (model config));
            ("messages",
             JList [ JDict [("role", JStr "system"); ("content", JStr system_prompt)];
                     JDict [("role", JStr "user"); ("content", JStr user_prompt)] ]);
            ("temperature", JFloat resolved_temperature) ] in
  let hs :=
    header_set (match headers config with Some h => h | None => [] end)
               "Authorization" ("Bearer " ++ api_key config) in
  {| url := endpoint config; data := payload; req_headers := hs;
     method := "POST"; timeout := timeout_seconds config |}.

(** Lines 66-83 of [chat] on their own: what it makes of the outcome of
    the request. *)
Definition chat_outcome (config : ModelAPIConfig) (outcome : http_outcome)
  : exn + string :=
  match outcome with
  | HTTPError code detail =>
      inl (AgentAPIError (provider config ++ " request failed with HTTP "
                          ++ Py.str_Z code ++ ": " ++ detail))
  | URLError text =>
      inl (AgentAPIError (provider config ++ " request failed: " ++ text))
  | Response raw =>
      match read_completion raw with
      | inl KeyError | inl IndexError | inl TypeError | inl JSONDecodeError =>
          inl (AgentAPIError (provider config
                              ++ " response is not in expected format: " ++ raw))
      | other => other
      end
  end.

(** A configuration with another base URL. *)
Definition with_base_url (config : ModelAPIConfig) (b : string) : ModelAPIConfig :=
  {| provider := provider config;
     model := model config;
     base_url := b;
     api_key := api_key config;
     timeout_seconds := timeout_seconds config;
     chat_completions_path := chat_completions_path config;
     default_temperature := default_temperature config;
     headers := headers config |}.

(** A text made of slashes only. *)
Definition all_slashes (s : string) : bool :=
  forallb (Ascii.eqb "/") (list_ascii_of_string s).

(** The last character of a text. *)
Fixpoint last_char (s : string) : option ascii :=
  match s with
  | EmptyString => None
  | String c EmptyString => Some c
  | String _ r => last_char r
  end.

(* ===================================================================== *)
(** * Further definitions: [load_model_config] of [src/apis.py] *)
(* ===================================================================== *)

(** What [load_model_config] raises: its own [APIConfigError], or what a
    builtin it calls raises. *)
Inductive config_exn : Type :=
| APIConfigError (msg : string)
| Raised (e : exn).

(** A float literal that denotes zero: no digit from 1 to 9 before the
    exponent. *)
Fixpoint zero_literal (lit : string) : bool :=
  match lit with
  | EmptyString => true
  | String c r =>
      if Ascii.eqb c "e" || Ascii.eqb c "E" then true
      else if Json.is_digit c && negb (Ascii.eqb c "0") then false
      else zero_literal r
  end.

(** Truth value of a parsed document, for [... or {}]. *)
Definition py_truthy (v : json) : bool :=
  match v with
  | JNull => false
  | JBool b => b
  | JInt n => negb (Z.eqb n 0)
  | JFloat (FNum lit) => negb (zero_literal lit)
  | JFloat _ => true
  | JStr s => truthy s
  | JList l => match l with [] => false | _ :: _ => true end
  | JDict d => match d with [] => false | _ :: _ => true end
  end.

(** [str(data.get(key, default)).strip()] *)
Definition field (d : pydict) (key default : string) : string :=
  Py.strip (PyStr.str (dict_get_or d key (JStr default))).

(** Lines 137-143: the headers kept from the document. *)
Definition kept_headers (raw_headers : json) : list (string * string) :=
  match raw_headers with
  | JDict hd =>
      fold_left
        (fun hs kv =>
           let key_text := Py.strip (fst kv) in
           let value_text := Py.strip (PyStr.str (snd kv)) in
           if truthy key_text && truthy value_text
           then header_set hs key_text value_text
           else hs)
        hd []
  | _ => []
  end.

(** Lines 144-145. *)
Definition with_content_type (hs : list (string * string)) : list (string * string) :=
  match header_get hs "Content-Type" with
  | Some _ => hs
  | None => header_set hs "Content-Type" "application/json"
  end.

Definition bind_config {A B : Type} (c : config_exn + A) (k : A -> config_exn + B)
  : config_exn + B :=
  match c with
  | inl e => inl e
  | inr a => k a
  end.

(** Lines 102-156 of [load_model_config].  [path] is the path that
    [_resolve_config_path] returned, [document] what [yaml.safe_load]
    made of the file ([None] when reading or parsing raised), [getenv]
    the environment, and [to_float] the builtin [float]. *)
Definition load_model_config (path : string) (document : option json)
  (getenv : string -> option string) (to_float : json -> config_exn + pyfloat)
  : config_exn + ModelAPIConfig :=
  match document with
  | None => inl (APIConfigError ("Failed to read model config YAML: " ++ path))
  | Some loaded =>
      let data := if py_truthy loaded then loaded else JDict [] in
      match data with
      | JDict d =>
          let provider := field d "provider" EmptyString in
          let model := field d "model" EmptyString in
          let base_url := field d "base_url" EmptyString in
          if negb (truthy provider) || negb (truthy model) || negb (truthy base_url)
          then inl (APIConfigError ("Invalid config " ++ path
                                    ++ ": provider/model/base_url are required."))
          else
            let api_key_env := field d "api_key_env" EmptyString in
            let inline_key := field d "api_key" EmptyString in
            let api_key :=
              if truthy api_key_env
              then Py.strip (match getenv api_key_env with
                             | Some v => v
                             | None => EmptyString
                             end)
              else EmptyString in
            let api_key := if truthy api_key then api_key else inline_key in
            if negb (truthy api_key) then
              let hint := if truthy api_key_env then "env " ++ api_key_env else "api_key" in
              inl (APIConfigError ("API key is empty for " ++ path ++ ". Set " ++ hint
                                   ++ " or fill api_key in YAML."))
            else
              let chat_path := field d "chat_completions_path" "/chat/completions" in
              let chat_path :=
                if Py.startswith "/" chat_path then chat_path else "/" ++ chat_path in
              bind_config (to_float (dict_get_or d "timeout_seconds" (JInt 90)))
                (fun timeout_seconds =>
              bind_config (to_float (dict_get_or d "default_temperature"
                                                 (JFloat (FNum "0.2"))))
                (fun default_temperature =>
              let hs := with_content_type (kept_headers (dict_get_or d "headers" JNull)) in
              inr {| provider := provider;
                     model := model;
                     base_url := base_url;
                     api_key := api_key;
                     timeout_seconds := timeout_seconds;
                     chat_completions_path := chat_path;
                     default_temperature := default_temperature;
                     headers := Some hs |}))
      | _ =>
          inl (APIConfigError ("Invalid YAML object in " ++ path
                               ++ ": expected mapping at root."))
      end
  end.

(** A [float] for the examples: integers and floats only. *)
Definition example_float (v : json) : config_exn + pyfloat :=
  match v with
  | JInt n => inr (FNum (Py.str_Z n ++ ".0"))
  | JFloat f => inr f
  | _ => inl (Raised TypeError)
  end.

(** A header whose name and value are normalized. *)
Definition header_ok (kv : string * string) : Prop :=
  normalized (fst kv) /\ normalized (snd kv).

(** A document for the examples, and its environment. *)
Definition example_document : json :=
  JDict [ ("provider", JStr " deepseek ");
          ("model", JStr "deepseek-chat");
          ("base_url", JStr "https://api.deepseek.com/");
          ("api_key_env", JStr "DEEPSEEK_API_KEY");
          ("api_key", JStr "sk-inline");
          ("chat_completions_path", JStr "chat/completions");
          ("timeout_seconds", JInt 30);
          ("headers", JDict [ (" X-Team ", JStr " logic ");
                              ("X-Empty", JStr "  ");
                              ("X-Team", JInt 7) ]) ].

Definition example_getenv (name : string) : option string :=
  if String.eqb name "DEEPSEEK_API_KEY" then Some " sk-env " else None.

(** What [load_model_config] makes of [example_document]. *)
Definition example_loaded : ModelAPIConfig :=
  {| provider := "deepseek";
     model := "deepseek-chat";
     base_url := "https://api.deepseek.com/";
     api_key := "sk-env";
     timeout_seconds := FNum "30.0";
     chat_completions_path := "/chat/completions";
     default_temperature := FNum "0.2";
     headers := Some [("X-Team", "7"); ("Content-Type", "application/json")] |}.

(** A document whose fields are all null, and what is loaded from it. *)
Definition null_document : pydict :=
  [ ("provider", JNull); ("model", JNull); ("base_url", JNull); ("api_key", JNull) ].

Definition null_loaded : ModelAPIConfig :=
  {| provider := "None";
     model := "None";
     base_url := "None";
     api_key := "None";
     timeout_seconds := FNum "90.0";
     chat_completions_path := "/chat/completions";
     default_temperature := FNum "0.2";
     headers := Some [("Content-Type", "application/json")] |}.


(* ===================================================================== *)
(** * The command lines: [run.py] and [src/demo.py] *)
(* ===================================================================== *)

(** How a command ends: with [return code] or [SystemExit(code)], with
    an exception that nothing catches, or with the [EOFError] of
    [input] at the end of the input. *)
Inductive ending : Type :=
| Exit (code : Z)
| Uncaught (e : config_exn)
| EndOfInput.

(** [s.lower()] on the code points below 256: the capital letters are
    A to Z and U+00C0 to U+00DE without the multiplication sign. *)
Definition lower_char (c : ascii) : ascii :=
  let n := nat_of_ascii c in
  if ((65 <=? n) && (n <=? 90)
      || (192 <=? n) && (n <=? 222) && negb (n =? 215))%nat
  then ascii_of_nat (n + 32)
  else c.

Fixpoint lower (s : string) : string :=
  match s with
  | EmptyString => EmptyString
  | String c r => String (lower_char c) (lower r)
  end.

(** [_read_statement] of [run.py] and [_read_question] of [demo.py]:
    [line] is what [input] returns, [None] at the end of the input. *)
Definition _read_statement (parts : list string) (line : option string)
  : option string :=
  match parts with
  | [] => option_map Py.strip line
  | _ :: _ => Some (Py.strip (Py.join " " parts))
  end.

Definition _read_question (parts : list string) (line : option string)
  : option string :=
  match parts with
  | [] => option_map Py.strip line
  | _ :: _ => Some (Py.strip (Py.join " " parts))
  end.

(** [_default_system_prompt] of [demo.py]. *)
Definition _default_system_prompt (lang : string) : string :=
  "You are a general assistant. "
  ++ "Respond directly, clearly, and rigorously in " ++ lang ++ ".".

(** The parsed arguments of [run.py]. *)
Record run_args : Type := {
  args_statement : list string;
  args_lang : string;
  args_config : option string;
  args_json : bool
}.

(** The parsed arguments of [demo.py]. *)
Record demo_args : Type := {
  demo_question : list string;
  demo_config : option string;
  demo_lang : string;
  demo_system : option string;
  demo_temperature : option pyfloat;
  demo_json : bool;
  demo_interactive : bool
}.

(** [question.lower() in {"/exit", "exit", "quit"}] *)
Definition is_exit_word (question : string) : bool :=
  existsb (String.eqb (lower question)) ["/exit"; "exit"; "quit"].

(** The JSON text that [demo.py] prints: [json.dumps] with [indent=2]
    of a mapping of four texts. *)
Definition dumps_answer (provider model question answer : string) : string :=
  "{" ++ newline
  ++ "  " ++ JsonDumps.encode_string "provider" ++ ": "
  ++ JsonDumps.encode_string provider ++ "," ++ newline
  ++ "  " ++ JsonDumps.encode_string "model" ++ ": "
  ++ JsonDumps.encode_string model ++ "," ++ newline
  ++ "  " ++ JsonDumps.encode_string "question" ++ ": "
  ++ JsonDumps.encode_string question ++ "," ++ newline
  ++ "  " ++ JsonDumps.encode_string "answer" ++ ": "
  ++ JsonDumps.encode_string answer ++ newline
  ++ "}".

Section Commands.

(** The state of the network. *)
Variable World : Type.

(** [urllib.request.urlopen] with the reading of the answer. *)
Variable urlopen : http_request -> World -> http_outcome * World.

(** The templates of [src/prompts.py]. *)
Variable P : prompts.

(** [load_model_config(name)] on this machine. *)
Variable load : option string -> config_exn + ModelAPIConfig.

(** [json.dumps(report, ensure_ascii=False, indent=2)] *)
Variable dumps_report : report -> string.

(** [str(exc)] of a [json.JSONDecodeError], which is a [ValueError]. *)
Variable decode_error_text : string.

(** The two characters that end the banner of [demo.py]; they are above
    U+00FF. *)
Variable quit_hint : string.

(** [OpenAICompatClient(config).chat] over that network: [chat] with
    the state passed on. *)
Definition client_chat (config : ModelAPIConfig) (temperature : option pyfloat)
  (system_prompt user_prompt : string) (w : World) : (exn + string) * World :=
  if negb (truthy (api_key config)) then
    (inl (AgentAPIError "API key is empty in loaded model config."), w)
  else
    let '(outcome, w') :=
      urlopen (chat_request config system_prompt user_prompt temperature) w in
    (chat_outcome config outcome, w').

(** The text of [print(f"[ERROR] {exc}")] when
    [except (APIConfigError, AgentAPIError, ValueError)] of [run.py]
    catches the exception. *)
Definition caught_by_run (e : config_exn) : option string :=
  match e with
  | APIConfigError msg => Some msg
  | Raised (AgentAPIError msg) => Some msg
  | Raised (ValueError msg) => Some msg
  | Raised JSONDecodeError => Some decode_error_text
  | Raised _ => None
  end.

Definition run_failure (e : config_exn) : ending * list string :=
  match caught_by_run e with
  | Some msg => (Exit 1, ["[ERROR] " ++ msg])
  | None => (Uncaught e, [])
  end.

(** [main] of [run.py] after [parse_args]: how it ends, the texts it
    prints, and the calls made to the client. *)
Definition main (args : run_args) (line : option string) (w : World)
  : (ending * list string) * run World :=
  let st := {| world := w; calls := [] |} in
  match _read_statement (args_statement args) line with
  | None => ((EndOfInput, []), st)
  | Some statement =>
      if negb (truthy statement) then ((Exit 2, []), st)
      else
        match load (args_config args) with
        | inl e => (run_failure e, st)
        | inr loaded_config =>
            match analyze World (client_chat loaded_config None) P (args_lang args)
                          statement st with
            | (inl e, st') => (run_failure (Raised e), st')
            | (inr report, st') =>
                ((Exit 0, [if args_json args then dumps_report report
                           else format_report report]), st')
            end
        end
  end.

(** [_ask_once] of [demo.py]. *)
Definition _ask_once (config : ModelAPIConfig) (system_prompt question : string)
  (temperature : option pyfloat) : M World string :=
  call_chat World (client_chat config temperature) system_prompt question.

(** The [while True] loop of [demo.py] over the lines that [input] has
    to give: how it ends, the texts printed, the run, and the lines left
    unread. *)
Fixpoint interactive (config : ModelAPIConfig) (system_prompt : string)
  (temperature : option pyfloat) (inputs : list string) (printed : list string)
  (st : run World) : (ending * list string) * (run World * list string) :=
  match inputs with
  | [] => ((EndOfInput, printed), (st, []))
  | line :: rest =>
      let question := Py.strip line in
      if negb (truthy question) then
        interactive config system_prompt temperature rest printed st
      else if is_exit_word question then ((Exit 0, printed), (st, rest))
      else
        match _ask_once config system_prompt question temperature st with
        | (inl (AgentAPIError msg), st') =>
            interactive config system_prompt temperature rest
                        (printed ++ [("[ERROR] " ++ msg)%string])%list st'
        | (inl e, st') => ((Uncaught (Raised e), printed), (st', rest))
        | (inr answer, st') =>
            interactive config system_prompt temperature rest
                        (printed ++ [("A> " ++ answer)%string])%list st'
        end
  end.

(** [main] of [demo.py] after [parse_args]. *)
Definition demo_main (args : demo_args) (inputs : list string) (w : World)
  : (ending * list string) * (run World * list string) :=
  let st := {| world := w; calls := [] |} in
  match load (demo_config args) with
  | inl (APIConfigError msg) => ((Exit 1, ["[ERROR] " ++ msg]), (st, inputs))
  | inl e => ((Uncaught e, []), (st, inputs))
  | inr config =>
      let system_prompt :=
        match demo_system args with
        | Some s => if truthy s then s else _default_system_prompt (demo_lang args)
        | None => _default_system_prompt (demo_lang args)
        end in
      if demo_interactive args then
        interactive config system_prompt (demo_temperature args) inputs
          ["[INFO] Interactive mode on | provider=" ++ provider config
           ++ " model=" ++ model config ++ " | /exit " ++ quit_hint]
          st
      else
        let unread :=
          match demo_question args with [] => tl inputs | _ :: _ => inputs end in
        match _read_question (demo_question args) (hd_error inputs) with
        | None => ((EndOfInput, []), (st, unread))
        | Some question =>
            if negb (truthy question) then ((Exit 2, []), (st, unread))
            else
              match _ask_once config system_prompt question (demo_temperature args) st
              with
              | (inl (AgentAPIError msg), st') =>
                  ((Exit 1, ["[ERROR] " ++ msg]), (st', unread))
              | (inl e, st') => ((Uncaught (Raised e), []), (st', unread))
              | (inr answer, st') =>
                  ((Exit 0, [if demo_json args
                             then dumps_answer (provider config) (model config)
                                               question answer
                             else answer]), (st', unread))
              end
        end
  end.

End Commands.

(** The questions among the lines read: trimmed, not blank and not a
    word that ends the session. *)
Definition asked_questions (read : list string) : list string :=
  filter (fun q => truthy q && negb (is_exit_word q)) (map Py.strip read).

(** A line of the session: an answer or an error. *)
Definition session_line (l : string) : Prop :=
  String.prefix "A> " l = true \/ String.prefix "[ERROR] " l = true.

(** The system prompt that [demo.py] uses. *)
Definition demo_system_prompt (args : demo_args) : string :=
  match demo_system args with
  | Some s => if truthy s then s else _default_system_prompt (demo_lang args)
  | None => _default_system_prompt (demo_lang args)
  end.

(** A network for the examples: the world counts the requests, and every
    request is answered with the same completion. *)
Definition example_network (req : http_request) (n : nat) : http_outcome * nat :=
  (Response (Q "{'choices':[{'message':{'content':' 42 '}}]}"), S n).

(** A [float] for the examples: that of [example_float], and the
    [ValueError] of [float] on a text, which is right on the texts that
    are not numbers. *)
Definition text_refusing_float (v : json) : config_exn + pyfloat :=
  match v with
  | JStr s =>
      inl (Raised (ValueError ("could not convert string to float: "
                               ++ PyStr.repr (JStr s))))
  | other => example_float other
  end.

(** A document whose timeout is not a number. *)
Definition slow_document : json :=
  JDict [ ("provider", JStr "deepseek");
          ("model", JStr "deepseek-chat");
          ("base_url", JStr "https://api.deepseek.com");
          ("api_key", JStr "sk-inline");
          ("timeout_seconds", JStr "fast") ].

(** Loaders for the examples: whatever the name, the file holds
    [example_document], or [slow_document]. *)
Definition example_loader (name : option string) : config_exn + ModelAPIConfig :=
  load_model_config "m.yaml" (Some example_document) example_getenv example_float.

Definition slow_loader (name : option string) : config_exn + ModelAPIConfig :=
  load_model_config "m.yaml" (Some slow_document) example_getenv text_refusing_float.

Definition example_demo_args : demo_args :=
  {| demo_question := ["What"; "is"; "6 x 7? "];
     demo_config := None;
     demo_lang := "English";
     demo_system := Some EmptyString;
     demo_temperature := None;
     demo_json := false;
     demo_interactive := false |}.

Definition example_run_args : run_args :=
  {| args_statement := ["This statement is false."];
     args_lang := "English";
     args_config := None;
     args_json := false |}.

(* ===================================================================== *)
(** * Further definitions: the round trip through [json.dumps] *)
(* ===================================================================== *)

(** What follows a value in a serialization: nothing, a comma or a
    closing bracket. *)
Definition delimited (rest : string) : bool :=
  match rest with
  | EmptyString => true
  | String c _ => Ascii.eqb c "," || Ascii.eqb c "]" || Ascii.eqb c "}"
  end.

Fixpoint distinct (l : list string) : bool :=
  match l with
  | [] => true
  | x :: r => negb (existsb (String.eqb x) r) && distinct r
  end.

(** A literal that the scanner reads whole, as a float. *)
Definition float_literal (lit : string) : bool :=
  match Json.scan_number lit with
  | Some (JFloat (FNum l), EmptyString) => String.eqb l lit
  | _ => false
  end.

(** A value as Python has it: the keys of a mapping are distinct, and a
    finite float is written as a float literal. *)
Fixpoint well_formed (v : json) : bool :=
  match v with
  | JFloat (FNum lit) => float_literal lit
  | JList l => forallb well_formed l
  | JDict d =>
      distinct (map fst d) && forallb (fun kv => well_formed (snd kv)) d
  | _ => true
  end.

(** The nodes of a value, which bound the depth of the calls that read
    its serialization. *)
Fixpoint nodes (v : json) : nat :=
  match v with
  | JList l => S (fold_right (fun e n => S (nodes e + n)) 0%nat l)
  | JDict d => S (fold_right (fun kv n => S (nodes (snd kv) + n)) 0%nat d)
  | _ => 1%nat
  end.

(* ===================================================================== *)
(** * Further definitions: the paths of [src/apis.py] *)
(* ===================================================================== *)

(** [s.endswith(suffix)] *)
Definition endswith (suffix s : string) : bool :=
  (String.length suffix <=? String.length s)%nat
  && String.eqb (substring (String.length s - String.length suffix)
                           (String.length suffix) s) suffix.

(** [sorted(names)]: texts are compared by code points. *)
Fixpoint insert_name (x : string) (l : list string) : list string :=
  match l with
  | [] => [x]
  | y :: r => if String.leb x y then x :: l else y :: insert_name x r
  end.

Fixpoint sort_names (l : list string) : list string :=
  match l with
  | [] => []
  | x :: r => insert_name x (sort_names r)
  end.

(** [set(names)], whose order does not matter to [sorted]. *)
Fixpoint dedup (l : list string) : list string :=
  match l with
  | [] => []
  | x :: r => if existsb (String.eqb x) r then dedup r else x :: dedup r
  end.

(** [list_model_configs]: [entries] are the names in the directory of
    the models, [None] when it does not exist.  A pattern is matched
    with the case of the names, as [glob] does on POSIX. *)
Definition list_model_configs (entries : option (list string)) : list string :=
  match entries with
  | None => []
  | Some present =>
      let names :=
        (sort_names (filter (endswith ".yaml") present)
         ++ sort_names (filter (endswith ".yml") present))%list in
      sort_names (dedup names)
  end.

(** A list of texts in ascending order, without repetition. *)
Fixpoint ascending (l : list string) : bool :=
  match l with
  | [] => true
  | x :: r =>
      match r with
      | [] => true
      | y :: _ => String.ltb x y && ascending r
      end
  end.

Section Resolving.

(** [pathlib.Path], with [Path(text).expanduser()], [base_dir / name]
    and [is_file]; the names in [base_dir] and its text. *)
Variable Path : Type.
Variable of_text : string -> Path.
Variable child : string -> Path.
Variable is_file : Path -> bool.
Variable entries : option (list string).
Variable base_text : string.
Variable getenv : string -> option string.

(** [_resolve_config_path] *)
Definition _resolve_config_path (config : option string) : config_exn + Path :=
  let given := Py.strip (match config with Some c => c | None => EmptyString end) in
  let candidate :=
    if truthy given then given
    else Py.strip (match getenv "PARADOX_MODEL_CONFIG" with
                   | Some v => v
                   | None => EmptyString
                   end) in
  if truthy candidate then
    let raw := of_text candidate in
    if is_file raw then inr raw
    else
      let normalized :=
        if endswith ".yaml" candidate || endswith ".yml" candidate
        then candidate else candidate ++ ".yaml" in
      let name_path := child normalized in
      if is_file name_path then inr name_path
      else
        inl (APIConfigError
               ("Model config not found: " ++ candidate ++ ". "
                ++ "Try one of: "
                ++ str_or (Py.join ", " (list_model_configs entries)) "N/A"))
  else
    let default_path := child "deepseek-chat.yaml" in
    if is_file default_path then inr default_path
    else
      match list_model_configs entries with
      | [] =>
          inl (APIConfigError
                 ("No model YAML found under " ++ base_text ++ ". "
                  ++ "Create a config like assets/models/deepseek-chat.yaml."))
      | first :: _ => inr (child first)
      end.

End Resolving.

(* ===================================================================== *)
(** * Further definitions: the lines of a formatted report *)
(* ===================================================================== *)

(** A lowercase hexadecimal digit. *)
Definition hex_char (c : ascii) : bool :=
  existsb (Ascii.eqb c) (list_ascii_of_string "0123456789abcdef").

(** A text of lowercase hexadecimal digits. *)
Definition hex_text (s : string) : bool :=
  forallb hex_char (list_ascii_of_string s).

(** A line that does not end in white space. *)
Definition ends_clean (l : string) : Prop := Py.rstrip_with Py.isspace l = l.
(* ===================================================================== *)
(** * Lemmas on texts *)
(* ===================================================================== *)

Lemma strlen_app (a b : string) :
  String.length (a ++ b) = String.length a + String.length b.
Proof. induction a as [|c a IH]; simpl; [reflexivity | now rewrite IH]. Qed.

Lemma app_assoc_str (a b c : string) : (a ++ b) ++ c = a ++ b ++ c.
Proof. induction a as [|x a IH]; simpl; [reflexivity | now rewrite IH]. Qed.

Lemma app_empty_r (a : string) : a ++ EmptyString = a.
Proof. induction a as [|x a IH]; simpl; [reflexivity | now rewrite IH]. Qed.

Lemma get_app_skip (pre t : string) (i : nat) :
  String.get (String.length pre + i) (pre ++ t) = String.get i t.
Proof. induction pre as [|c pre IH]; simpl; [reflexivity | exact IH]. Qed.

Lemma get_at_length (a : string) (c : ascii) (r : string) :
  String.get (String.length a) (a ++ String c r) = Some c.
Proof. induction a as [|x a IH]; simpl; [reflexivity | exact IH]. Qed.

Lemma substring_app_skip (pre t : string) (n : nat) :
  substring (String.length pre) n (pre ++ t) = substring 0 n t.
Proof. induction pre as [|c pre IH]; simpl; [reflexivity | exact IH]. Qed.

Lemma substring_prefix (a b : string) :
  substring 0 (String.length a) (a ++ b) = a.
Proof.
  induction a as [|c a IH]; simpl.
  - destruct b; reflexivity.
  - now rewrite IH.
Qed.

Lemma snoc_app (a : string) (c : ascii) (r : string) :
  a ++ String c r = (a ++ String c EmptyString) ++ r.
Proof. now rewrite app_assoc_str. Qed.

Lemma length_snoc (a : string) (c : ascii) :
  String.length (a ++ String c EmptyString) = S (String.length a).
Proof. rewrite strlen_app; simpl; lia. Qed.

Lemma has_char_cons (c x : ascii) (s : string) :
  has_char c (String x s) = Ascii.eqb c x || has_char c s.
Proof. reflexivity. Qed.

Lemma has_char_app (c : ascii) (a b : string) :
  has_char c (a ++ b) = has_char c a || has_char c b.
Proof.
  induction a as [|x a IH]; [reflexivity|].
  change (String x a ++ b) with (String x (a ++ b)).
  rewrite !has_char_cons, IH. now rewrite orb_assoc.
Qed.

(* ===================================================================== *)
(** * Lemmas on the JSON parser *)
(* ===================================================================== *)

Lemma parse_members_dict : forall f s acc v rest,
  Json.parse_members f s acc = Some (v, rest) -> exists d, v = JDict d.
Proof.
  induction f as [|f IH]; intros s acc v rest H; [discriminate|].
  cbn [Json.parse_members] in H.
  destruct (Json.scan_string s) as [[key r1]|]; [|discriminate].
  destruct (Json.skip_ws r1) as [|c2 r2]; [discriminate|].
  destruct (Ascii.eqb c2 ":"); [|discriminate].
  destruct (Json.parse_value f (Json.skip_ws r2)) as [[w r3]|]; [|discriminate].
  destruct (Json.skip_ws r3) as [|c4 r4]; [discriminate|].
  destruct (Ascii.eqb c4 "}").
  - inversion H; subst. eauto.
  - destruct (Ascii.eqb c4 ","); [|discriminate].
    destruct (Json.skip_ws r4) as [|c5 r5]; [discriminate|].
    destruct (Ascii.eqb c5 dq); [|discriminate]. eapply IH; eassumption.
Qed.

Lemma parse_elems_list : forall f s acc v rest,
  Json.parse_elems f s acc = Some (v, rest) -> exists l, v = JList l.
Proof.
  induction f as [|f IH]; intros s acc v rest H; [discriminate|].
  cbn [Json.parse_elems] in H.
  destruct (Json.parse_value f s) as [[w r1]|]; [|discriminate].
  destruct (Json.skip_ws r1) as [|c2 r2]; [discriminate|].
  destruct (Ascii.eqb c2 "]").
  - inversion H; subst. eauto.
  - destruct (Ascii.eqb c2 ","); [|discriminate]. eapply IH; eassumption.
Qed.

Lemma scan_number_not_dict : forall s v rest d,
  Json.scan_number s = Some (v, rest) -> v <> JDict d.
Proof.
  intros s v rest d H. unfold Json.scan_number in H.
  repeat match type of H with
         | context [let '(_, _) := ?e in _] => destruct e
         | context [match ?e with Some _ => _ | None => _ end] =>
             destruct e; [|discriminate]
         end.
  destruct s4, s6; inversion H; discriminate.
Qed.

(** A value that parses to a mapping starts with an opening brace. *)
Lemma parse_value_dict_head : forall f s d rest,
  Json.parse_value f s = Some (JDict d, rest) -> exists r, s = String "{" r.
Proof.
  intros [|f] s d rest H; [discriminate|].
  destruct s as [|c r]; [discriminate|].
  cbn [Json.parse_value] in H.
  destruct (Ascii.eqb c dq).
  { destruct (Json.scan_string r) as [[x y]|]; discriminate. }
  destruct (Ascii.eqb_spec c "{") as [->|_]; [eauto|].
  destruct (Ascii.eqb c "[").
  { destruct (Json.skip_ws r) as [|c1 r1].
    - apply parse_elems_list in H. destruct H; discriminate.
    - destruct (Ascii.eqb c1 "]"); [discriminate|].
      apply parse_elems_list in H. destruct H; discriminate. }
  destruct (String.prefix "null" (String c r)); [discriminate|].
  destruct (String.prefix "true" (String c r)); [discriminate|].
  destruct (String.prefix "false" (String c r)); [discriminate|].
  destruct (Json.scan_number (String c r)) as [[w y]|] eqn:E.
  { inversion H; subst. now apply scan_number_not_dict with (d := d) in E. }
  destruct (String.prefix "NaN" (String c r)); [discriminate|].
  destruct (String.prefix "Infinity" (String c r)); [discriminate|].
  destruct (String.prefix "-Infinity" (String c r)); discriminate.
Qed.

(** A value that starts with an opening brace parses to a mapping. *)
Lemma parse_value_brace_dict : forall f r v rest,
  Json.parse_value f (String "{" r) = Some (v, rest) -> exists d, v = JDict d.
Proof.
  intros [|f] r v rest H; [discriminate|].
  cbn [Json.parse_value] in H.
  change (Ascii.eqb "{" dq) with false in H.
  change (Ascii.eqb "{" "{") with true in H.
  cbv iota in H.
  destruct (Json.skip_ws r) as [|c1 r1]; [discriminate|].
  destruct (Ascii.eqb c1 "}").
  - inversion H; subst. eauto.
  - destruct (Ascii.eqb c1 dq); [|discriminate].
    eapply parse_members_dict; eassumption.
Qed.

Lemma lstrip_with_has_char (p : ascii -> bool) (c : ascii) (s : string) :
  has_char c (Py.lstrip_with p s) = true -> has_char c s = true.
Proof.
  induction s as [|x s IH]; simpl; [trivial|].
  destruct (p x); [|trivial].
  intros H. rewrite has_char_cons. rewrite (IH H). apply orb_true_r.
Qed.

Lemma loads_dict_has_brace (s : string) (d : pydict) :
  Json.loads s = Some (JDict d) -> has_char "{" s = true.
Proof.
  unfold Json.loads. intros H.
  destruct (Json.parse_value _ (Json.skip_ws s)) as [[v rest]|] eqn:E; [|discriminate].
  destruct (Json.skip_ws rest); [|discriminate].
  inversion H; subst.
  apply parse_value_dict_head in E. destruct E as [r E].
  apply (lstrip_with_has_char Json.is_ws). unfold Json.skip_ws in E. rewrite E.
  reflexivity.
Qed.

Lemma loads_brace_dict (r : string) (v : json) :
  Json.loads (String "{" r) = Some v -> exists d, v = JDict d.
Proof.
  unfold Json.loads. change (Json.skip_ws (String "{" r)) with (String "{" r).
  intros H.
  destruct (Json.parse_value _ (String "{" r)) as [[w rest]|] eqn:E; [|discriminate].
  destruct (Json.skip_ws rest); [|discriminate].
  inversion H; subst. eapply parse_value_brace_dict; eassumption.
Qed.

(* ===================================================================== *)
(** * The extractor returns the leftmost candidate that is a mapping *)
(* ===================================================================== *)

Lemma scan_candidate_from : forall rest pre r0 d,
  1 <= d ->
  scan_candidate (pre ++ String "{" r0 ++ rest) (String.length pre)
                 (String.length rest)
                 (String.length pre + String.length (String "{" r0)) (Z.of_nat d)
  = match close_from d rest with
    | Some c => try_candidate (String "{" r0 ++ c)
    | None => Exhausted
    end.
Proof.
  induction rest as [|ch r IH]; intros pre r0 d Hd; [reflexivity|].
  change (String.length (String ch r)) with (S (String.length r)).
  cbn [scan_candidate close_from].
  rewrite get_app_skip, get_at_length.
  assert (Hstep : forall d', 1 <= d' ->
    scan_candidate (pre ++ String "{" r0 ++ String ch r) (String.length pre)
                   (String.length r)
                   (S (String.length pre + String.length (String "{" r0))) (Z.of_nat d')
    = match option_map (String ch) (close_from d' r) with
      | Some c => try_candidate (String "{" r0 ++ c)
      | None => Exhausted
      end).
  { intros d' Hd'.
    rewrite (snoc_app (String "{" r0) ch r).
    replace (S (String.length pre + String.length (String "{" r0)))
      with (String.length pre + String.length (String "{" r0 ++ String ch EmptyString))
      by (rewrite length_snoc; lia).
    change (String "{" r0 ++ String ch EmptyString)
      with (String "{" (r0 ++ String ch EmptyString)).
    rewrite IH by assumption.
    destruct (close_from d' r) as [c|]; [|reflexivity].
    cbn [option_map].
    change (String "{" (r0 ++ String ch EmptyString) ++ c)
      with (String "{" ((r0 ++ String ch EmptyString) ++ c)).
    now rewrite app_assoc_str. }
  destruct (Ascii.eqb ch "{").
  - replace (Z.of_nat d + 1)%Z with (Z.of_nat (S d)) by lia.
    apply Hstep. lia.
  - destruct (Ascii.eqb ch "}").
    + destruct d as [|[|d]]; [lia| |].
      * change (Z.of_nat 1 - 1 =? 0)%Z with true. cbv iota.
        replace (String.length pre + String.length (String "{" r0) + 1 - String.length pre)
          with (String.length (String "{" r0 ++ String ch EmptyString))
          by (rewrite length_snoc; lia).
        rewrite substring_app_skip, (snoc_app (String "{" r0) ch r), substring_prefix.
        change (String "{" r0 ++ String ch EmptyString)
          with (String "{" (r0 ++ String ch EmptyString)).
        unfold try_candidate, as_mapping. cbn [option_map].
        destruct (Json.loads (String "{" (r0 ++ String ch EmptyString))) as [v|] eqn:E;
          [|reflexivity].
        destruct (loads_brace_dict _ _ E) as [m ->]. reflexivity.
      * replace (Z.of_nat (S (S d)) - 1 =? 0)%Z with false by (symmetry; apply Z.eqb_neq; lia).
        replace (Z.of_nat (S (S d)) - 1)%Z with (Z.of_nat (S d)) by lia.
        apply Hstep. lia.
    + apply Hstep. assumption.
Qed.

Lemma scan_candidate_at_brace (pre r : string) :
  scan_candidate (pre ++ String "{" r) (String.length pre)
                 (String.length (pre ++ String "{" r) - String.length pre)
                 (String.length pre) 0
  = match balanced_prefix (String "{" r) with
    | Some c => try_candidate c
    | None => Exhausted
    end.
Proof.
  rewrite strlen_app.
  replace (String.length pre + String.length (String "{" r) - String.length pre)
    with (S (String.length r)) by (simpl; lia).
  cbn [scan_candidate]. rewrite get_at_length.
  change (Ascii.eqb "{" "{") with true. cbv iota.
  pose proof (scan_candidate_from r pre EmptyString 1 (le_n 1)) as H.
  change (String "{" EmptyString ++ r) with (String "{" r) in H.
  replace (String.length pre + String.length (String "{" EmptyString))
    with (S (String.length pre)) in H by (simpl; lia).
  change (0 + 1)%Z with (Z.of_nat 1). rewrite H.
  cbn [balanced_prefix]. change (Ascii.eqb "{" "{") with true. cbv iota.
  destruct (close_from 1 r); reflexivity.
Qed.

Lemma find_from_skip (c : ascii) (pre rest : string) :
  Py.find_from c (pre ++ rest) (String.length pre)
  = option_map (Nat.add (String.length pre)) (Py.find_from c rest 0).
Proof.
  induction pre as [|a pre IH]; simpl.
  - destruct (Py.find_from c rest 0); reflexivity.
  - rewrite IH. destruct (Py.find_from c rest 0); reflexivity.
Qed.

Lemma find_from_next (c x : ascii) (pre r : string) :
  option_map (Nat.add (String.length pre)) (option_map S (Py.find_from c r 0))
  = Py.find_from c ((pre ++ String x EmptyString) ++ r)
                 (String.length (pre ++ String x EmptyString)).
Proof.
  rewrite find_from_skip, length_snoc.
  destruct (Py.find_from c r 0); simpl; [f_equal; lia | reflexivity].
Qed.

Lemma balanced_prefix_other (x : ascii) (r : string) :
  Ascii.eqb x "{" = false -> balanced_prefix (String x r) = None.
Proof. intros H. cbn [balanced_prefix]. now rewrite H. Qed.

(** The [while] loop returns the first candidate, from the left, that
    parses to a mapping; it never runs out of [fuel]. *)
Lemma scan_starts_spec : forall rest pre fuel,
  String.length rest < fuel ->
  scan_starts fuel (pre ++ rest) (Py.find_from "{" (pre ++ rest) (String.length pre))
  = first_mapping (candidates rest).
Proof.
  induction rest as [|x r IH]; intros pre fuel Hfuel.
  - rewrite find_from_skip. destruct fuel; reflexivity.
  - rewrite find_from_skip. cbn [Py.find_from candidates].
    destruct (Ascii.eqb x "{") eqn:Ex.
    + apply Ascii.eqb_eq in Ex. subst x.
      destruct fuel as [|f]; [simpl in Hfuel; lia|].
      cbn [option_map scan_starts]. rewrite Nat.add_0_r.
      rewrite scan_candidate_at_brace.
      assert (Hnext :
        scan_starts f (pre ++ String "{" r)
                    (Py.find_from "{" (pre ++ String "{" r) (S (String.length pre)))
        = first_mapping (candidates r)).
      { rewrite (snoc_app pre "{" r), <- (length_snoc pre "{").
        apply IH. simpl in Hfuel. lia. }
      destruct (balanced_prefix (String "{" r)) as [cand|].
      * cbn [first_mapping]. unfold try_candidate.
        destruct (as_mapping cand); [reflexivity | exact Hnext].
      * exact Hnext.
    + rewrite (balanced_prefix_other x r Ex).
      rewrite (find_from_next "{" x pre r), (snoc_app pre x r).
      apply IH. simpl in Hfuel. lia.
Qed.

Lemma extract_spec (text : string) :
  _extract_json_dict text =
  match as_mapping (clean_text text) with
  | Some d => inr d
  | None =>
      match first_mapping (candidates (clean_text text)) with
      | Some d => inr d
      | None => inl (parse_error text)
      end
  end.
Proof.
  unfold _extract_json_dict, as_mapping.
  pose proof (scan_starts_spec (clean_text text) EmptyString
                (S (String.length (clean_text text))) (Nat.lt_succ_diag_r _)) as H.
  cbn [String.append String.length] in H. rewrite H.
  destruct (Json.loads (clean_text text)) as [[]|]; reflexivity.
Qed.

(* ===================================================================== *)
(** * What cleaning does to an object inside a text *)
(* ===================================================================== *)

Lemma app_not_empty (u w : string) : w <> EmptyString -> u ++ w <> EmptyString.
Proof. destruct u; simpl; [trivial | discriminate]. Qed.

Lemma lstrip_with_app (p : ascii -> bool) (pre : string) (x : ascii) (t : string) :
  p x = false ->
  Py.lstrip_with p (pre ++ String x t) = Py.lstrip_with p pre ++ String x t.
Proof.
  intros Hx. induction pre as [|c pre IH]; simpl.
  - now rewrite Hx.
  - destruct (p c); [exact IH | reflexivity].
Qed.

Lemma rstrip_with_keep (p : ascii -> bool) (x : ascii) (t : string) :
  p x = false ->
  Py.rstrip_with p (String x t) = String x (Py.rstrip_with p t).
Proof.
  intros Hx. cbn [Py.rstrip_with]. rewrite Hx.
  destruct (Py.rstrip_with p t); reflexivity.
Qed.

Lemma rstrip_with_app (p : ascii -> bool) (u v : string) :
  Py.rstrip_with p v <> EmptyString ->
  Py.rstrip_with p (u ++ v) = u ++ Py.rstrip_with p v.
Proof.
  intros Hv. induction u as [|c u IH]; [reflexivity|].
  change (String c u ++ v) with (String c (u ++ v)).
  cbn [Py.rstrip_with]. rewrite IH.
  change (String c u ++ Py.rstrip_with p v) with (String c (u ++ Py.rstrip_with p v)).
  destruct (u ++ Py.rstrip_with p v) eqn:E; [|reflexivity].
  now apply app_not_empty with (u := u) in Hv.
Qed.

Lemma strip_with_wrap (p : ascii -> bool) (pre : string) (a : ascii)
      (mid : string) (b : ascii) (post : string) :
  p a = false -> p b = false ->
  Py.strip_with p (pre ++ String a (mid ++ String b post))
  = Py.lstrip_with p pre ++ String a (mid ++ String b (Py.rstrip_with p post)).
Proof.
  intros Ha Hb. unfold Py.strip_with.
  rewrite (lstrip_with_app p pre a _ Ha).
  change (String a (mid ++ String b post)) with (String a mid ++ String b post).
  rewrite <- app_assoc_str.
  rewrite rstrip_with_app; rewrite (rstrip_with_keep p b post Hb); [|discriminate].
  now rewrite app_assoc_str.
Qed.

Lemma rstrip_with_has_char (p : ascii -> bool) (c : ascii) (s : string) :
  has_char c s = false -> has_char c (Py.rstrip_with p s) = false.
Proof.
  induction s as [|x s IH]; [trivial|].
  rewrite has_char_cons. intros H. apply orb_false_elim in H. destruct H as [Hx Hs].
  cbn [Py.rstrip_with]. specialize (IH Hs).
  destruct (Py.rstrip_with p s) as [|y t].
  - destruct (p x); [reflexivity|]. rewrite has_char_cons, Hx. reflexivity.
  - rewrite has_char_cons, Hx, IH. reflexivity.
Qed.

Lemma lstrip_with_no_char (p : ascii -> bool) (c : ascii) (s : string) :
  has_char c s = false -> has_char c (Py.lstrip_with p s) = false.
Proof.
  intros H. destruct (has_char c (Py.lstrip_with p s)) eqn:E; [|reflexivity].
  apply lstrip_with_has_char in E. congruence.
Qed.

Lemma strip_with_no_char (p : ascii -> bool) (c : ascii) (s : string) :
  has_char c s = false -> has_char c (Py.strip_with p s) = false.
Proof.
  intros H. unfold Py.strip_with.
  now apply rstrip_with_has_char, lstrip_with_no_char.
Qed.

(** [replace] *)

Lemma prefix_length (old s : string) :
  String.prefix old s = true -> String.length old <= String.length s.
Proof.
  revert s. induction old as [|o old IH]; intros s H; simpl; [lia|].
  destruct s as [|c s]; [discriminate|].
  simpl in H. destruct (ascii_dec o c); [|discriminate].
  apply IH in H. simpl. lia.
Qed.

Lemma prefix_barrier (x : ascii) (t : string) : forall old p,
  has_char x old = false ->
  String.prefix old (p ++ String x t) = String.prefix old p.
Proof.
  intros old p. revert old. induction p as [|c p IH]; intros old Hx.
  - destruct old as [|o old]; [reflexivity|].
    rewrite has_char_cons in Hx. apply orb_false_elim in Hx. destruct Hx as [Hx _].
    simpl. destruct (ascii_dec o x) as [->|]; [|reflexivity].
    now rewrite Ascii.eqb_refl in Hx.
  - destruct old as [|o old]; [reflexivity|].
    rewrite has_char_cons in Hx. apply orb_false_elim in Hx. destruct Hx as [_ Hx].
    simpl. destruct (ascii_dec o c); [now apply IH | reflexivity].
Qed.

Lemma replace_from_barrier (old new : string) (x : ascii) (t : string) :
  has_char x old = false ->
  forall pre k, k <= String.length pre ->
  Py.replace_from old new k (pre ++ String x t)
  = Py.replace_from old new k pre ++ Py.replace_from old new 0 (String x t).
Proof.
  intros Hx. induction pre as [|c pre IH]; intros k Hk.
  - simpl in Hk. assert (k = 0) by lia. subst k. reflexivity.
  - change (String c pre ++ String x t) with (String c (pre ++ String x t)).
    destruct k as [|k].
    + cbn [Py.replace_from].
      change (String c (pre ++ String x t)) with (String c pre ++ String x t).
      rewrite (prefix_barrier x t old (String c pre) Hx).
      destruct (String.prefix old (String c pre)) eqn:E.
      * apply prefix_length in E. simpl in E.
        rewrite IH by lia. now rewrite app_assoc_str.
      * rewrite IH by lia. reflexivity.
    + cbn [Py.replace_from]. apply IH. simpl in Hk. lia.
Qed.

Lemma replace_from_clear (o : ascii) (old new : string) (s post : string) :
  has_char o s = false ->
  Py.replace_from (String o old) new 0 (s ++ post)
  = s ++ Py.replace_from (String o old) new 0 post.
Proof.
  induction s as [|c s IH]; intros H; [reflexivity|].
  rewrite has_char_cons in H. apply orb_false_elim in H. destruct H as [Hc Hs].
  change (String c s ++ post) with (String c (s ++ post)).
  cbn [Py.replace_from String.prefix].
  destruct (ascii_dec o c) as [->|_].
  - now rewrite Ascii.eqb_refl in Hc.
  - now rewrite (IH Hs).
Qed.

Lemma replace_from_no_char (c : ascii) (old new : string) :
  has_char c new = false ->
  forall s k, has_char c s = false -> has_char c (Py.replace_from old new k s) = false.
Proof.
  intros Hnew. induction s as [|x s IH]; intros k H; [reflexivity|].
  rewrite has_char_cons in H. apply orb_false_elim in H. destruct H as [Hx Hs].
  destruct k as [|k]; cbn [Py.replace_from].
  - destruct (String.prefix old (String x s)).
    + rewrite has_char_app, Hnew. now apply IH.
    + rewrite has_char_cons, Hx. now apply IH.
  - now apply IH.
Qed.

Lemma close_from_ends : forall r d c,
  close_from d r = Some c -> exists c', c = c' ++ String "}" EmptyString.
Proof.
  induction r as [|x r IH]; intros d c H; [discriminate|].
  cbn [close_from] in H.
  assert (Hrec : forall d', option_map (String x) (close_from d' r) = Some c ->
                            exists c', c = c' ++ String "}" EmptyString).
  { intros d' H'. destruct (close_from d' r) as [c0|] eqn:E; [|discriminate].
    inversion H'; subst. destruct (IH _ _ E) as [c' ->].
    exists (String x c'). reflexivity. }
  destruct (Ascii.eqb x "{"); [now apply Hrec with (d' := S d)|].
  destruct (Ascii.eqb_spec x "}") as [->|_]; [|now apply Hrec with (d' := d)].
  destruct d as [|[|d]]; [discriminate| |now apply Hrec with (d' := S d)].
  inversion H; subst. exists EmptyString. reflexivity.
Qed.

Lemma close_from_app : forall r d c post,
  close_from d r = Some c -> close_from d (r ++ post) = Some c.
Proof.
  induction r as [|x r IH]; intros d c post H; [discriminate|].
  change (String x r ++ post) with (String x (r ++ post)).
  cbn [close_from] in *.
  assert (Hrec : forall d', option_map (String x) (close_from d' r) = Some c ->
                            option_map (String x) (close_from d' (r ++ post)) = Some c).
  { intros d' H'. destruct (close_from d' r) as [c0|] eqn:E; [|discriminate].
    now rewrite (IH _ _ post E). }
  destruct (Ascii.eqb x "{"); [now apply Hrec|].
  destruct (Ascii.eqb x "}"); [|now apply Hrec].
  destruct d as [|[|d]]; [discriminate|assumption|now apply Hrec].
Qed.

(** A text that is its own candidate is an opening brace, a middle and a
    closing brace. *)
Lemma balanced_shape (s : string) :
  balanced_prefix s = Some s ->
  exists mid, s = String "{" (mid ++ String "}" EmptyString).
Proof.
  destruct s as [|x r]; [discriminate|]. cbn [balanced_prefix].
  destruct (Ascii.eqb_spec x "{") as [->|_]; [|discriminate].
  destruct (close_from 1 r) as [c|] eqn:E; [|discriminate].
  intros H. inversion H; subst.
  destruct (close_from_ends _ _ _ E) as [c' ->]. eauto.
Qed.

Lemma balanced_prefix_app (s post : string) :
  balanced_prefix s = Some s -> balanced_prefix (s ++ post) = Some s.
Proof.
  destruct s as [|x r]; [discriminate|].
  change (String x r ++ post) with (String x (r ++ post)).
  cbn [balanced_prefix].
  destruct (Ascii.eqb x "{"); [|discriminate].
  destruct (close_from 1 r) as [c|] eqn:E; [|discriminate].
  now rewrite (close_from_app _ _ _ post E).
Qed.

Lemma candidates_no_brace (s : string) :
  has_char "{" s = false -> candidates s = [].
Proof.
  induction s as [|x s IH]; [reflexivity|].
  rewrite has_char_cons. intros H. apply orb_false_elim in H. destruct H as [Hx Hs].
  cbn [candidates balanced_prefix].
  rewrite Ascii.eqb_sym in Hx. rewrite Hx. now apply IH.
Qed.

Lemma candidates_skip (pre t : string) :
  has_char "{" pre = false -> candidates (pre ++ t) = candidates t.
Proof.
  induction pre as [|x pre IH]; [reflexivity|].
  rewrite has_char_cons. intros H. apply orb_false_elim in H. destruct H as [Hx Hs].
  change (String x pre ++ t) with (String x (pre ++ t)).
  cbn [candidates balanced_prefix].
  rewrite Ascii.eqb_sym in Hx. rewrite Hx. now apply IH.
Qed.

Lemma first_mapping_none (l : list string) :
  (forall c, In c l -> as_mapping c = None) -> first_mapping l = None.
Proof.
  induction l as [|c l IH]; intros H; [reflexivity|].
  cbn [first_mapping]. rewrite (H c (or_introl eq_refl)).
  apply IH. intros c' Hc'. apply H. now right.
Qed.

Lemma as_mapping_none (c : string) :
  (forall d, Json.loads c <> Some (JDict d)) -> as_mapping c = None.
Proof.
  intros H. unfold as_mapping.
  destruct (Json.loads c) as [[]|]; try reflexivity. now contradiction (H d).
Qed.

Lemma clean_text_no_brace (text : string) :
  has_char "{" text = false -> has_char "{" (clean_text text) = false.
Proof.
  intros H. unfold clean_text.
  assert (H1 : has_char "{" (Py.replace "```json" "```" (Py.strip text)) = false).
  { apply replace_from_no_char; [reflexivity|]. now apply strip_with_no_char. }
  destruct (Py.startswith _ _); [|exact H1].
  now apply strip_with_no_char, strip_with_no_char.
Qed.

(** Cleaning keeps an object that has no backtick, and keeps the text
    before it free of opening braces. *)
Lemma clean_text_wrap (pre s post : string) :
  has_char "{" pre = false ->
  has_char "`" s = false ->
  balanced_prefix s = Some s ->
  exists pre' post',
    clean_text (pre ++ s ++ post) = pre' ++ s ++ post'
    /\ has_char "{" pre' = false.
Proof.
  intros Hpre Hs Hbal.
  destruct (balanced_shape s Hbal) as [mid Hshape].
  assert (Hcat : forall t, s ++ t = String "{" (mid ++ String "}" t)).
  { intros t. rewrite Hshape.
    change (String "{" (mid ++ String "}" EmptyString) ++ t)
      with (String "{" ((mid ++ String "}" EmptyString) ++ t)).
    now rewrite app_assoc_str. }
  unfold clean_text, Py.strip, Py.replace.
  rewrite (Hcat post), strip_with_wrap by reflexivity.
  rewrite <- (Hcat (Py.rstrip_with Py.isspace post)).
  set (A0 := Py.lstrip_with Py.isspace pre).
  set (B0 := Py.rstrip_with Py.isspace post).
  assert (HA0 : has_char "{" A0 = false) by now apply lstrip_with_no_char.
  assert (Hrep : Py.replace_from "```json" "```" 0 (A0 ++ s ++ B0)
                 = Py.replace_from "```json" "```" 0 A0 ++ s
                   ++ Py.replace_from "```json" "```" 0 B0).
  { rewrite (Hcat B0), replace_from_barrier by (reflexivity || lia).
    rewrite <- (Hcat B0). now rewrite replace_from_clear. }
  rewrite Hrep.
  set (A := Py.replace_from "```json" "```" 0 A0).
  set (B := Py.replace_from "```json" "```" 0 B0).
  assert (HA : has_char "{" A = false) by now apply replace_from_no_char.
  destruct (Py.startswith _ _).
  - unfold Py.strip_chars.
    rewrite (Hcat B), strip_with_wrap by reflexivity.
    rewrite strip_with_wrap by reflexivity.
    rewrite <- Hcat.
    eexists; eexists; split; [reflexivity|].
    now apply lstrip_with_no_char, lstrip_with_no_char.
  - eauto.
Qed.

Lemma extract_embedded (pre s post : string) (m : pydict) :
  has_char "{" pre = false ->
  has_char "`" s = false ->
  balanced_prefix s = Some s ->
  Json.loads s = Some (JDict m) ->
  (forall d, Json.loads (clean_text (pre ++ s ++ post)) = Some (JDict d) -> d = m) ->
  _extract_json_dict (pre ++ s ++ post) = inr m.
Proof.
  intros Hpre Hs Hbal Hload Hwhole.
  rewrite extract_spec.
  destruct (as_mapping (clean_text (pre ++ s ++ post))) as [d|] eqn:E.
  - unfold as_mapping in E.
    destruct (Json.loads (clean_text (pre ++ s ++ post))) as [[]|] eqn:L; try discriminate.
    inversion E; subst. now rewrite (Hwhole d eq_refl).
  - destruct (clean_text_wrap pre s post Hpre Hs Hbal) as (pre' & post' & -> & Hpre').
    rewrite (candidates_skip pre' _ Hpre').
    destruct (balanced_shape s Hbal) as [mid Hshape].
    assert (Hc : candidates (s ++ post') = s :: candidates (Py.drop 1 (s ++ post'))).
    { pose proof (balanced_prefix_app s post' Hbal) as Hb.
      rewrite Hshape in *.
      change (String "{" (mid ++ String "}" EmptyString) ++ post')
        with (String "{" ((mid ++ String "}" EmptyString) ++ post')) in *.
      cbn [candidates]. rewrite Hb. reflexivity. }
    rewrite Hc. cbn [first_mapping]. unfold as_mapping at 1. now rewrite Hload.
Qed.


(* ===================================================================== *)
(** * Lemmas on the normalizers *)
(* ===================================================================== *)

Lemma lstrip_with_head (p : ascii -> bool) (s : string) :
  head_kept p (Py.lstrip_with p s).
Proof.
  induction s as [|c s IH]; simpl; [exact I|].
  destruct (p c) eqn:E; [exact IH | exact E].
Qed.

Lemma lstrip_with_id (p : ascii -> bool) (s : string) :
  head_kept p s -> Py.lstrip_with p s = s.
Proof. destruct s as [|c s]; simpl; [trivial|]. now intros ->. Qed.

Lemma rstrip_with_head (p : ascii -> bool) (s : string) :
  head_kept p s -> head_kept p (Py.rstrip_with p s).
Proof.
  destruct s as [|c s]; [trivial|]. intros H. simpl in H.
  now rewrite (rstrip_with_keep p c s H).
Qed.

Lemma rstrip_with_idem (p : ascii -> bool) (s : string) :
  Py.rstrip_with p (Py.rstrip_with p s) = Py.rstrip_with p s.
Proof.
  induction s as [|c s IH]; [reflexivity|].
  cbn [Py.rstrip_with].
  destruct (Py.rstrip_with p s) as [|y t] eqn:E.
  - destruct (p c) eqn:Ec; [reflexivity|].
    cbn [Py.rstrip_with]. now rewrite Ec.
  - change (Py.rstrip_with p (String c (String y t)))
      with (match Py.rstrip_with p (String y t) with
            | EmptyString => if p c then EmptyString else String c EmptyString
            | String a b => String c (String a b)
            end).
    now rewrite IH.
Qed.

Lemma strip_with_idem (p : ascii -> bool) (s : string) :
  Py.strip_with p (Py.strip_with p s) = Py.strip_with p s.
Proof.
  unfold Py.strip_with.
  rewrite (lstrip_with_id p (Py.rstrip_with p (Py.lstrip_with p s))).
  - apply rstrip_with_idem.
  - apply rstrip_with_head, lstrip_with_head.
Qed.

Lemma truthy_not_empty (s : string) : truthy s = true <-> s <> EmptyString.
Proof. destruct s; simpl; split; congruence. Qed.

Lemma as_string_list_filter (l : list json) :
  _as_string_list (JList l)
  = filter truthy (map (fun v => Py.strip (PyStr.str v)) l).
Proof.
  cbn [_as_string_list]. induction l as [|v l IH]; [reflexivity|].
  cbn [flat_map map filter]. rewrite IH.
  destruct (truthy (Py.strip (PyStr.str v))); reflexivity.
Qed.

Lemma as_string_list_elements (v : json) (t : string) :
  In t (_as_string_list v) -> t <> EmptyString /\ trimmed t.
Proof.
  assert (Hone : forall w, In t (if truthy (Py.strip (PyStr.str w))
                                 then [Py.strip (PyStr.str w)] else []) ->
                           t <> EmptyString /\ trimmed t).
  { intros w H. destruct (truthy (Py.strip (PyStr.str w))) eqn:E; [|contradiction].
    destruct H as [<-|[]]. split; [now apply truthy_not_empty|].
    apply strip_with_idem. }
  destruct v; try (apply Hone); try contradiction.
  rewrite as_string_list_filter. intros H.
  apply filter_In in H. destruct H as [Hin Ht].
  apply in_map_iff in Hin. destruct Hin as (w & <- & _).
  split; [now apply truthy_not_empty | apply strip_with_idem].
Qed.

Lemma fold_extend {A B : Type} (f : A -> list B) (l : list A) (acc : list B) :
  fold_left (fun merged raw => (merged ++ f raw)%list) l acc
  = (acc ++ concat (map f l))%list.
Proof.
  revert acc. induction l as [|x l IH]; intros acc; simpl.
  - now rewrite app_nil_r.
  - rewrite IH. now rewrite <- app_assoc.
Qed.


(* ===================================================================== *)
(** * Sorting the items of a mapping does not depend on their order *)
(* ===================================================================== *)

Lemma leb_false_lt (a b : string) : String.leb a b = false -> String.leb b a = true.
Proof. intros H. destruct (String.leb_total a b); congruence. Qed.

Lemma leb_trans (a b c : string) :
  String.leb a b = true -> String.leb b c = true -> String.leb a c = true.
Proof.
  unfold String.leb. intros Hab Hbc.
  destruct (String.compare a b) eqn:Eab; [| |discriminate].
  - apply String.compare_eq_iff in Eab. now subst.
  - destruct (String.compare b c) eqn:Ebc; [| |discriminate].
    + apply String.compare_eq_iff in Ebc. subst. now rewrite Eab.
    + apply String_as_OT.cmp_lt in Eab, Ebc.
      pose proof (String_as_OT.lt_trans _ _ _ Eab Ebc) as Hac.
      apply String_as_OT.cmp_lt in Hac. unfold String_as_OT.cmp in Hac.
      now rewrite Hac.
Qed.

Lemma insert_item_swap (x y : string * string) (l : list (string * string)) :
  fst x <> fst y ->
  JsonDumps.insert_item x (JsonDumps.insert_item y l)
  = JsonDumps.insert_item y (JsonDumps.insert_item x l).
Proof.
  intros Hxy.
  assert (Hyx : String.leb (fst x) (fst y) = true -> String.leb (fst y) (fst x) = false).
  { intros H. destruct (String.leb (fst y) (fst x)) eqn:E; [|reflexivity].
    now contradiction Hxy; apply String.leb_antisym. }
  induction l as [|z l IH]; cbn [JsonDumps.insert_item].
  - destruct (String.leb (fst x) (fst y)) eqn:E.
    + now rewrite (Hyx eq_refl).
    + now rewrite (leb_false_lt _ _ E).
  - destruct (String.leb (fst y) (fst z)) eqn:Eyz;
      destruct (String.leb (fst x) (fst z)) eqn:Exz;
      destruct (String.leb (fst x) (fst y)) eqn:Exy;
      try (pose proof (Hyx eq_refl) as Eyx);
      try (pose proof (leb_false_lt _ _ Exy) as Eyx);
      repeat (cbn [JsonDumps.insert_item];
              rewrite ?Eyz, ?Exz, ?Exy, ?Eyx);
      try reflexivity.
    + now rewrite (leb_trans _ _ _ Exy Eyz) in Exz.
    + now rewrite (leb_trans _ _ _ Eyx Exz) in Eyz.
    + now rewrite IH.
    + now rewrite IH.
Qed.

Lemma sort_items_perm (l l' : list (string * string)) :
  Permutation l l' -> NoDup (map fst l) ->
  JsonDumps.sort_items l = JsonDumps.sort_items l'.
Proof.
  induction 1 as [|x l l' Hp IH|x y l|l l' l'' Hp1 IH1 Hp2 IH2]; intros Hnd.
  - reflexivity.
  - cbn [JsonDumps.sort_items]. rewrite IH; [reflexivity|].
    now inversion Hnd.
  - cbn [JsonDumps.sort_items]. apply insert_item_swap.
    cbn [map] in Hnd. inversion Hnd as [|? ? Hnotin _]; subst.
    intros E. apply Hnotin. left. now symmetry.
  - rewrite IH1 by assumption. apply IH2.
    eapply Permutation_NoDup; [|exact Hnd]. now apply Permutation_map.
Qed.

(** The sorted-key serialization of a mapping is the same for every order
    of its keys. *)
Lemma dumps_sorted_perm (d d' : pydict) :
  Permutation d d' -> NoDup (dict_keys d) ->
  JsonDumps.dumps true (JDict d) = JsonDumps.dumps true (JDict d').
Proof.
  intros Hp Hnd. cbn [JsonDumps.dumps].
  set (enc := fun kv : string * json => let '(k, w) := kv in (k, JsonDumps.dumps true w)).
  rewrite (sort_items_perm (map enc d) (map enc d')); [reflexivity| |].
  - now apply Permutation_map.
  - rewrite map_map. unfold dict_keys in Hnd.
    erewrite map_ext; [exact Hnd|]. now intros [k w].
Qed.

(* ===================================================================== *)
(** * The digest is 64 characters long *)
(* ===================================================================== *)

Lemma round_length (st : list N) (kw : N * N) :
  List.length (Sha256.round st kw) = List.length st.
Proof.
  destruct st as [|a [|b [|c [|d [|e [|f [|g [|h [|i t]]]]]]]]]; reflexivity.
Qed.

Lemma fold_round_length (kws : list (N * N)) (st : list N) :
  List.length (fold_left Sha256.round kws st) = List.length st.
Proof.
  revert st. induction kws as [|kw kws IH]; intros st; [reflexivity|].
  cbn [fold_left]. now rewrite IH, round_length.
Qed.

Lemma compress_length (st block : list N) :
  List.length (Sha256.compress st block) = List.length st.
Proof.
  unfold Sha256.compress.
  rewrite length_map, length_combine, fold_round_length. apply Nat.min_id.
Qed.

Lemma blocks_length (fuel : nat) : forall bytes st,
  List.length (Sha256.blocks fuel bytes st) = List.length st.
Proof.
  induction fuel as [|f IH]; intros bytes st; [reflexivity|].
  destruct bytes as [|b bytes]; [reflexivity|].
  cbn [Sha256.blocks]. now rewrite IH, compress_length.
Qed.

Lemma hex_word_length (w : N) : String.length (Sha256.hex_word w) = 8.
Proof. reflexivity. Qed.

Lemma concat_words_length (ws : list N) :
  String.length (String.concat EmptyString (map Sha256.hex_word ws))
  = 8 * List.length ws.
Proof.
  induction ws as [|w ws IH]; [reflexivity|].
  destruct ws as [|w' ws].
  - reflexivity.
  - change (String.concat EmptyString (map Sha256.hex_word (w :: w' :: ws)))
      with (Sha256.hex_word w ++ EmptyString
            ++ String.concat EmptyString (map Sha256.hex_word (w' :: ws))).
    rewrite !strlen_app, IH, hex_word_length. cbn [String.length List.length]. lia.
Qed.

Lemma hexdigest_length (msg : list N) :
  String.length (Sha256.hexdigest msg) = 64.
Proof.
  unfold Sha256.hexdigest, Sha256.digest_words.
  now rewrite concat_words_length, blocks_length.
Qed.

Lemma substring_length (n : nat) : forall s,
  n <= String.length s -> String.length (substring 0 n s) = n.
Proof.
  induction n as [|n IH]; intros s H.
  - destruct s; reflexivity.
  - destruct s as [|c s]; [simpl in H; lia|].
    simpl. rewrite IH; [reflexivity | simpl in H; lia].
Qed.

Lemma digest_src_canonical (u : string) (s1 p1 p2 p3 : pydict) :
  digest_src u s1 p1 p2 p3
  = "{" ++ Py.join ", "
             [ Q "'phase_1': " ++ JsonDumps.dumps true (JDict p1);
               Q "'phase_2': " ++ JsonDumps.dumps true (JDict p2);
               Q "'phase_3': " ++ JsonDumps.dumps true (JDict p3);
               Q "'s1_knowledge': " ++ JsonDumps.dumps true (JDict s1);
               Q "'user_input': " ++ JsonDumps.encode_string u ]
        ++ "}".
Proof.
  unfold digest_src.
  change (JsonDumps.dumps true
            (JDict [("user_input", JStr u); ("s1_knowledge", JDict s1);
                    ("phase_1", JDict p1); ("phase_2", JDict p2); ("phase_3", JDict p3)]))
    with ("{" ++ Py.join ", "
                   (map JsonDumps.encode_item
                      (JsonDumps.sort_items
                         [("user_input", JsonDumps.encode_string u);
                          ("s1_knowledge", JsonDumps.dumps true (JDict s1));
                          ("phase_1", JsonDumps.dumps true (JDict p1));
                          ("phase_2", JsonDumps.dumps true (JDict p2));
                          ("phase_3", JsonDumps.dumps true (JDict p3))]))
              ++ "}").
  generalize (JsonDumps.dumps true (JDict s1)) (JsonDumps.dumps true (JDict p1))
             (JsonDumps.dumps true (JDict p2)) (JsonDumps.dumps true (JDict p3))
             (JsonDumps.encode_string u).
  intros a b c d e. reflexivity.
Qed.

(* ===================================================================== *)
(** * The formatter only appends lines *)
(* ===================================================================== *)

Lemma emits_append (x : string) : emits (lines_append x) [x].
Proof. intros lines. reflexivity. Qed.

Lemma emits_seq (a b : writer) (la lb : list string) :
  emits a la -> emits b lb -> emits (a >> b) (la ++ lb).
Proof.
  intros Ha Hb lines. unfold seq_. rewrite Ha, Hb. now rewrite app_assoc.
Qed.

Lemma emits_for_each {A : Type} (body : A -> writer) (f : A -> list string)
      (items : list A) :
  (forall x, emits (body x) (f x)) -> emits (for_each items body) (flat_map f items).
Proof.
  intros Hbody. induction items as [|x items IH]; intros lines.
  - cbn. now rewrite app_nil_r.
  - cbn [for_each flat_map]. now apply emits_seq.
Qed.

Lemma flat_map_singleton {A B : Type} (f : A -> B) (l : list A) :
  flat_map (fun x => [f x]) l = map f l.
Proof. induction l as [|x l IH]; [reflexivity|]. cbn. now rewrite IH. Qed.

Lemma emits_bullets (prefix : string) (items : list string) :
  emits (bullets prefix items) (item_lines prefix items).
Proof.
  destruct items as [|x items]; [apply emits_append|].
  unfold bullets, item_lines.
  rewrite <- (flat_map_singleton (String.append prefix)).
  apply emits_for_each. intros y. apply emits_append.
Qed.

Lemma emits_branches (branches : list branch) :
  emits
    match branches with
    | _ :: _ =>
        for_each (enumerate 1 branches)
          (fun ib =>
             lines_append ("- Branch " ++ Py.str_nat (fst ib) ++ ": " ++ branch_name (snd ib)) >>
             lines_append ("  Result: " ++ branch_result (snd ib)) >>
             lines_append ("  Goal Impact: " ++ goal_impact (snd ib)))
    | [] => lines_append "- N/A"
    end
    (branches_lines branches).
Proof.
  destruct branches as [|b branches]; [apply emits_append|].
  unfold branches_lines. apply emits_for_each. intros ib. unfold branch_lines.
  apply (emits_seq _ _ [_] [_; _]); [apply emits_append|].
  apply (emits_seq _ _ [_] [_]); apply emits_append.
Qed.

Ltac emit_line := apply (emits_seq _ _ [_] _); [apply emits_append|].
Ltac emit_block := apply (emits_seq _ _ (item_lines _ _) _); [apply emits_bullets|].

Lemma format_lines_layout (r : report) :
  format_lines r = layout ("- Primary Goal: " ++ primary_goal (logical r)) r.
Proof.
  unfold format_lines.
  match goal with
  | |- ?w [] = _ =>
      assert (H : emits w (layout ("- Primary Goal: " ++ primary_goal (logical r)) r))
  end.
  { unfold layout.
    do 6 emit_line. emit_block.
    do 4 (emit_line; emit_block).
    do 2 emit_line.
    apply (emits_seq _ _ (branches_lines _) _); [apply emits_branches|].
    do 5 emit_line. emit_block.
    do 2 emit_line. apply emits_bullets. }
  now rewrite H.
Qed.

(* ===================================================================== *)
(** * The extractor: claims C2 and C4 *)
(* ===================================================================== *)




Lemma extract_none_parses (text : string) :
  (forall c d, c = clean_text text \/ In c (candidates (clean_text text)) ->
               Json.loads c <> Some (JDict d)) ->
  _extract_json_dict text = inl (parse_error text).
Proof.
  intros H. rewrite extract_spec.
  rewrite as_mapping_none by (intros d; apply H; now left).
  rewrite first_mapping_none; [reflexivity|].
  intros c Hc. apply as_mapping_none. intros d. apply H. now right.
Qed.

Lemma extract_no_brace (text : string) :
  has_char "{" text = false ->
  _extract_json_dict text = inl (parse_error text).
Proof.
  intros H. rewrite extract_spec.
  pose proof (clean_text_no_brace text H) as Hc.
  rewrite as_mapping_none.
  - now rewrite (candidates_no_brace _ Hc).
  - intros d Hd. apply loads_dict_has_brace in Hd. congruence.
Qed.



(* ===================================================================== *)
(** * The normalizers and the diagnosis type: claims C8, C9 and C10 *)
(* ===================================================================== *)

(** C8.  [_as_string_list] of a list is the trimmed non-empty texts of its
    elements in order, of null and of empty input the empty list, of any
    other value the one-element list of its trimmed text when that is
    non-empty; every text it returns is non-empty and trimmed.
    [_text_or_na] is the trimmed text when non-empty, else N/A. *)
Theorem normalizers_defining_equations :
  (forall l : list json,
      _as_string_list (JList l)
      = filter truthy (map (fun v => Py.strip (PyStr.str v)) l))
  /\ _as_string_list JNull = []
  /\ _as_string_list (JList []) = []
  /\ _as_string_list (JStr EmptyString) = []
  /\ (forall v : json,
         is_list v = false -> is_null v = false ->
         _as_string_list v
         = if truthy (Py.strip (PyStr.str v)) then [Py.strip (PyStr.str v)] else [])
  /\ (forall (v : json) (t : string),
         In t (_as_string_list v) -> t <> EmptyString /\ trimmed t)
  /\ _as_string_list (JStr "  ") = []
  /\ _as_string_list (JList [JStr "a"; JStr " "; JStr "b"]) = ["a"; "b"]
  /\ (forall v : json,
         _text_or_na v
         = if truthy (Py.strip (PyStr.str v)) then Py.strip (PyStr.str v) else "N/A")
  /\ _text_or_na (JStr EmptyString) = "N/A"
  /\ _text_or_na (JStr " x ") = "x".
Proof.
  repeat split; try reflexivity.
  - apply as_string_list_filter.
  - destruct v; try discriminate; reflexivity.
  - eapply (proj1 (as_string_list_elements _ _ H)).
  - eapply (proj2 (as_string_list_elements _ _ H)).
Qed.



(** C10.  The diagnosis type of a built report is never empty: it is
    None when [paradox_type] is absent or its text trims to nothing, and
    the trimmed text of the value otherwise. *)
Theorem diagnosis_type_never_empty :
  forall (user_input : string) (s1 p1 p2 p3 : pydict),
  let ty := diagnosis_type (diagnosis (_build_report user_input s1 p1 p2 p3)) in
  ty <> EmptyString
  /\ (dict_get p3 "paradox_type" = None -> ty = "None")
  /\ (forall v : json,
         dict_get p3 "paradox_type" = Some v ->
         Py.strip (PyStr.str v) = EmptyString -> ty = "None")
  /\ (forall v : json,
         dict_get p3 "paradox_type" = Some v ->
         Py.strip (PyStr.str v) <> EmptyString -> ty = Py.strip (PyStr.str v)).
Proof.
  intros user_input s1 p1 p2 p3 ty.
  unfold ty, _build_report. cbn [diagnosis diagnosis_type]. unfold dict_get_or, str_or.
  repeat split.
  - destruct (dict_get p3 "paradox_type") as [v|].
    + destruct (Py.strip (PyStr.str v)) eqn:E; simpl; [discriminate|].
      discriminate.
    + discriminate.
  - intros ->. reflexivity.
  - intros v -> ->. reflexivity.
  - intros v -> H. destruct (Py.strip (PyStr.str v)); [congruence | reflexivity].
Qed.

Lemma diagnosis_type_witness :
  diagnosis_type (diagnosis (_build_report "s" [] [] [] [("reasoning", JStr "r")])) = "None"
  /\ diagnosis_type (diagnosis (_build_report "s" [] [] [] [("paradox_type", JStr "   ")]))
     = "None"
  /\ diagnosis_type (diagnosis (_build_report "s" [] [] [] [("paradox_type", JStr " Antinomy ")]))
     = "Antinomy".
Proof.
  split; [|split].
  - apply (proj1 (proj2 (diagnosis_type_never_empty "s" [] [] [] _))). reflexivity.
  - apply (proj1 (proj2 (proj2 (diagnosis_type_never_empty "s" [] [] [] _))) (JStr "   "));
      reflexivity.
  - apply (proj2 (proj2 (proj2 (diagnosis_type_never_empty "s" [] [] [] _)))
             (JStr " Antinomy ")); [reflexivity | discriminate].
Defined.

(* ===================================================================== *)
(** * The report identifier: claim C1 *)
(* ===================================================================== *)

Lemma report_id_key_order (u : string) (s1 p1 p2 p3 s1' p1' p2' p3' : pydict) :
  Permutation s1 s1' -> NoDup (dict_keys s1) ->
  Permutation p1 p1' -> NoDup (dict_keys p1) ->
  Permutation p2 p2' -> NoDup (dict_keys p2) ->
  Permutation p3 p3' -> NoDup (dict_keys p3) ->
  compute_report_id u s1' p1' p2' p3' = compute_report_id u s1 p1 p2 p3.
Proof.
  intros H0 N0 H1 N1 H2 N2 H3 N3. unfold compute_report_id.
  rewrite !digest_src_canonical.
  now rewrite (dumps_sorted_perm s1 s1'), (dumps_sorted_perm p1 p1'),
              (dumps_sorted_perm p2 p2'), (dumps_sorted_perm p3 p3').
Qed.




(* ===================================================================== *)
(** * The formatter: claim C7 *)
(* ===================================================================== *)

Lemma item_lines_length (prefix : string) (items : list string) :
  List.length (item_lines prefix items) = Nat.max 1 (List.length items).
Proof.
  destruct items as [|x items]; [reflexivity|].
  unfold item_lines. rewrite length_map. reflexivity.
Qed.

Lemma enumerate_lines_length (bs : list branch) : forall idx,
  List.length (flat_map branch_lines (enumerate idx bs)) = 3 * List.length bs.
Proof.
  induction bs as [|b bs IH]; intros idx; [reflexivity|].
  cbn [enumerate flat_map]. rewrite length_app, IH.
  cbn [branch_lines List.length]. lia.
Qed.

Lemma branches_lines_length (bs : list branch) :
  List.length (branches_lines bs) = Nat.max 1 (3 * List.length bs).
Proof.
  destruct bs as [|b bs]; [reflexivity|].
  unfold branches_lines. rewrite enumerate_lines_length.
  cbn [List.length]. lia.
Qed.

Lemma layout_length (goal_line : string) (r : report) :
  List.length (layout goal_line r)
  = 19 + Nat.max 1 (List.length (retrieved_internal_knowledge (logical r)))
       + Nat.max 1 (List.length (internal_knowledge_used (logical r)))
       + Nat.max 1 (List.length (knowledge_gaps (logical r)))
       + Nat.max 1 (List.length (hidden_assumptions (logical r)))
       + Nat.max 1 (List.length (reality_gaps (logical r)))
       + Nat.max 1 (3 * List.length (stress_test_results r))
       + Nat.max 1 (List.length (contradiction_path (diagnosis r)))
       + Nat.max 1 (List.length (suggested_mitigation r)).
Proof.
  unfold layout.
  repeat (cbn [List.length]; rewrite ?length_app, ?item_lines_length, ?branches_lines_length).
  lia.
Qed.

(** C7 (amended).  The formatter renders the four sections in their fixed
    order: the core variables on one line, joined by a comma; one line
    per item of every other list, and three lines per branch; N/A in
    place of an empty list and of an empty reasoning; the type and the
    fields of a branch as they are.  The line of the primary goal starts
    with its label and, for a non-empty goal, ends with the goal.  The
    text is a function of the report alone. *)
Theorem format_report_layout : forall r : report,
  exists goal_line : string,
    String.prefix "- Primary Goal: " goal_line = true
    /\ (primary_goal (logical r) <> EmptyString ->
        goal_line = "- Primary Goal: " ++ primary_goal (logical r))
    /\ format_report r = Py.join newline (layout goal_line r)
    /\ List.length (format_lines r)
       = 19 + Nat.max 1 (List.length (retrieved_internal_knowledge (logical r)))
            + Nat.max 1 (List.length (internal_knowledge_used (logical r)))
            + Nat.max 1 (List.length (knowledge_gaps (logical r)))
            + Nat.max 1 (List.length (hidden_assumptions (logical r)))
            + Nat.max 1 (List.length (reality_gaps (logical r)))
            + Nat.max 1 (3 * List.length (stress_test_results r))
            + Nat.max 1 (List.length (contradiction_path (diagnosis r)))
            + Nat.max 1 (List.length (suggested_mitigation r)).
Proof.
  intros r. exists ("- Primary Goal: " ++ primary_goal (logical r)).
  split; [|split; [|split]].
  - cbn. destruct (primary_goal (logical r)); reflexivity.
  - reflexivity.
  - unfold format_report. now rewrite format_lines_layout.
  - rewrite format_lines_layout. apply layout_length.
Qed.

(** C7, as stated, fails: two core variables share one line, and the
    empty primary goal is rendered without the placeholder. *)
Lemma format_report_joins_variables :
  core_variables (logical example_report) = ["alpha"; "beta"]
  /\ primary_goal (logical example_report) = EmptyString
  /\ format_lines example_report
     = [ "REPORT ID: af3e61f9064e"; EmptyString; "1. LOGICAL BREAKDOWN";
         "- Primary Goal: "; "- Core Variables: alpha, beta";
         "- Retrieved Internal Knowledge (S1):"; "  - N/A";
         "- Internal Knowledge Used (Phase I):"; "  - N/A";
         "- Knowledge Gaps:"; "  - N/A"; "- Hidden Assumptions:"; "  - N/A";
         "- Reality Gaps:"; "  - N/A"; EmptyString;
         "2. STRESS TEST RESULTS (Phase II)"; "- N/A"; EmptyString;
         "3. PARADOX DIAGNOSIS (Phase III)"; "- Type: None";
         "- Reasoning: N/A"; "- Contradiction Path:"; "  - N/A"; EmptyString;
         "4. SUGGESTED MITIGATION"; "- N/A" ].
Proof. split; [|split]; vm_compute; reflexivity. Qed.

(* ===================================================================== *)
(** * The chat client: claim C6 *)
(* ===================================================================== *)

Lemma getitem_key_errors (v : json) (key : string) (e : exn) :
  getitem_key v key = inl e -> e = KeyError \/ e = TypeError.
Proof.
  unfold getitem_key. destruct v; try (intros H; inversion H; now auto).
  destruct (dict_get d key); intros H; inversion H; auto.
Qed.

Lemma getitem_0_errors (v : json) (e : exn) :
  getitem_0 v = inl e -> e = KeyError \/ e = IndexError \/ e = TypeError.
Proof.
  unfold getitem_0. destruct v as [| | | |s|l|d]; try (intros H; inversion H; now auto).
  - destruct s; intros H; inversion H; auto.
  - destruct l; intros H; inversion H; auto.
Qed.

Lemma method_strip_errors (v : json) (e : exn) :
  method_strip v = inl e -> e = AttributeError.
Proof. destruct v; intros H; inversion H; auto. Qed.

Lemma read_completion_errors (raw : string) (e : exn) :
  read_completion raw = inl e ->
  e = JSONDecodeError \/ e = KeyError \/ e = IndexError \/ e = TypeError
  \/ e = AttributeError.
Proof.
  unfold read_completion, bind_exn.
  destruct (Json.loads raw) as [data|]; [|intros H; inversion H; auto].
  destruct (getitem_key data "choices") as [e1|choices] eqn:E1.
  { intros H; inversion H; subst. destruct (getitem_key_errors _ _ _ E1); auto. }
  destruct (getitem_0 choices) as [e2|first] eqn:E2.
  { intros H; inversion H; subst.
    destruct (getitem_0_errors _ _ E2) as [?|[?|?]]; auto. }
  destruct (getitem_key first "message") as [e3|message] eqn:E3.
  { intros H; inversion H; subst. destruct (getitem_key_errors _ _ _ E3); auto. }
  destruct (getitem_key message "content") as [e4|content] eqn:E4.
  { intros H; inversion H; subst. destruct (getitem_key_errors _ _ _ E4); auto. }
  intros H. apply method_strip_errors in H. auto 10.
Qed.

(** Every exception that leaves [chat] is an [AgentAPIError] or an
    [AttributeError]. *)
Lemma chat_error_kinds (urlopen : http_request -> http_outcome)
      (config : ModelAPIConfig) (system_prompt user_prompt : string)
      (temperature : option pyfloat) (e : exn) :
  chat urlopen config system_prompt user_prompt temperature = inl e ->
  (exists msg, e = AgentAPIError msg) \/ e = AttributeError.
Proof.
  unfold chat. destruct (negb (truthy (api_key config))).
  { intros H. inversion H. eauto. }
  match goal with |- context [urlopen ?r] => destruct (urlopen r) as [raw|code detail|text] end.
  - destruct (read_completion raw) as [e'|txt] eqn:E; [|discriminate].
    destruct (read_completion_errors raw e' E) as [->|[->|[->|[->| ->]]]];
      intros H; inversion H; eauto.
  - intros H. inversion H. eauto.
  - intros H. inversion H. eauto.
Qed.


(* ===================================================================== *)
(** * The round trip: claim C3 *)
(* ===================================================================== *)

Lemma prefix_no_char (c : ascii) (old s : string) :
  has_char c s = false -> String.prefix (String c old) s = false.
Proof.
  destruct s as [|x s]; [reflexivity|].
  rewrite has_char_cons. intros H. apply orb_false_elim in H. destruct H as [Hx _].
  simpl. destruct (ascii_dec c x) as [->|]; [|reflexivity].
  now rewrite Ascii.eqb_refl in Hx.
Qed.

(** Cleaning leaves a trimmed text without backticks as it is. *)
Lemma clean_text_id (s : string) :
  has_char "`" s = false -> Py.strip s = s -> clean_text s = s.
Proof.
  intros Hs Htrim. unfold clean_text. rewrite Htrim.
  assert (Hrep : Py.replace "```json" "```" s = s).
  { pose proof (replace_from_clear "`" "``json" "```" s EmptyString Hs) as H.
    rewrite !app_empty_r in H. exact H. }
  rewrite Hrep. unfold Py.startswith.
  now rewrite (prefix_no_char "`" "``" s Hs).
Qed.

Lemma extract_direct (s : string) (m : pydict) :
  has_char "`" s = false -> Py.strip s = s ->
  Json.loads s = Some (JDict m) ->
  _extract_json_dict s = inr m.
Proof.
  intros Hs Htrim Hload. rewrite extract_spec, (clean_text_id s Hs Htrim).
  unfold as_mapping. now rewrite Hload.
Qed.

(** C3: the code at the serialization of a mapping whose string holds the
    fence tag.  The round trip holds for every serialization that is
    trimmed and has no backtick; with the tag inside a string the
    extractor returns another mapping. *)
Theorem roundtrip_breaks_on_fence_tag :
  (forall (m : pydict),
      has_char "`" (JsonDumps.dumps false (JDict m)) = false ->
      Py.strip (JsonDumps.dumps false (JDict m)) = JsonDumps.dumps false (JDict m) ->
      Json.loads (JsonDumps.dumps false (JDict m)) = Some (JDict m) ->
      _extract_json_dict (JsonDumps.dumps false (JDict m)) = inr m)
  /\ JsonDumps.dumps false (JDict [("a", JStr "```json")]) = Q "{'a': '```json'}"
  /\ Json.loads (Q "{'a': '```json'}") = Some (JDict [("a", JStr "```json")])
  /\ _extract_json_dict (JsonDumps.dumps false (JDict [("a", JStr "```json")]))
     = inr [("a", JStr "```")].
Proof.
  split; [intros m; apply extract_direct|].
  split; [|split]; vm_compute; reflexivity.
Qed.

Lemma roundtrip_witness :
  _extract_json_dict
    (JsonDumps.dumps false
       (JDict [("paradox_type", JStr "Antinomy"); ("mitigation", JList [JStr "m"; JInt 2])]))
  = inr [("paradox_type", JStr "Antinomy"); ("mitigation", JList [JStr "m"; JInt 2])].
Proof.
  apply (proj1 roundtrip_breaks_on_fence_tag); vm_compute; reflexivity.
Defined.

(* ===================================================================== *)
(** * The pipeline: claim C5 *)
(* ===================================================================== *)

Section PipelineFacts.

Variable World : Type.
Variable client_chat : string -> string -> World -> (exn + string) * World.
Variable P : prompts.
Variable output_language : string.

Let base := BASE_SYSTEM_PROMPT P.
Let outcome := stage_outcome World client_chat P.

(** A stage makes one call and gives what the specification's stage gives. *)
Lemma stage_run (prompt : string) (st : run World) :
  bind World (call_chat World client_chat base prompt)
       (fun raw => lift World (_extract_json_dict raw)) st
  = (fst (outcome prompt (world st)),
     {| world := snd (outcome prompt (world st));
        calls := calls st ++ [(base, prompt)] |}).
Proof.
  unfold bind, call_chat, lift, outcome, stage_outcome. fold base.
  destruct (client_chat base prompt (world st)) as [[e|raw] w]; reflexivity.
Qed.


End PipelineFacts.


(* ===================================================================== *)
(** * Further properties of the client, the builder and the pipeline *)
(* ===================================================================== *)



Lemma fold_branches (l : list json) (acc : list branch) :
  fold_left (fun branches item =>
               match item with
               | JDict it => (branches ++ [branch_record it])%list
               | _ => branches
               end) l acc
  = (acc ++ flat_map (fun item => match item with
                                  | JDict it => [branch_record it]
                                  | _ => []
                                  end) l)%list.
Proof.
  revert acc. induction l as [|x l IH]; intros acc; cbn [fold_left flat_map].
  - now rewrite app_nil_r.
  - rewrite IH. destruct x; try reflexivity. now rewrite <- app_assoc.
Qed.

(** The branch records are the objects of the [branches] list of Phase 2,
    in order, each with its three fields normalized; other entries are
    skipped, and without a list there is no branch. *)
Theorem branches_are_the_objects :
  forall p2 : pydict,
  (forall l : list json,
      dict_get p2 "branches" = Some (JList l) ->
      build_branches p2
      = flat_map (fun item => match item with
                              | JDict it => [branch_record it]
                              | _ => []
                              end) l)
  /\ (forall it : pydict,
         branch_name (branch_record it)
         = _text_or_na (dict_get_or it "name" (JStr EmptyString))
         /\ branch_result (branch_record it)
            = _text_or_na (dict_get_or it "result" (JStr EmptyString))
         /\ goal_impact (branch_record it)
            = _text_or_na (dict_get_or it "goal_impact" (JStr EmptyString)))
  /\ (forall v : json,
         dict_get p2 "branches" = Some v -> is_list v = false -> build_branches p2 = [])
  /\ (dict_get p2 "branches" = None -> build_branches p2 = []).
Proof.
  intros p2. unfold build_branches, dict_get_or.
  split; [|split; [|split]].
  - intros l ->. now rewrite fold_branches.
  - intros it. repeat split.
  - intros v -> Hv. destruct v; try reflexivity. discriminate.
  - intros ->. reflexivity.
Qed.

Lemma branches_witness :
  build_branches
    [("branches", JList [JDict [("name", JStr " B1 "); ("result", JStr "r")];
                         JStr "not an object"])]
  = [ {| branch_name := "B1"; branch_result := "r"; goal_impact := "N/A" |} ].
Proof.
  apply (proj1 (branches_are_the_objects _)
           [JDict [("name", JStr " B1 "); ("result", JStr "r")]; JStr "not an object"]).
  reflexivity.
Defined.

(** The scenario of the specification: four mocked answers, the last with
    paradox type Antinomy, give a report with that type and exactly one
    branch record, after four calls. *)
Theorem analyze_antinomy_scenario :
  let answers :=
    [ inr (Q "{'internal_knowledge': [{'item': 'automation substitutes labor'}]}");
      inr (Q "{'stated_goal': 'full employment', 'hidden_assumptions': ['displaced workers are absorbed']}");
      inr (Q "Here it is: {'branches': [{'name': 'B1', 'result': 'no jobs', 'goal_impact': 'contradicts the goal'}]}");
      inr (Q "{'paradox_type': 'Antinomy', 'reasoning': 'the goal removes itself'}") ] in
  let outcome :=
    analyze nat (mock_chat answers) example_prompts "English"
      "We will achieve full employment by eliminating all jobs via automation."
      {| world := 0; calls := [] |} in
  match fst outcome with
  | inr r =>
      diagnosis_type (diagnosis r) = "Antinomy"
      /\ stress_test_results r
         = [ {| branch_name := "B1"; branch_result := "no jobs";
                goal_impact := "contradicts the goal" |} ]
      /\ primary_goal (logical r) = "full employment"
      /\ retrieved_internal_knowledge (logical r) = ["automation substitutes labor"]
  | inl _ => False
  end
  /\ List.length (calls (snd outcome)) = 4.
Proof. vm_compute. repeat split. Qed.

(* ===================================================================== *)
(** * The normalizers give normal forms *)
(* ===================================================================== *)

Lemma strip_normalized (s : string) :
  truthy (Py.strip s) = true -> normalized (Py.strip s).
Proof.
  intros H. split; [now apply truthy_not_empty | apply strip_with_idem].
Qed.

Lemma normalized_truthy (t : string) : normalized t -> truthy (Py.strip t) = true.
Proof. intros [Hne Htrim]. rewrite Htrim. now apply truthy_not_empty. Qed.

Lemma as_string_list_normalized (v : json) : normalized_list (_as_string_list v).
Proof.
  apply Forall_forall. intros t Ht. now apply as_string_list_elements with (v := v).
Qed.

Lemma renormalize_list (l : list string) :
  normalized_list l -> _as_string_list (JList (map JStr l)) = l.
Proof.
  intros H. rewrite as_string_list_filter.
  induction H as [|t l Ht Hl IH]; [reflexivity|].
  cbn [map filter PyStr.str].
  rewrite (normalized_truthy t Ht), IH. destruct Ht as [_ Htrim]. now rewrite Htrim.
Qed.

Lemma filter_length_le {A : Type} (f : A -> bool) (l : list A) :
  List.length (filter f l) <= List.length l.
Proof.
  induction l as [|x l IH]; [apply le_n|].
  cbn [filter]. destruct (f x); simpl; lia.
Qed.

Lemma text_or_na_normalized (v : json) : normalized (_text_or_na v).
Proof.
  unfold _text_or_na. destruct (truthy (Py.strip (PyStr.str v))) eqn:E.
  - now apply strip_normalized.
  - split; [discriminate | reflexivity].
Qed.

(** [_text_or_na] gives a normal form: its result is never empty, is
    trimmed, and is left as it is by a second normalization. *)
Theorem text_or_na_normal_form : forall v : json,
  _text_or_na v <> EmptyString
  /\ trimmed (_text_or_na v)
  /\ _text_or_na (JStr (_text_or_na v)) = _text_or_na v.
Proof.
  intros v.
  destruct (text_or_na_normalized v) as [Hne Htrim].
  split; [exact Hne|]. split; [exact Htrim|].
  unfold _text_or_na at 1. cbn [PyStr.str]. rewrite Htrim.
  destruct (_text_or_na v); [congruence | reflexivity].
Qed.

(** [_as_string_list] gives a normal form: the list it returns is never
    longer than a list it is given (and has at most one text for any
    other value), and normalizing that list again returns it unchanged. *)
Theorem as_string_list_normal_form : forall v : json,
  _as_string_list (JList (map JStr (_as_string_list v))) = _as_string_list v
  /\ (forall l : list json, v = JList l ->
        List.length (_as_string_list v) <= List.length l)
  /\ (is_list v = false -> List.length (_as_string_list v) <= 1).
Proof.
  intros v. split; [|split].
  - apply renormalize_list, as_string_list_normalized.
  - intros l ->. rewrite as_string_list_filter.
    etransitivity; [apply filter_length_le|]. now rewrite length_map.
  - destruct v; try discriminate; intros _; cbn [_as_string_list];
      try apply Nat.le_0_l;
      match goal with |- context [if ?b then _ else _] => destruct b end;
      simpl; lia.
Qed.

Lemma as_string_list_witness :
  List.length (_as_string_list (JList [JStr " a "; JStr "  "; JNull; JInt 7])) <= 4.
Proof.
  apply (proj1 (proj2 (as_string_list_normal_form
                         (JList [JStr " a "; JStr "  "; JNull; JInt 7])))
           [JStr " a "; JStr "  "; JNull; JInt 7]).
  reflexivity.
Defined.

Lemma fold_knowledge (l : list json) (acc : list string) :
  fold_left
    (fun items entry =>
       match entry with
       | JDict e =>
           let item_text := Py.strip (PyStr.str (dict_get_or e "item" (JStr EmptyString))) in
           if truthy item_text then (items ++ [item_text])%list else items
       | _ =>
           let text := Py.strip (PyStr.str entry) in
           if truthy text then (items ++ [text])%list else items
       end) l acc
  = (acc ++ filter truthy (map knowledge_text l))%list.
Proof.
  revert acc. induction l as [|x l IH]; intros acc; cbn [fold_left map filter].
  - now rewrite app_nil_r.
  - rewrite IH.
    destruct x; cbn [knowledge_text];
      match goal with |- context [truthy ?t] => destruct (truthy t) end;
      try reflexivity; now rewrite <- app_assoc.
Qed.

Lemma knowledge_items_normalized (s1 : pydict) :
  normalized_list (_s1_internal_knowledge_items s1).
Proof.
  unfold _s1_internal_knowledge_items, dict_get_or.
  destruct (dict_get s1 "internal_knowledge") as [v|]; [|constructor].
  destruct v; try apply as_string_list_normalized.
  rewrite fold_knowledge. cbn [app].
  apply Forall_forall. intros t Ht. apply filter_In in Ht. destruct Ht as [Hin Ht].
  apply in_map_iff in Hin. destruct Hin as (x & <- & _).
  destruct x; cbn [knowledge_text] in *; now apply strip_normalized.
Qed.

(** The retrieved knowledge items.  From a list: the trimmed [item] of
    every object and the trimmed text of every other entry, in order,
    without the empty ones; an object without [item] gives nothing.
    From any other value: what [_as_string_list] gives.  Every item is
    non-empty and trimmed. *)
Theorem knowledge_items_of_entries : forall s1_result : pydict,
  (forall l : list json,
      dict_get s1_result "internal_knowledge" = Some (JList l) ->
      _s1_internal_knowledge_items s1_result = filter truthy (map knowledge_text l))
  /\ (forall e : pydict, dict_get e "item" = None -> knowledge_text (JDict e) = EmptyString)
  /\ (forall v : json,
         dict_get s1_result "internal_knowledge" = Some v -> is_list v = false ->
         _s1_internal_knowledge_items s1_result = _as_string_list v)
  /\ (dict_get s1_result "internal_knowledge" = None ->
      _s1_internal_knowledge_items s1_result = [])
  /\ normalized_list (_s1_internal_knowledge_items s1_result).
Proof.
  intros s1.
  split; [|split; [|split; [|split]]]; [| | | |apply knowledge_items_normalized];
    unfold _s1_internal_knowledge_items, dict_get_or.
  - intros l ->. now rewrite fold_knowledge.
  - intros e He. unfold knowledge_text, dict_get_or. now rewrite He.
  - intros v -> Hv. destruct v; try reflexivity. discriminate.
  - intros ->. reflexivity.
Qed.

Lemma knowledge_items_witness :
  _s1_internal_knowledge_items
    [("internal_knowledge",
      JList [JDict [("item", JStr " automation "); ("confidence", JStr "high")];
             JDict [("relevance", JStr "none")];
             JStr "plain"])]
  = ["automation"; "plain"].
Proof.
  apply (proj1 (knowledge_items_of_entries _)
           [JDict [("item", JStr " automation "); ("confidence", JStr "high")];
            JDict [("relevance", JStr "none")];
            JStr "plain"]).
  reflexivity.
Defined.

Lemma concat_normalized (ls : list (list string)) :
  Forall normalized_list ls -> normalized_list (concat ls).
Proof.
  induction 1 as [|l ls Hl Hls IH]; [constructor|].
  cbn [concat]. apply Forall_app. now split.
Qed.

Lemma core_vars_normalized (p1 : pydict) : normalized_list (_phase_1_to_core_vars p1).
Proof.
  unfold _phase_1_to_core_vars.
  destruct (_as_string_list (dict_get_or p1 "core_variables" JNull)) eqn:E.
  - destruct (dict_get_or p1 "variables" JNull); try apply as_string_list_normalized.
    rewrite fold_extend. cbn [app]. apply concat_normalized.
    apply Forall_forall. intros l Hl. apply in_map_iff in Hl.
    destruct Hl as (v & <- & _). apply as_string_list_normalized.
  - rewrite <- E. apply as_string_list_normalized.
Qed.

Lemma branches_normalized (p2 : pydict) :
  Forall (fun b => normalized (branch_name b) /\ normalized (branch_result b)
                   /\ normalized (goal_impact b))
         (build_branches p2).
Proof.
  unfold build_branches. destruct (dict_get_or p2 "branches" JNull); try constructor.
  rewrite fold_branches. cbn [app].
  apply Forall_forall. intros b Hb. apply in_flat_map in Hb.
  destruct Hb as (item & _ & Hb). destruct item; try contradiction.
  destruct Hb as [<-|[]]. cbn [branch_record branch_name branch_result goal_impact].
  repeat split; apply text_or_na_normalized.
Qed.

(** Every report the builder returns is normalized: each of its eight
    list fields holds non-empty trimmed texts only, the three fields of
    every branch record are non-empty and trimmed, the diagnosis type is
    non-empty and trimmed, and the primary goal and the reasoning are
    trimmed (they may be empty). *)
Theorem built_report_is_normalized :
  forall (user_input : string) (s1 p1 p2 p3 : pydict),
  let r := _build_report user_input s1 p1 p2 p3 in
  normalized_list (core_variables (logical r))
  /\ normalized_list (retrieved_internal_knowledge (logical r))
  /\ normalized_list (internal_knowledge_used (logical r))
  /\ normalized_list (knowledge_gaps (logical r))
  /\ normalized_list (hidden_assumptions (logical r))
  /\ normalized_list (reality_gaps (logical r))
  /\ normalized_list (contradiction_path (diagnosis r))
  /\ normalized_list (suggested_mitigation r)
  /\ Forall (fun b => normalized (branch_name b) /\ normalized (branch_result b)
                      /\ normalized (goal_impact b))
            (stress_test_results r)
  /\ normalized (diagnosis_type (diagnosis r))
  /\ trimmed (primary_goal (logical r))
  /\ trimmed (reasoning (diagnosis r)).
Proof.
  intros user_input s1 p1 p2 p3 r. unfold r, _build_report.
  cbn [logical diagnosis core_variables retrieved_internal_knowledge
       internal_knowledge_used knowledge_gaps hidden_assumptions reality_gaps
       contradiction_path suggested_mitigation stress_test_results
       diagnosis_type primary_goal reasoning].
  repeat match goal with |- _ /\ _ => split end;
    try apply as_string_list_normalized.
  - apply core_vars_normalized.
  - apply knowledge_items_normalized.
  - apply branches_normalized.
  - unfold str_or.
    destruct (truthy (Py.strip (PyStr.str (dict_get_or p3 "paradox_type" (JStr "None")))))
      eqn:E.
    + now apply strip_normalized.
    + split; [discriminate | reflexivity].
  - apply strip_with_idem.
  - apply strip_with_idem.
Qed.

(* ===================================================================== *)
(** * What the extractor returns is written in the text *)
(* ===================================================================== *)

Lemma close_from_split : forall r d c,
  close_from d r = Some c -> exists post, r = c ++ post.
Proof.
  induction r as [|x r IH]; intros d c H; [discriminate|].
  cbn [close_from] in H.
  assert (Hrec : forall d', option_map (String x) (close_from d' r) = Some c ->
                            exists post, String x r = c ++ post).
  { intros d' H'. destruct (close_from d' r) as [c0|] eqn:E; [|discriminate].
    inversion H'; subst. destruct (IH _ _ E) as [post ->].
    exists post. reflexivity. }
  destruct (Ascii.eqb x "{"); [now apply Hrec with (d' := S d)|].
  destruct (Ascii.eqb x "}"); [|now apply Hrec with (d' := d)].
  destruct d as [|[|d]]; [discriminate| |now apply Hrec with (d' := S d)].
  inversion H; subst. exists r. reflexivity.
Qed.

Lemma balanced_prefix_split (s c : string) :
  balanced_prefix s = Some c ->
  exists mid post, c = String "{" (mid ++ String "}" EmptyString) /\ s = c ++ post.
Proof.
  destruct s as [|x r]; [discriminate|]. cbn [balanced_prefix].
  destruct (Ascii.eqb_spec x "{") as [->|_]; [|discriminate].
  destruct (close_from 1 r) as [c0|] eqn:E; [|discriminate].
  intros H. inversion H; subst.
  destruct (close_from_ends _ _ _ E) as [mid ->].
  destruct (close_from_split _ _ _ E) as [post ->].
  exists mid, post. split; reflexivity.
Qed.

(** Every candidate is a piece of the text, from an opening brace to a
    closing brace. *)
Lemma candidates_are_pieces (s c : string) :
  In c (candidates s) ->
  exists pre mid post,
    c = String "{" (mid ++ String "}" EmptyString) /\ s = pre ++ c ++ post.
Proof.
  induction s as [|x s IH]; [contradiction|].
  cbn [candidates].
  assert (Hrest : In c (candidates s) ->
                  exists pre mid post,
                    c = String "{" (mid ++ String "}" EmptyString)
                    /\ String x s = pre ++ c ++ post).
  { intros H. destruct (IH H) as (pre & mid & post & Hc & ->).
    exists (String x pre), mid, post. split; [exact Hc | reflexivity]. }
  destruct (balanced_prefix (String x s)) as [cand|] eqn:E; [|exact Hrest].
  intros [<-|H]; [|now apply Hrest].
  destruct (balanced_prefix_split _ _ E) as (mid & post & Hc & Hs).
  exists EmptyString, mid, post. split; [exact Hc | exact Hs].
Qed.

Lemma first_mapping_some (l : list string) (d : pydict) :
  first_mapping l = Some d -> exists c, In c l /\ Json.loads c = Some (JDict d).
Proof.
  induction l as [|c l IH]; [discriminate|].
  cbn [first_mapping]. unfold as_mapping at 1.
  destruct (Json.loads c) as [[]|] eqn:E;
    try (intros H; destruct (IH H) as (c' & Hin & Hl); exists c'; split;
         [now right | exact Hl]).
  intros H. inversion H; subst. exists c. split; [now left | exact E].
Qed.

Lemma extract_sound (text : string) (d : pydict) :
  _extract_json_dict text = inr d ->
  exists c, (c = clean_text text \/ In c (candidates (clean_text text)))
            /\ Json.loads c = Some (JDict d).
Proof.
  rewrite extract_spec. unfold as_mapping at 1.
  destruct (Json.loads (clean_text text)) as [[]|] eqn:E;
    try (destruct (first_mapping (candidates (clean_text text))) as [d'|] eqn:F;
         [|discriminate];
         intros H; inversion H; subst;
         destruct (first_mapping_some _ _ F) as (c & Hin & Hl);
         exists c; split; [now right | exact Hl]).
  intros H. inversion H; subst. exists (clean_text text). split; [now left | exact E].
Qed.

Lemma extract_error (text : string) (e : exn) :
  _extract_json_dict text = inl e -> e = parse_error text.
Proof.
  rewrite extract_spec.
  destruct (as_mapping (clean_text text)); [discriminate|].
  destruct (first_mapping (candidates (clean_text text))); [discriminate|].
  now intros H; inversion H.
Qed.



(* ===================================================================== *)
(** * A fenced block *)
(* ===================================================================== *)

Lemma rstrip_with_all (p : ascii -> bool) (post : string) :
  forallb p (list_ascii_of_string post) = true -> Py.rstrip_with p post = EmptyString.
Proof.
  induction post as [|c post IH]; [reflexivity|].
  cbn [list_ascii_of_string forallb Py.rstrip_with].
  intros H. apply andb_prop in H. destruct H as [Hc Hp].
  now rewrite (IH Hp), Hc.
Qed.

Lemma rstrip_with_tail (p : ascii -> bool) (s post : string) :
  forallb p (list_ascii_of_string post) = true ->
  Py.rstrip_with p (s ++ post) = Py.rstrip_with p s.
Proof.
  intros Hp. induction s as [|c s IH]; [now apply rstrip_with_all|].
  change (String c s ++ post) with (String c (s ++ post)).
  cbn [Py.rstrip_with]. now rewrite IH.
Qed.

Lemma lstrip_with_lead (p : ascii -> bool) (pre s : string) :
  forallb p (list_ascii_of_string pre) = true ->
  Py.lstrip_with p (pre ++ s) = Py.lstrip_with p s.
Proof.
  induction pre as [|c pre IH]; [reflexivity|].
  cbn [list_ascii_of_string forallb]. intros H.
  apply andb_prop in H. destruct H as [Hc Hp].
  change (String c pre ++ s) with (String c (pre ++ s)).
  cbn [Py.lstrip_with]. rewrite Hc. now apply IH.
Qed.

Lemma strip_with_fixed_head (p : ascii -> bool) (s : string) :
  Py.strip_with p s = s -> head_kept p s.
Proof.
  intros H. rewrite <- H. unfold Py.strip_with.
  apply rstrip_with_head, lstrip_with_head.
Qed.

(** Stripping removes what was put around a stripped text. *)
Lemma strip_with_around (p : ascii -> bool) (pre s post : string) :
  forallb p (list_ascii_of_string pre) = true ->
  forallb p (list_ascii_of_string post) = true ->
  s <> EmptyString ->
  Py.strip_with p s = s ->
  Py.strip_with p (pre ++ s ++ post) = s.
Proof.
  intros Hpre Hpost Hne Hs.
  pose proof (strip_with_fixed_head p s Hs) as Hhead.
  assert (Hl : Py.lstrip_with p s = s) by now apply lstrip_with_id.
  assert (Hr : Py.rstrip_with p s = s).
  { unfold Py.strip_with in Hs. now rewrite Hl in Hs. }
  unfold Py.strip_with. rewrite (lstrip_with_lead p pre _ Hpre).
  destruct s as [|a s]; [congruence|]. simpl in Hhead.
  change (String a s ++ post) with (String a (s ++ post)).
  cbn [Py.lstrip_with]. rewrite Hhead.
  change (String a (s ++ post)) with (String a s ++ post).
  now rewrite (rstrip_with_tail p _ post Hpost).
Qed.

Lemma clean_text_fenced (tag s : string) :
  tag = "```json" \/ tag = "```" ->
  has_char "`" s = false ->
  s <> EmptyString ->
  Py.strip s = s ->
  clean_text (tag ++ newline ++ s ++ newline ++ "```") = s.
Proof.
  intros Htag Hs Hne Htrim.
  assert (Hstrip : forall lead,
    Py.strip (String "`" lead ++ newline ++ s ++ newline ++ "```")
    = String "`" lead ++ newline ++ s ++ newline ++ "```").
  { intros lead.
    pose proof (strip_with_wrap Py.isspace EmptyString "`"
                  (lead ++ newline ++ s ++ newline ++ "``") "`" EmptyString
                  eq_refl eq_refl) as H.
    cbn [String.append Py.lstrip_with Py.rstrip_with] in H.
    unfold Py.strip.
    replace (String "`" lead ++ newline ++ s ++ newline ++ "```")
      with (String "`" ((lead ++ newline ++ s ++ newline ++ "``") ++ "`")).
    - exact H.
    - cbn [String.append]. f_equal. rewrite !app_assoc_str. reflexivity. }
  assert (Hrep : Py.replace "```json" "```" (tag ++ newline ++ s ++ newline ++ "```")
                 = "```" ++ newline ++ s ++ newline ++ "```").
  { assert (Hmid : Py.replace_from "```json" "```" 0 (s ++ newline ++ "```")
                   = s ++ newline ++ "```").
    { rewrite (replace_from_clear "`" "``json" "```" s _ Hs). reflexivity. }
    unfold Py.replace.
    destruct Htag as [-> | ->];
      cbn [String.append Py.replace_from String.prefix newline String.length Nat.sub];
      repeat match goal with
             | |- context [ascii_dec ?a ?b] => destruct (ascii_dec a b); try discriminate
             end;
      cbn [String.append Py.replace_from];
      unfold newline in Hmid; cbn [String.append] in Hmid; now rewrite Hmid. }
  unfold clean_text.
  destruct Htag as [-> | ->]; rewrite (Hstrip _), Hrep.
  all: change (Py.startswith "```" ("```" ++ newline ++ s ++ newline ++ "```")) with true;
    cbv iota; unfold Py.strip_chars.
  all: assert (Hbt :
         Py.strip_with (fun c => existsb (Ascii.eqb c) (list_ascii_of_string "`"))
                       ("```" ++ newline ++ s ++ newline ++ "```")
         = newline ++ s ++ newline)
    by (refine (eq_trans
                  (strip_with_wrap
                     (fun c => existsb (Ascii.eqb c) (list_ascii_of_string "`"))
                     "```" "010" s "010" "```" eq_refl eq_refl) _);
        reflexivity).
  all: rewrite Hbt.
  all: apply (strip_with_around Py.isspace newline s newline eq_refl eq_refl Hne Htrim).
Qed.

(** A mapping in a fenced block is recovered whatever its strings hold
    besides backticks: from the serialization [s] between a fence line,
    tagged json or bare, and a closing fence line, the extractor
    returns the mapping that [s] parses to, braces inside its strings
    included. *)
Theorem extract_from_fenced_block :
  forall (s : string) (m : pydict),
  has_char "`" s = false ->
  Py.strip s = s ->
  Json.loads s = Some (JDict m) ->
  _extract_json_dict ("```json" ++ newline ++ s ++ newline ++ "```") = inr m
  /\ _extract_json_dict ("```" ++ newline ++ s ++ newline ++ "```") = inr m.
Proof.
  intros s m Hs Htrim Hload.
  assert (Hne : s <> EmptyString) by (intros ->; discriminate Hload).
  split; rewrite extract_spec, clean_text_fenced by auto;
    unfold as_mapping; now rewrite Hload.
Qed.

Lemma extract_from_fenced_witness :
  _extract_json_dict ("```json" ++ newline ++ Q "{'a': '}'}" ++ newline ++ "```")
  = inr [("a", JStr "}")]
  /\ _extract_json_dict ("```" ++ newline ++ Q "{'a': '}'}" ++ newline ++ "```")
     = inr [("a", JStr "}")].
Proof.
  apply (extract_from_fenced_block (Q "{'a': '}'}") [("a", JStr "}")]);
    vm_compute; reflexivity.
Defined.

(* ===================================================================== *)
(** * The request that chat sends *)
(* ===================================================================== *)

Lemma header_get_set_same (hs : list (string * string)) (key value : string) :
  header_get (header_set hs key value) key = Some value.
Proof.
  induction hs as [|[k w] hs IH]; cbn [header_set header_get].
  - now rewrite String.eqb_refl.
  - destruct (String.eqb k key) eqn:E; cbn [header_get]; rewrite E; auto.
Qed.

Lemma header_get_set_other (hs : list (string * string)) (key value other : string) :
  other <> key ->
  header_get (header_set hs key value) other = header_get hs other.
Proof.
  intros Hne. induction hs as [|[k w] hs IH]; cbn [header_set header_get].
  - destruct (String.eqb_spec key other); [congruence | reflexivity].
  - destruct (String.eqb_spec k key) as [->|Hk]; cbn [header_get].
    + destruct (String.eqb_spec key other); [congruence | reflexivity].
    + destruct (String.eqb k other); [reflexivity | exact IH].
Qed.

Lemma header_set_keys (hs : list (string * string)) (key value : string) :
  NoDup (map fst hs) -> NoDup (map fst (header_set hs key value)).
Proof.
  intros H.
  assert (Hin : forall k hs', In k (map fst (header_set hs' key value)) ->
                              k = key \/ In k (map fst hs')).
  { intros k hs'. induction hs' as [|[k' w] hs' IH']; cbn [header_set map fst In].
    - intros [<-|[]]. now left.
    - destruct (String.eqb_spec k' key) as [->|Hk]; cbn [map fst In].
      + intros [<-|Hr]; auto.
      + intros [<-|Hr]; [auto|]. destruct (IH' Hr); auto. }
  induction hs as [|[k w] hs IH]; cbn [header_set map fst].
  - repeat constructor. intros [].
  - cbn [map fst] in H. inversion H as [|? ? Hnot Hrest]; subst.
    destruct (String.eqb_spec k key) as [->|Hk]; cbn [map fst].
    + now constructor.
    + constructor; [|now apply IH].
      intros Hk'. destruct (Hin _ _ Hk'); [congruence | contradiction].
Qed.

Lemma chat_by_request (urlopen : http_request -> http_outcome) (config : ModelAPIConfig)
      (system_prompt user_prompt : string) (temperature : option pyfloat) :
  chat urlopen config system_prompt user_prompt temperature
  = if negb (truthy (api_key config))
    then inl (AgentAPIError "API key is empty in loaded model config.")
    else chat_outcome config
           (urlopen (chat_request config system_prompt user_prompt temperature)).
Proof. reflexivity. Qed.



(* ===================================================================== *)
(** * The endpoint *)
(* ===================================================================== *)

Lemma rstrip_with_last (p : ascii -> bool) (s : string) :
  match last_char (Py.rstrip_with p s) with
  | Some c => p c = false
  | None => True
  end.
Proof.
  induction s as [|c s IH]; [exact I|].
  cbn [Py.rstrip_with].
  destruct (Py.rstrip_with p s) as [|y t] eqn:E.
  - destruct (p c) eqn:Ec; [exact I | exact Ec].
  - exact IH.
Qed.

Lemma rstrip_with_fixed (p : ascii -> bool) (s : string) :
  match last_char s with
  | Some c => p c = false
  | None => True
  end ->
  Py.rstrip_with p s = s.
Proof.
  induction s as [|c s IH]; [reflexivity|].
  destruct s as [|y t].
  - cbn. now intros ->.
  - intros H. change (last_char (String c (String y t))) with (last_char (String y t)) in H.
    specialize (IH H). cbn [Py.rstrip_with] in *. now rewrite IH.
Qed.

(** The endpoint is the base URL without its trailing slashes, followed
    by the path: slashes added at the end of the base URL do not change
    it, the part before the path never ends with a slash, and a base URL
    that does not end with a slash is taken as it is. *)
Theorem endpoint_ignores_trailing_slashes :
  forall (config : ModelAPIConfig),
  (forall slashes : string,
      all_slashes slashes = true ->
      endpoint (with_base_url config (base_url config ++ slashes)) = endpoint config)
  /\ (exists stem : string,
         endpoint config = stem ++ chat_completions_path config
         /\ last_char stem <> Some "/"%char
         /\ exists slashes, all_slashes slashes = true /\ base_url config = stem ++ slashes)
  /\ (last_char (base_url config) <> Some "/"%char ->
      endpoint config = base_url config ++ chat_completions_path config).
Proof.
  intros config. unfold endpoint. split; [|split].
  - intros slashes H. cbn [with_base_url base_url chat_completions_path].
    now rewrite (rstrip_with_tail (Ascii.eqb "/") _ slashes H).
  - exists (Py.rstrip_with (Ascii.eqb "/") (base_url config)).
    split; [reflexivity|]. split.
    + pose proof (rstrip_with_last (Ascii.eqb "/") (base_url config)) as H.
      destruct (last_char _) as [c|]; [|discriminate].
      intros Heq. inversion Heq; subst. discriminate H.
    + generalize (base_url config). intros b.
      induction b as [|c b IH]; [exists EmptyString; split; reflexivity|].
      destruct IH as (sl & Hsl & Hb). cbn [Py.rstrip_with].
      destruct (Py.rstrip_with (Ascii.eqb "/") b) as [|y t] eqn:E.
      * destruct (Ascii.eqb "/" c) eqn:Ec.
        -- exists (String c sl). split.
           ++ unfold all_slashes in *. cbn [list_ascii_of_string forallb].
              now rewrite Ec, Hsl.
           ++ cbn [String.append] in *. now rewrite Hb.
        -- exists sl. split; [exact Hsl|]. cbn [String.append] in *. now rewrite Hb.
      * exists sl. split; [exact Hsl|].
        change (String c (String y t) ++ sl) with (String c (String y t ++ sl)).
        now rewrite <- Hb.
  - intros H. rewrite rstrip_with_fixed; [reflexivity|].
    destruct (last_char (base_url config)) as [c|]; [|exact I].
    destruct (Ascii.eqb_spec "/" c) as [<-|]; [congruence | reflexivity].
Qed.

Lemma endpoint_witness :
  endpoint (with_base_url example_config "https://api.deepseek.com///")
  = endpoint (with_base_url example_config "https://api.deepseek.com").
Proof.
  apply (proj1 (endpoint_ignores_trailing_slashes
                  (with_base_url example_config "https://api.deepseek.com")) "///").
  reflexivity.
Defined.

(* ===================================================================== *)
(** * Loading a model configuration *)
(* ===================================================================== *)

Lemma field_normalized (d : pydict) (key default : string) :
  truthy (field d key default) = true -> normalized (field d key default).
Proof. apply strip_normalized. Qed.

Lemma header_set_forall (P : string * string -> Prop) (hs : list (string * string))
      (key value : string) :
  P (key, value) -> Forall P hs -> Forall P (header_set hs key value).
Proof.
  intros Hkv H. induction H as [|[k w] hs Hx Hhs IH]; cbn [header_set].
  - now repeat constructor.
  - destruct (String.eqb_spec k key) as [->|_]; constructor; auto.
Qed.

Lemma kept_headers_ok (raw_headers : json) :
  NoDup (map fst (kept_headers raw_headers)) /\ Forall header_ok (kept_headers raw_headers).
Proof.
  unfold kept_headers. destruct raw_headers; try (split; constructor).
  assert (H : forall acc : list (string * string),
             NoDup (map fst acc) /\ Forall header_ok acc ->
             NoDup (map fst
                      (fold_left
                         (fun hs kv =>
                            if truthy (Py.strip (fst kv))
                               && truthy (Py.strip (PyStr.str (snd kv)))
                            then header_set hs (Py.strip (fst kv))
                                            (Py.strip (PyStr.str (snd kv)))
                            else hs) d acc))
             /\ Forall header_ok
                  (fold_left
                     (fun hs kv =>
                        if truthy (Py.strip (fst kv))
                           && truthy (Py.strip (PyStr.str (snd kv)))
                        then header_set hs (Py.strip (fst kv))
                                        (Py.strip (PyStr.str (snd kv)))
                        else hs) d acc)).
  { induction d as [|kv d IH]; intros acc Hacc; [exact Hacc|].
    cbn [fold_left]. apply IH.
    destruct (truthy (Py.strip (fst kv))) eqn:Ek; [|exact Hacc].
    destruct (truthy (Py.strip (PyStr.str (snd kv)))) eqn:Ev; [|exact Hacc].
    cbn [andb]. destruct Hacc as [Hnd Hok]. split.
    - now apply header_set_keys.
    - apply header_set_forall; [|exact Hok].
      split; now apply strip_normalized. }
  apply H. split; constructor.
Qed.

Lemma with_content_type_ok (hs : list (string * string)) :
  NoDup (map fst hs) -> Forall header_ok hs ->
  NoDup (map fst (with_content_type hs))
  /\ Forall header_ok (with_content_type hs)
  /\ exists v, header_get (with_content_type hs) "Content-Type" = Some v.
Proof.
  intros Hnd Hok. unfold with_content_type.
  destruct (header_get hs "Content-Type") as [v|] eqn:E.
  - repeat split; auto. exists v. exact E.
  - split; [now apply header_set_keys|]. split.
    + apply header_set_forall; [|exact Hok].
      split; split; (discriminate || reflexivity).
    + eexists. apply header_get_set_same.
Qed.

Lemma load_model_config_inv (path : string) (document : option json)
      (getenv : string -> option string) (to_float : json -> config_exn + pyfloat)
      (cfg : ModelAPIConfig) :
  load_model_config path document getenv to_float = inr cfg ->
  exists d timeout temperature,
    (if py_truthy (match document with Some v => v | None => JNull end)
     then document = Some (JDict d)
     else d = [])
    /\ provider cfg = field d "provider" EmptyString
    /\ model cfg = field d "model" EmptyString
    /\ base_url cfg = field d "base_url" EmptyString
    /\ truthy (provider cfg) = true
    /\ truthy (model cfg) = true
    /\ truthy (base_url cfg) = true
    /\ truthy (api_key cfg) = true
    /\ api_key cfg
       = (let env_name := field d "api_key_env" EmptyString in
          let from_env :=
            if truthy env_name
            then Py.strip (match getenv env_name with Some v => v | None => EmptyString end)
            else EmptyString in
          if truthy from_env then from_env else field d "api_key" EmptyString)
    /\ chat_completions_path cfg
       = (let p := field d "chat_completions_path" "/chat/completions" in
          if Py.startswith "/" p then p else "/" ++ p)
    /\ to_float (dict_get_or d "timeout_seconds" (JInt 90)) = inr timeout
    /\ to_float (dict_get_or d "default_temperature" (JFloat (FNum "0.2"))) = inr temperature
    /\ timeout_seconds cfg = timeout
    /\ default_temperature cfg = temperature
    /\ headers cfg = Some (with_content_type (kept_headers (dict_get_or d "headers" JNull))).
Proof.
  unfold load_model_config. destruct document as [loaded|]; [|discriminate].
  set (data := if py_truthy loaded then loaded else JDict []).
  assert (Hdata : forall d, data = JDict d ->
                  if py_truthy loaded then Some loaded = Some (JDict d) else d = []).
  { intros d Hd. unfold data in Hd. destruct (py_truthy loaded).
    - now rewrite Hd.
    - now inversion Hd. }
  destruct data as [| | | | | |d] eqn:Ed; try discriminate.
  specialize (Hdata d eq_refl).
  destruct (truthy (field d "provider" EmptyString)) eqn:E1; [|discriminate].
  destruct (truthy (field d "model" EmptyString)) eqn:E2; [|discriminate].
  destruct (truthy (field d "base_url" EmptyString)) eqn:E3; [|discriminate].
  cbn [negb orb].
  match goal with
  | |- context [if negb (truthy ?k) then _ else _] =>
      destruct (truthy k) eqn:E4; [|discriminate]
  end.
  cbn [negb]. unfold bind_config.
  destruct (to_float (dict_get_or d "timeout_seconds" (JInt 90))) as [e|tm] eqn:E5;
    [discriminate|].
  destruct (to_float (dict_get_or d "default_temperature" (JFloat (FNum "0.2"))))
    as [e|tp] eqn:E6; [discriminate|].
  intros H. inversion H; subst; clear H.
  exists d, tm, tp.
  cbn [provider model base_url api_key chat_completions_path timeout_seconds
       default_temperature headers].
  repeat split; auto.
Qed.

(** A configuration that [load_model_config] returns is valid: provider,
    model, base URL and credential are non-empty and trimmed, the path
    of the endpoint starts with a slash, and the headers have distinct,
    non-empty, trimmed names and values, Content-Type among them. *)
Theorem loaded_config_is_valid :
  forall (path : string) (document : option json)
         (getenv : string -> option string) (to_float : json -> config_exn + pyfloat)
         (cfg : ModelAPIConfig),
  load_model_config path document getenv to_float = inr cfg ->
  normalized (provider cfg)
  /\ normalized (model cfg)
  /\ normalized (base_url cfg)
  /\ normalized (api_key cfg)
  /\ String.prefix "/" (chat_completions_path cfg) = true
  /\ exists hs,
       headers cfg = Some hs
       /\ NoDup (map fst hs)
       /\ Forall (fun kv => normalized (fst kv) /\ normalized (snd kv)) hs
       /\ exists v, header_get hs "Content-Type" = Some v.
Proof.
  intros path document getenv to_float cfg H.
  destruct (load_model_config_inv _ _ _ _ _ H)
    as (d & tm & tp & _ & Hp & Hm & Hb & Tp & Tm & Tb & Tk & Hk & Hpath & _ & _ & _ & _ & Hh).
  split; [rewrite Hp in *; now apply field_normalized|].
  split; [rewrite Hm in *; now apply field_normalized|].
  split; [rewrite Hb in *; now apply field_normalized|].
  split.
  { rewrite Hk in *. cbv zeta in *.
    destruct (truthy (field d "api_key_env" EmptyString)).
    - destruct (truthy (Py.strip _)) eqn:E.
      + now apply strip_normalized.
      + now apply field_normalized.
    - cbn [truthy] in *. now apply field_normalized. }
  split.
  { rewrite Hpath. cbv zeta. unfold Py.startswith.
    destruct (String.prefix "/" (field d "chat_completions_path" "/chat/completions"))
      eqn:E; [exact E|].
    cbn. destruct (field d "chat_completions_path" "/chat/completions"); reflexivity. }
  exists (with_content_type (kept_headers (dict_get_or d "headers" JNull))).
  split; [exact Hh|].
  destruct (kept_headers_ok (dict_get_or d "headers" JNull)) as [Hnd Hok].
  destruct (with_content_type_ok _ Hnd Hok) as (H1 & H2 & H3).
  repeat split; assumption.
Qed.

Lemma loaded_config_witness :
  load_model_config "m.yaml" (Some example_document) example_getenv example_float
  = inr example_loaded
  /\ normalized (api_key example_loaded)
  /\ String.prefix "/" (chat_completions_path example_loaded) = true.
Proof.
  assert (H : load_model_config "m.yaml" (Some example_document) example_getenv
                                example_float = inr example_loaded)
    by (vm_compute; reflexivity).
  split; [exact H|].
  destruct (loaded_config_is_valid _ _ _ _ _ H) as (_ & _ & _ & Hk & Hp & _).
  split; assumption.
Defined.



(** A document with no content (an empty file, [null], [false], [0], an
    empty text, list or mapping) is read as the empty mapping: the error
    is the one about the required fields, never the one about the root. *)
Theorem empty_document_lacks_fields :
  forall (path : string) (loaded : json)
         (getenv : string -> option string) (to_float : json -> config_exn + pyfloat),
  py_truthy loaded = false ->
  load_model_config path (Some loaded) getenv to_float
  = inl (APIConfigError ("Invalid config " ++ path
                         ++ ": provider/model/base_url are required.")).
Proof.
  intros path loaded getenv to_float H. unfold load_model_config.
  rewrite H. reflexivity.
Qed.

Lemma empty_document_witness :
  load_model_config "m.yaml" (Some (JList [])) example_getenv example_float
  = inl (APIConfigError "Invalid config m.yaml: provider/model/base_url are required.").
Proof. apply (empty_document_lacks_fields "m.yaml" (JList [])). reflexivity. Defined.

(** The credential of a loaded configuration: the trimmed value of the
    environment variable that the document names, when the name and the
    value are not blank, whatever the inline key is; the trimmed inline
    key otherwise. *)
Theorem credential_from_environment_first :
  forall (path : string) (d : pydict)
         (getenv : string -> option string) (to_float : json -> config_exn + pyfloat)
         (cfg : ModelAPIConfig),
  load_model_config path (Some (JDict d)) getenv to_float = inr cfg ->
  let name := field d "api_key_env" EmptyString in
  (forall value : string,
     name <> EmptyString -> getenv name = Some value ->
     Py.strip value <> EmptyString ->
     api_key cfg = Py.strip value)
  /\ (name = EmptyString \/ getenv name = None
      \/ (exists value, getenv name = Some value /\ Py.strip value = EmptyString) ->
      api_key cfg = field d "api_key" EmptyString).
Proof.
  intros path d getenv to_float cfg H name.
  destruct (load_model_config_inv _ _ _ _ _ H)
    as (d' & tm & tp & Hd & _ & _ & _ & _ & _ & _ & _ & Hk & _).
  assert (d' = d) as ->.
  { cbn [py_truthy] in Hd. destruct d as [|kv d].
    - exact Hd.
    - now inversion Hd. }
  cbv zeta in Hk. fold name in Hk. rewrite Hk. split.
  - intros value Hn Hv Hs. rewrite Hv.
    destruct name; [congruence|]. cbn [truthy].
    destruct (Py.strip value); [congruence|]. reflexivity.
  - intros [Hn|[Hn|(value & Hv & Hs)]].
    + rewrite Hn. reflexivity.
    + rewrite Hn. destruct (truthy name); reflexivity.
    + rewrite Hv, Hs. destruct (truthy name); reflexivity.
Qed.

Lemma credential_witness :
  load_model_config "m.yaml" (Some example_document) example_getenv example_float
  = inr example_loaded
  /\ api_key example_loaded = "sk-env".
Proof.
  assert (H : load_model_config "m.yaml" (Some example_document) example_getenv
                                example_float = inr example_loaded)
    by (vm_compute; reflexivity).
  split; [exact H|].
  exact (proj1 (credential_from_environment_first "m.yaml" _ _ _ _ H) " sk-env "
               ltac:(vm_compute; discriminate) ltac:(vm_compute; reflexivity)
               ltac:(vm_compute; discriminate)).
Defined.

(** A key of the document whose value is null is not a missing key: the
    text of a loaded configuration for it is [None], for the required
    fields and, when no environment variable is named, for the
    credential. *)
Theorem null_fields_read_as_None :
  forall (path : string) (d : pydict)
         (getenv : string -> option string) (to_float : json -> config_exn + pyfloat)
         (cfg : ModelAPIConfig),
  load_model_config path (Some (JDict d)) getenv to_float = inr cfg ->
  (dict_get d "provider" = Some JNull -> provider cfg = "None")
  /\ (dict_get d "model" = Some JNull -> model cfg = "None")
  /\ (dict_get d "base_url" = Some JNull -> base_url cfg = "None")
  /\ (dict_get d "api_key" = Some JNull -> dict_get d "api_key_env" = None ->
      api_key cfg = "None").
Proof.
  intros path d getenv to_float cfg H.
  destruct (load_model_config_inv _ _ _ _ _ H)
    as (d' & tm & tp & Hd & Hp & Hm & Hb & _ & _ & _ & _ & Hk & _).
  assert (d' = d) as ->.
  { cbn [py_truthy] in Hd. destruct d as [|kv d].
    - exact Hd.
    - now inversion Hd. }
  assert (F : forall key, dict_get d key = Some JNull ->
                          field d key EmptyString = "None").
  { intros key E. unfold field, dict_get_or. rewrite E. reflexivity. }
  repeat split.
  - intros E. rewrite Hp. now apply F.
  - intros E. rewrite Hm. now apply F.
  - intros E. rewrite Hb. now apply F.
  - intros E En. rewrite Hk. cbv zeta.
    assert (field d "api_key_env" EmptyString = EmptyString) as ->.
    { unfold field, dict_get_or. rewrite En. reflexivity. }
    cbn [truthy]. now apply F.
Qed.

Lemma null_fields_witness :
  load_model_config "m.yaml" (Some (JDict null_document)) example_getenv example_float
  = inr null_loaded
  /\ api_key null_loaded = "None".
Proof.
  assert (H : load_model_config "m.yaml" (Some (JDict null_document)) example_getenv
                                example_float = inr null_loaded)
    by (vm_compute; reflexivity).
  split; [exact H|].
  destruct (null_fields_read_as_None _ _ _ _ _ H) as (_ & _ & _ & Hk).
  apply Hk; reflexivity.
Defined.



(* ===================================================================== *)
(** * The command lines *)
(* ===================================================================== *)

Section CommandFacts.

Variable World : Type.
Variable urlopen : http_request -> World -> http_outcome * World.
Variable P : prompts.
Variable load : option string -> config_exn + ModelAPIConfig.
Variable dumps_report : report -> string.
Variable decode_error_text : string.
Variable quit_hint : string.

(** The client over a network with a state answers as [chat] does on
    what the network answers in that state. *)
Lemma client_chat_is_chat (config : ModelAPIConfig) (temperature : option pyfloat)
      (system_prompt user_prompt : string) (w : World) :
  fst (client_chat World urlopen config temperature system_prompt user_prompt w)
  = chat (fun req => fst (urlopen req w)) config system_prompt user_prompt temperature.
Proof.
  rewrite chat_by_request. unfold client_chat.
  destruct (negb (truthy (api_key config))); [reflexivity|].
  destruct (urlopen _ w) as [outcome w']. reflexivity.
Qed.

Lemma client_chat_errors (config : ModelAPIConfig) (temperature : option pyfloat)
      (system_prompt user_prompt : string) (w w' : World) (e : exn) :
  client_chat World urlopen config temperature system_prompt user_prompt w = (inl e, w') ->
  (exists msg, e = AgentAPIError msg) \/ e = AttributeError.
Proof.
  intros H.
  apply (chat_error_kinds (fun req => fst (urlopen req w)) config system_prompt
                          user_prompt temperature).
  rewrite <- client_chat_is_chat, H. reflexivity.
Qed.

(** What a stage of the pipeline leaves: one more call, and an error
    that is the client's or the extractor's. *)
Lemma stage_result (client : string -> string -> World -> (exn + string) * World)
      (base prompt : string) (st st' : run World) (r : exn + pydict) :
  bind World (call_chat World client base prompt)
       (fun raw => lift World (_extract_json_dict raw)) st = (r, st') ->
  calls st' = (calls st ++ [(base, prompt)])%list
  /\ forall e, r = inl e ->
       (exists w', client base prompt (world st) = (inl e, w'))
       \/ (exists raw, e = parse_error raw).
Proof.
  unfold bind, call_chat, lift.
  destruct (client base prompt (world st)) as [[e0|raw] w'] eqn:E.
  - intros H. inversion H; subst. split; [reflexivity|].
    intros e He. inversion He; subst. left. now exists w'.
  - intros H. inversion H; subst. split; [reflexivity|].
    intros e He. right. exists raw. now apply extract_error.
Qed.

(** The calls of [analyze]: at most four more, all with the base system
    prompt, four when it returns a report; an error is the client's or
    the extractor's. *)
Lemma analyze_result (client : string -> string -> World -> (exn + string) * World)
      (output_language user_input : string) (st st' : run World) (r : exn + report) :
  analyze World client P output_language user_input st = (r, st') ->
  exists new,
    calls st' = (calls st ++ new)%list
    /\ (length new <= 4)%nat
    /\ new <> []
    /\ Forall (fun c => fst c = BASE_SYSTEM_PROMPT P) new
    /\ (forall rep, r = inr rep -> length new = 4%nat)
    /\ (forall e, r = inl e ->
          (exists s u w w', client s u w = (inl e, w'))
          \/ (exists raw, e = parse_error raw)).
Proof.
  unfold analyze, _run_s1_knowledge_retrieval, _run_phase_1, _run_phase_2, _run_phase_3.
  set (base := BASE_SYSTEM_PROMPT P).
  assert (Herr : forall prompt (s : run World) e,
             ((exists w', client base prompt (world s) = (inl e, w'))
              \/ (exists raw, e = parse_error raw)) ->
             (exists s u w w', client s u w = (inl e, w'))
             \/ (exists raw, e = parse_error raw)).
  { intros prompt s e [[w' H]|H]; [left; eauto|right; exact H]. }
  unfold bind at 1.
  match goal with
  | |- context [bind World (call_chat World client base ?q) ?k st] =>
      destruct (bind World (call_chat World client base q) k st) as [[e1|s1] st1] eqn:E1;
      destruct (stage_result client base q st st1 _ E1) as [C1 R1]
  end.
  { intros H. inversion H; subst. exists [(base, S1_KNOWLEDGE_TEMPLATE P output_language user_input)].
    repeat split; auto; try discriminate.
    intros e He. inversion He; subst. eapply Herr. now apply R1. }
  unfold bind at 1.
  match goal with
  | |- context [bind World (call_chat World client base ?q) ?k st1] =>
      destruct (bind World (call_chat World client base q) k st1) as [[e2|p1] st2] eqn:E2;
      destruct (stage_result client base q st1 st2 _ E2) as [C2 R2]
  end.
  { intros H. inversion H; subst. eexists [_; _].
    rewrite C2, C1, <- app_assoc. repeat split; auto; try discriminate.
    intros e He. inversion He; subst. eapply Herr. now apply R2. }
  unfold bind at 1.
  match goal with
  | |- context [bind World (call_chat World client base ?q) ?k st2] =>
      destruct (bind World (call_chat World client base q) k st2) as [[e3|p2] st3] eqn:E3;
      destruct (stage_result client base q st2 st3 _ E3) as [C3 R3]
  end.
  { intros H. inversion H; subst. eexists [_; _; _].
    rewrite C3, C2, C1, <- !app_assoc. repeat split; auto; try discriminate.
    intros e He. inversion He; subst. eapply Herr. now apply R3. }
  unfold bind at 1.
  match goal with
  | |- context [bind World (call_chat World client base ?q) ?k st3] =>
      destruct (bind World (call_chat World client base q) k st3) as [[e4|p3] st4] eqn:E4;
      destruct (stage_result client base q st3 st4 _ E4) as [C4 R4]
  end.
  { intros H. inversion H; subst. eexists [_; _; _; _].
    rewrite C4, C3, C2, C1, <- !app_assoc. repeat split; auto; try discriminate.
    intros e He. inversion He; subst. eapply Herr. now apply R4. }
  unfold ret. intros H. inversion H; subst. eexists [_; _; _; _].
  rewrite C4, C3, C2, C1, <- !app_assoc. repeat split; auto; discriminate.
Qed.

Lemma run_failure_shape (e : config_exn) :
  (exists msg, run_failure decode_error_text e = (Exit 1, ["[ERROR] " ++ msg]))
  \/ (run_failure decode_error_text e = (Uncaught e, [])
      /\ forall msg, e <> APIConfigError msg
                     /\ e <> Raised (AgentAPIError msg)
                     /\ e <> Raised (ValueError msg)).
Proof.
  unfold run_failure.
  destruct e as [msg|[msg|msg| | | | |]]; cbn [caught_by_run];
    try (left; eexists; reflexivity);
    right; (split; [reflexivity|]); intros msg; repeat split; discriminate.
Qed.


Lemma ask_once_result (config : ModelAPIConfig) (system_prompt question : string)
      (temperature : option pyfloat) (st st' : run World) (r : exn + string) :
  _ask_once World urlopen config system_prompt question temperature st = (r, st') ->
  calls st' = (calls st ++ [(system_prompt, question)])%list
  /\ forall e, r = inl e -> (exists msg, e = AgentAPIError msg) \/ e = AttributeError.
Proof.
  unfold _ask_once, call_chat.
  destruct (client_chat World urlopen config temperature system_prompt question (world st))
    as [r0 w'] eqn:E.
  intros H. inversion H; subst. split; [reflexivity|].
  intros e ->. exact (client_chat_errors _ _ _ _ _ _ _ E).
Qed.

Lemma asked_cons (line : string) (read : list string) :
  asked_questions (line :: read)
  = ((if truthy (Py.strip line) && negb (is_exit_word (Py.strip line))
      then [Py.strip line] else []) ++ asked_questions read)%list.
Proof.
  unfold asked_questions. cbn [map filter].
  destruct (truthy (Py.strip line) && negb (is_exit_word (Py.strip line))); reflexivity.
Qed.

Lemma exit_word_not_blank (q : string) : is_exit_word q = true -> truthy q = true.
Proof. destruct q; [discriminate|reflexivity]. Qed.



(** A text in the configuration that [float] refuses with a
    [ValueError]: [run.py] reports it in one [ERROR] line and exits with
    code 1, while [demo.py], which catches [APIConfigError] only, lets
    the exception through.  Neither asks the client. *)
Theorem float_error_is_reported_by_run_only :
  forall (rargs : run_args) (dargs : demo_args) (line : option string)
         (statement : string) (inputs : list string) (w : World) (msg : string),
  load (args_config rargs) = inl (Raised (ValueError msg)) ->
  load (demo_config dargs) = inl (Raised (ValueError msg)) ->
  _read_statement (args_statement rargs) line = Some statement ->
  statement <> EmptyString ->
  main World urlopen P load dumps_report decode_error_text rargs line w
  = ((Exit 1, ["[ERROR] " ++ msg]), {| world := w; calls := [] |})
  /\ demo_main World urlopen load quit_hint dargs inputs w
     = ((Uncaught (Raised (ValueError msg)), []), ({| world := w; calls := [] |}, inputs)).
Proof.
  intros rargs dargs line statement inputs w msg Hr Hd Hs Hne.
  unfold main, demo_main. rewrite Hs, Hr, Hd.
  destruct statement; [congruence|]. split; reflexivity.
Qed.

End CommandFacts.


Lemma float_error_witness :
  slow_loader None
  = inl (Raised (ValueError "could not convert string to float: 'fast'"))
  /\ main nat example_network example_prompts slow_loader
          (fun _ => EmptyString) EmptyString example_run_args None 0
     = ((Exit 1, ["[ERROR] could not convert string to float: 'fast'"]),
        {| world := 0; calls := [] |})
  /\ demo_main nat example_network slow_loader EmptyString example_demo_args [] 0
     = ((Uncaught (Raised (ValueError "could not convert string to float: 'fast'")), []),
        ({| world := 0; calls := [] |}, [])).
Proof.
  split; [vm_compute; reflexivity|].
  apply (float_error_is_reported_by_run_only nat example_network example_prompts
           slow_loader (fun _ => EmptyString) EmptyString EmptyString
           example_run_args example_demo_args None "This statement is false." [] 0
           "could not convert string to float: 'fast'").
  - vm_compute; reflexivity.
  - vm_compute; reflexivity.
  - vm_compute; reflexivity.
  - discriminate.
Defined.


(* ===================================================================== *)
(** * Reading back what [json.dumps] writes *)
(* ===================================================================== *)

Lemma scan_escape_char (c : ascii) (r : string) :
  Json.scan_string (JsonDumps.escape_char c ++ r)
  = Json.cons_fst c (Json.scan_string r).
Proof. destruct c as [[] [] [] [] [] [] [] []]; reflexivity. Qed.

Lemma scan_string_escape (s rest : string) :
  Json.scan_string (JsonDumps.escape s ++ String dq rest) = Some (s, rest).
Proof.
  induction s as [|c s IH]; [reflexivity|].
  cbn [JsonDumps.escape]. rewrite app_assoc_str, scan_escape_char, IH. reflexivity.
Qed.

Lemma span_digits_app (s rest : string) :
  delimited rest = true ->
  Json.span_digits (s ++ rest)
  = (fst (Json.span_digits s), snd (Json.span_digits s) ++ rest).
Proof.
  intros Hd. induction s as [|c s IH].
  - cbn [String.append]. destruct rest as [|d rest]; [reflexivity|].
    cbn in Hd. cbn [Json.span_digits].
    destruct (Json.is_digit d) eqn:E; [|reflexivity].
    exfalso. apply orb_true_iff in Hd. destruct Hd as [Hd|Hd].
    + apply orb_true_iff in Hd.
      destruct Hd as [Hd|Hd]; apply Ascii.eqb_eq in Hd; subst; discriminate.
    + apply Ascii.eqb_eq in Hd; subst; discriminate.
  - cbn [String.append Json.span_digits].
    destruct (Json.is_digit c); [|reflexivity].
    rewrite IH. destruct (Json.span_digits s) as [ds r]. reflexivity.
Qed.

Lemma delimited_cases (rest : string) :
  delimited rest = true ->
  rest = EmptyString
  \/ exists r, rest = String "," r \/ rest = String "]" r \/ rest = String "}" r.
Proof.
  destruct rest as [|d r]; [now left|]. cbn. intros H. right. exists r.
  apply orb_true_iff in H. destruct H as [H|H].
  - apply orb_true_iff in H.
    destruct H as [H|H]; apply Ascii.eqb_eq in H; subst; auto.
  - apply Ascii.eqb_eq in H; subst; auto.
Qed.

Ltac by_delimiter H :=
  destruct (delimited_cases _ H) as [->|[? [->|[->| ->]]]]; reflexivity.

Lemma sign_stage_app (s rest : string) :
  delimited rest = true ->
  match s ++ rest with
  | String "-" r => ("-", r)
  | _ => (EmptyString, s ++ rest)
  end
  = (let '(sg, s1) :=
       match s with
       | String "-" r => ("-", r)
       | _ => (EmptyString, s)
       end in
     (sg, s1 ++ rest)).
Proof.
  intros Hd. destruct s as [|c s]; [by_delimiter Hd|].
  destruct c as [[] [] [] [] [] [] [] []]; reflexivity.
Qed.

Lemma int_stage_app (s1 rest : string) :
  delimited rest = true ->
  match s1 ++ rest with
  | String "0" r => Some ("0", r)
  | String c _ =>
      if Json.is_digit c then Some (Json.span_digits (s1 ++ rest)) else None
  | EmptyString => None
  end
  = option_map (fun p => (fst p, snd p ++ rest))
      match s1 with
      | String "0" r => Some ("0", r)
      | String c _ =>
          if Json.is_digit c then Some (Json.span_digits s1) else None
      | EmptyString => None
      end.
Proof.
  intros Hd. destruct s1 as [|c s]; [by_delimiter Hd|].
  destruct c as [[] [] [] [] [] [] [] []];
    try reflexivity;
    cbn [String.append]; cbv beta iota;
    match goal with
    | |- context [Json.span_digits (String ?c (s ++ rest))] =>
        change (String c (s ++ rest)) with (String c s ++ rest);
        rewrite (span_digits_app _ rest Hd); reflexivity
    end.
Qed.

Lemma frac_stage_app (r1 rest : string) :
  delimited rest = true ->
  match r1 ++ rest with
  | String "." r =>
      match Json.span_digits r with
      | (EmptyString, _) => (EmptyString, r1 ++ rest)
      | (fs, rest') => (String "." fs, rest')
      end
  | _ => (EmptyString, r1 ++ rest)
  end
  = (let '(frac, r2) :=
       match r1 with
       | String "." r =>
           match Json.span_digits r with
           | (EmptyString, _) => (EmptyString, r1)
           | (fs, rest') => (String "." fs, rest')
           end
       | _ => (EmptyString, r1)
       end in
     (frac, r2 ++ rest)).
Proof.
  intros Hd. destruct r1 as [|c r]; [by_delimiter Hd|].
  destruct c as [[] [] [] [] [] [] [] []]; try reflexivity.
  cbn [String.append]. rewrite (span_digits_app _ rest Hd).
  destruct (Json.span_digits r) as [[|f fs] r']; reflexivity.
Qed.

Lemma expo_stage_app (r2 rest : string) :
  delimited rest = true ->
  match r2 ++ rest with
  | String e r =>
      if Ascii.eqb e "e" || Ascii.eqb e "E" then
        let '(sg, r') :=
          match r with
          | String "+" t => ("+", t)
          | String "-" t => ("-", t)
          | _ => (EmptyString, r)
          end in
        match Json.span_digits r' with
        | (EmptyString, _) => (EmptyString, r2 ++ rest)
        | (es, rest') => (String e (sg ++ es), rest')
        end
      else (EmptyString, r2 ++ rest)
  | EmptyString => (EmptyString, r2 ++ rest)
  end
  = (let '(expo, r3) :=
       match r2 with
       | String e r =>
           if Ascii.eqb e "e" || Ascii.eqb e "E" then
             let '(sg, r') :=
               match r with
               | String "+" t => ("+", t)
               | String "-" t => ("-", t)
               | _ => (EmptyString, r)
               end in
             match Json.span_digits r' with
             | (EmptyString, _) => (EmptyString, r2)
             | (es, rest') => (String e (sg ++ es), rest')
             end
           else (EmptyString, r2)
       | EmptyString => (EmptyString, r2)
       end in
     (expo, r3 ++ rest)).
Proof.
  intros Hd. destruct r2 as [|e r]; [by_delimiter Hd|].
  cbn [String.append]. destruct (Ascii.eqb e "e" || Ascii.eqb e "E"); [|reflexivity].
  destruct r as [|c t].
  { cbn [String.append].
    destruct (delimited_cases _ Hd) as [->|[? [->|[->| ->]]]]; reflexivity. }
  destruct c as [[] [] [] [] [] [] [] []]; cbn [String.append];
    try (rewrite (span_digits_app _ rest Hd);
         destruct (Json.span_digits t) as [[|f fs] r']; reflexivity);
    match goal with
    | |- context [Json.span_digits (String ?c (t ++ rest))] =>
        change (String c (t ++ rest)) with (String c t ++ rest);
        rewrite (span_digits_app _ rest Hd);
        destruct (Json.span_digits (String c t)) as [[|f fs] r']; reflexivity
    end.
Qed.

(** The scanner of numbers does not look past a delimiter. *)
Lemma scan_number_app (s rest : string) :
  delimited rest = true ->
  Json.scan_number (s ++ rest)
  = option_map (fun p => (fst p, snd p ++ rest)) (Json.scan_number s).
Proof.
  intros Hd. unfold Json.scan_number.
  rewrite (sign_stage_app s rest Hd).
  destruct (match s with
            | String "-" r => ("-", r)
            | _ => (EmptyString, s)
            end) as [sg s1].
  cbv zeta. rewrite (int_stage_app s1 rest Hd).
  destruct (match s1 with
            | String "0" r => Some ("0", r)
            | String c _ =>
                if Json.is_digit c then Some (Json.span_digits s1) else None
            | EmptyString => None
            end) as [[ds r1]|]; [|reflexivity].
  cbn [option_map fst snd]. rewrite (frac_stage_app r1 rest Hd).
  destruct (match r1 with
            | String "." r =>
                match Json.span_digits r with
                | (EmptyString, _) => (EmptyString, r1)
                | (fs, rest') => (String "." fs, rest')
                end
            | _ => (EmptyString, r1)
            end) as [frac r2].
  rewrite (expo_stage_app r2 rest Hd).
  destruct (match r2 with
            | String e r =>
                if Ascii.eqb e "e" || Ascii.eqb e "E" then
                  let '(sg, r') :=
                    match r with
                    | String "+" t => ("+", t)
                    | String "-" t => ("-", t)
                    | _ => (EmptyString, r)
                    end in
                  match Json.span_digits r' with
                  | (EmptyString, _) => (EmptyString, r2)
                  | (es, rest') => (String e (sg ++ es), rest')
                  end
                else (EmptyString, r2)
            | EmptyString => (EmptyString, r2)
            end) as [expo r3].
  destruct frac, expo; reflexivity.
Qed.

(** ** Integers *)

Lemma pos_digits_acc (fuel : nat) : forall (n : N) (acc : string),
  Py.pos_digits fuel n acc = Py.pos_digits fuel n EmptyString ++ acc.
Proof.
  induction fuel as [|f IH]; intros n acc; [reflexivity|].
  cbn [Py.pos_digits]. destruct (N.ltb n 10); [reflexivity|].
  rewrite (IH _ (String _ acc)), (IH _ (String _ EmptyString)), app_assoc_str.
  reflexivity.
Qed.

Lemma digit_cases (k : N) :
  (k < 10)%N ->
  Json.is_digit (Py.digit k) = true
  /\ (N_of_ascii (Py.digit k) - 48)%N = k
  /\ (k <> 0%N -> Py.digit k <> "0"%char).
Proof.
  intros H.
  assert (A : forallb (fun m => Json.is_digit (Py.digit m)
                                && N.eqb (N_of_ascii (Py.digit m) - 48) m
                                && (N.eqb m 0 || negb (Ascii.eqb (Py.digit m) "0")))
                      (map N.of_nat (seq 0 10)) = true) by reflexivity.
  rewrite forallb_forall in A.
  assert (Hin : In k (map N.of_nat (seq 0 10))).
  { apply in_map_iff. exists (N.to_nat k). split; [apply N2Nat.id|].
    apply in_seq. lia. }
  specialize (A k Hin). apply andb_prop in A. destruct A as [A Hz].
  apply andb_prop in A. destruct A as [Hd Hv].
  split; [exact Hd|]. split; [now apply N.eqb_eq|].
  intros Hk E. apply orb_prop in Hz. destruct Hz as [Hz|Hz].
  - apply N.eqb_eq in Hz. contradiction.
  - rewrite E in Hz. discriminate.
Qed.

Lemma digits_value_app (x y : string) : forall a,
  Json.digits_value (x ++ y) a = Json.digits_value y (Json.digits_value x a).
Proof.
  induction x as [|c x IH]; intros a; [reflexivity|]. cbn. apply IH.
Qed.

Lemma span_digits_all (x y : string) :
  Json.span_digits x = (x, EmptyString) ->
  Json.span_digits (x ++ y)
  = (x ++ fst (Json.span_digits y), snd (Json.span_digits y)).
Proof.
  induction x as [|c x IH]; cbn [String.append].
  - intros _. now destruct (Json.span_digits y).
  - cbn [Json.span_digits]. destruct (Json.is_digit c); [|discriminate].
    destruct (Json.span_digits x) as [ds r] eqn:E. intros H. inversion H; subst.
    rewrite IH by reflexivity. reflexivity.
Qed.

(** The digits of a number with enough fuel: digits only, whose value
    is the number, and whose first one is not zero for a positive
    number. *)
Lemma pos_digits_spec (f : nat) : forall n : N,
  (n < 10 ^ N.of_nat (S f))%N ->
  let ds := Py.pos_digits (S f) n EmptyString in
  Json.span_digits ds = (ds, EmptyString)
  /\ Json.digits_value ds 0 = n
  /\ exists c r, ds = String c r
                 /\ Json.is_digit c = true
                 /\ (n <> 0%N -> c <> "0"%char).
Proof.
  induction f as [|f IH]; intros n Hn; cbv zeta.
  - assert (Hlt : (n < 10)%N) by (cbn in Hn; lia).
    cbn [Py.pos_digits]. apply N.ltb_lt in Hlt. rewrite Hlt. apply N.ltb_lt in Hlt.
    destruct (digit_cases (n mod 10)) as (Hd & Hv & Hz); [now apply N.mod_lt|].
    rewrite N.mod_small in * by exact Hlt.
    split; [cbn [Json.span_digits]; now rewrite Hd|].
    split; [cbn [Json.digits_value]; rewrite Hv; lia|].
    exists (Py.digit n), EmptyString. repeat split; auto.
  - change (Py.pos_digits (S (S f)) n EmptyString)
      with (let acc' := String (Py.digit (n mod 10)) EmptyString in
            if N.ltb n 10 then acc' else Py.pos_digits (S f) (n / 10) acc').
    cbv zeta.
    destruct (N.ltb_spec n 10) as [Hlt|Hge].
    + destruct (digit_cases (n mod 10)) as (Hd & Hv & Hz); [now apply N.mod_lt|].
      rewrite N.mod_small in * by exact Hlt.
      split; [cbn [Json.span_digits]; now rewrite Hd|].
      split; [cbn [Json.digits_value]; rewrite Hv; lia|].
      exists (Py.digit n), EmptyString. repeat split; auto.
    + assert (Hq : (n / 10 < 10 ^ N.of_nat (S f))%N).
      { apply N.Div0.div_lt_upper_bound.
        replace (N.of_nat (S (S f))) with (N.succ (N.of_nat (S f))) in Hn by lia.
        rewrite N.pow_succ_r' in Hn. exact Hn. }
      destruct (IH _ Hq) as (Hs & Hv & c & r & Hc & Hdc & Hz). cbv zeta in *.
      destruct (digit_cases (n mod 10)) as (Hd & Hv' & _); [now apply N.mod_lt|].
      rewrite pos_digits_acc.
      split.
      { rewrite (span_digits_all _ _ Hs). cbn [Json.span_digits]. rewrite Hd.
        reflexivity. }
      split.
      { rewrite digits_value_app, Hv. cbn [Json.digits_value]. rewrite Hv'.
        pose proof (N.div_mod n 10). lia. }
      exists c, (r ++ String (Py.digit (n mod 10)) EmptyString).
      rewrite Hc. repeat split; auto.
      intros _. apply Hz. intros H0.
      assert (n < 10)%N by (apply N.div_small_iff in H0; lia). lia.
Qed.

Lemma str_N_spec (n : N) :
  let ds := Py.str_N n in
  Json.span_digits ds = (ds, EmptyString)
  /\ Json.digits_value ds 0 = n
  /\ exists c r, ds = String c r
                 /\ Json.is_digit c = true
                 /\ (n <> 0%N -> c <> "0"%char).
Proof.
  unfold Py.str_N. apply pos_digits_spec.
  destruct (N.eq_dec n 0) as [->|Hn]; [reflexivity|].
  rewrite Nat2N.inj_succ, N2Nat.id.
  pose proof (N.log2_spec n ltac:(lia)) as [_ H].
  eapply N.lt_le_trans; [exact H|].
  apply N.pow_le_mono_l. lia.
Qed.

Lemma scan_digits (c : ascii) (r : string) :
  Json.is_digit c = true -> c <> "0"%char ->
  Json.span_digits (String c r) = (String c r, EmptyString) ->
  Json.scan_number (String c r)
  = Some (JInt (Z.of_N (Json.digits_value (String c r) 0)), EmptyString)
  /\ Json.scan_number (String "-" (String c r))
     = Some (JInt (Z.opp (Z.of_N (Json.digits_value (String c r) 0))), EmptyString).
Proof.
  intros Hd Hz Hs.
  destruct c as [[] [] [] [] [] [] [] []];
    try discriminate Hd; try (now elim Hz);
    unfold Json.scan_number; cbv beta iota zeta;
    match goal with
    | |- context [Json.is_digit ?c] =>
        let b := eval vm_compute in (Json.is_digit c) in
        change (Json.is_digit c) with b
    end;
    cbv iota; rewrite Hs; split; reflexivity.
Qed.

(** The scanner reads back the text of an integer. *)
Lemma scan_number_int (n : Z) (rest : string) :
  delimited rest = true ->
  Json.scan_number (Py.str_Z n ++ rest) = Some (JInt n, rest).
Proof.
  intros Hd. rewrite (scan_number_app _ rest Hd).
  assert (H : Json.scan_number (Py.str_Z n) = Some (JInt n, EmptyString)).
  { destruct n as [|p|p].
    - reflexivity.
    - unfold Py.str_Z. change (Z.to_N (Z.pos p)) with (N.pos p).
      destruct (str_N_spec (N.pos p)) as (Hs & Hv & c & r & Hc & Hdc & Hz).
      cbv zeta in *. rewrite Hc in *.
      rewrite (proj1 (scan_digits c r Hdc (Hz ltac:(discriminate)) Hs)), Hv.
      reflexivity.
    - unfold Py.str_Z.
      destruct (str_N_spec (N.pos p)) as (Hs & Hv & c & r & Hc & Hdc & Hz).
      cbv zeta in *. rewrite Hc in *.
      rewrite (proj2 (scan_digits c r Hdc (Hz ltac:(discriminate)) Hs)), Hv.
      reflexivity. }
  rewrite H. reflexivity.
Qed.

(** The scanner reads back a float literal. *)
Lemma scan_number_float (lit rest : string) :
  float_literal lit = true -> delimited rest = true ->
  Json.scan_number (lit ++ rest) = Some (JFloat (FNum lit), rest).
Proof.
  intros Hl Hd. rewrite (scan_number_app _ rest Hd). unfold float_literal in Hl.
  destruct (Json.scan_number lit) as [[v r]|]; [|discriminate].
  destruct v as [| | |[l| | |]| | |]; try discriminate.
  destruct r; [|discriminate]. apply String.eqb_eq in Hl. subst. reflexivity.
Qed.

(** ** Values *)

Lemma scan_number_head (c : ascii) (r : string) (v : json) (rest : string) :
  Json.scan_number (String c r) = Some (v, rest) ->
  Json.is_digit c = true \/ c = "-"%char.
Proof.
  destruct c as [[] [] [] [] [] [] [] []];
    try (intros _; left; reflexivity); try (intros _; right; reflexivity);
    intros H; discriminate H.
Qed.

(** A number is read by [parse_value] as the scanner reads it. *)
Lemma parse_value_number (f : nat) (s : string) (v : json) (rest : string) :
  Json.scan_number s = Some (v, rest) ->
  Json.parse_value (S f) s = Some (v, rest).
Proof.
  destruct s as [|c r]; [intros H; discriminate H|].
  intros H. pose proof (scan_number_head c r v rest H) as Hc.
  cbn [Json.parse_value].
  destruct c as [[] [] [] [] [] [] [] []];
    try (destruct Hc as [Hc|Hc]; discriminate Hc);
    cbv beta iota delta [Ascii.eqb Bool.eqb];
    cbn [String.prefix]; cbv beta iota; rewrite H; reflexivity.
Qed.

(** The first character of a serialization is no white space and no
    closing bracket. *)
Lemma dumps_head (v : json) :
  well_formed v = true ->
  exists c r, JsonDumps.dumps false v = String c r
              /\ Json.is_ws c = false /\ Ascii.eqb c "]" = false.
Proof.
  assert (Hnum : forall c, Json.is_digit c = true \/ c = "-"%char ->
                           Json.is_ws c = false /\ Ascii.eqb c "]" = false).
  { intros c Hc.
    destruct c as [[] [] [] [] [] [] [] []];
      try (split; reflexivity); destruct Hc as [Hc|Hc]; discriminate Hc. }
  destruct v as [|[|]|n|[lit| | |]|s|l|d]; intros Hw;
    try (eexists; eexists; split; [reflexivity|split; reflexivity]).
  - cbn [JsonDumps.dumps]. destruct n as [|p|p].
    + eexists; eexists; split; [reflexivity|split; reflexivity].
    + unfold Py.str_Z. change (Z.to_N (Z.pos p)) with (N.pos p).
      destruct (str_N_spec (N.pos p)) as (_ & _ & c & r & Hc & Hdc & _).
      cbv zeta in Hc. rewrite Hc. exists c, r. split; [reflexivity|].
      apply Hnum. now left.
    + eexists; eexists; split; [reflexivity|split; reflexivity].
  - cbn [JsonDumps.dumps JsonDumps.encode_float]. cbn [well_formed] in Hw.
    unfold float_literal in Hw.
    destruct lit as [|c r]; [discriminate Hw|].
    destruct (Json.scan_number (String c r)) as [[v rest]|] eqn:E; [|discriminate].
    exists c, r. split; [reflexivity|]. apply Hnum.
    exact (scan_number_head c r v rest E).
Qed.

Lemma skip_ws_dumps (v : json) (rest : string) :
  well_formed v = true ->
  Json.skip_ws (JsonDumps.dumps false v ++ rest) = JsonDumps.dumps false v ++ rest.
Proof.
  intros Hw. destruct (dumps_head v Hw) as (c & r & -> & Hc & _).
  unfold Json.skip_ws. cbn [String.append Py.lstrip_with]. now rewrite Hc.
Qed.

Lemma dict_set_fresh (acc : pydict) (key : string) (v : json) :
  existsb (String.eqb key) (map fst acc) = false ->
  dict_set acc key v = (acc ++ [(key, v)])%list.
Proof.
  induction acc as [|[k w] acc IH]; [reflexivity|].
  cbn [map fst existsb dict_set app]. intros H. apply orb_false_elim in H.
  destruct H as [Hk Hacc]. rewrite String.eqb_sym, Hk, IH by exact Hacc.
  reflexivity.
Qed.

Lemma join_head (sep x : string) (l : list string) :
  exists t, Py.join sep (x :: l) = x ++ t.
Proof.
  destruct l as [|y l]; cbn [Py.join].
  - exists EmptyString. now rewrite app_empty_r.
  - eexists. reflexivity.
Qed.

Lemma skip_ws_elems (e : json) (l : list json) (rest : string) :
  well_formed e = true ->
  Json.skip_ws (Py.join ", " (map (JsonDumps.dumps false) (e :: l)) ++ rest)
  = Py.join ", " (map (JsonDumps.dumps false) (e :: l)) ++ rest.
Proof.
  intros Hw. cbn [map].
  destruct (join_head ", " (JsonDumps.dumps false e) (map (JsonDumps.dumps false) l))
    as [t ->].
  rewrite app_assoc_str. now apply skip_ws_dumps.
Qed.

Lemma distinct_fresh (acc : list string) (k : string) (l : list string) :
  distinct (acc ++ k :: l) = true -> existsb (String.eqb k) acc = false.
Proof.
  induction acc as [|x acc IH]; [reflexivity|].
  cbn [app distinct existsb]. intros H. apply andb_prop in H. destruct H as [Hx Hd].
  rewrite (IH Hd), orb_false_r.
  apply negb_true_iff in Hx. rewrite existsb_app in Hx. apply orb_false_elim in Hx.
  destruct Hx as [_ Hx]. cbn [existsb] in Hx. apply orb_false_elim in Hx.
  rewrite String.eqb_sym. exact (proj1 Hx).
Qed.

Section ReadingBack.

Variable n : nat.

Hypothesis IH :
  forall (m : nat) (v : json) (rest : string),
    (m < n)%nat -> (nodes v <= m)%nat -> well_formed v = true ->
    delimited rest = true ->
    Json.parse_value m (JsonDumps.dumps false v ++ rest) = Some (v, rest).

Lemma parse_elems_dumps : forall (l : list json) (e : json) (acc : list json)
                                 (f : nat) (rest : string),
  (f < n)%nat ->
  (fold_right (fun e n => S (nodes e + n)) 0 (e :: l) <= f)%nat ->
  forallb well_formed (e :: l) = true ->
  Json.parse_elems f
    (Py.join ", " (map (JsonDumps.dumps false) (e :: l)) ++ String "]" rest) acc
  = Some (JList (acc ++ e :: l), rest).
Proof.
  induction l as [|e2 l IHl]; intros e acc f rest Hf Hc Hw;
    (destruct f as [|f]; [cbn in Hc; lia|]);
    cbn [forallb] in Hw; apply andb_prop in Hw; destruct Hw as [He Hl];
    cbn [fold_right] in Hc.
  - cbn [map Py.join Json.parse_elems].
    rewrite (IH f e (String "]" rest)) by (try reflexivity; auto; lia).
    reflexivity.
  - change (Py.join ", " (map (JsonDumps.dumps false) (e :: e2 :: l)))
      with (JsonDumps.dumps false e
            ++ ", " ++ Py.join ", " (map (JsonDumps.dumps false) (e2 :: l))).
    rewrite !app_assoc_str. cbn [Json.parse_elems].
    rewrite (IH f e) by (try reflexivity; auto; lia).
    cbn [String.append]. cbv beta iota.
    change (Json.skip_ws (String "," ?x)) with (String "," x).
    cbv beta iota. cbn [Ascii.eqb Bool.eqb]. cbv beta iota.
    change (Json.skip_ws (String " " ?x)) with (Json.skip_ws x).
    cbn [forallb] in Hl. pose proof Hl as Hl'. apply andb_prop in Hl'.
    rewrite (skip_ws_elems e2 l _ (proj1 Hl')).
    rewrite (IHl e2 (acc ++ [e])%list f rest) by (auto; cbn [fold_right]; lia).
    now rewrite <- app_assoc.
Qed.

Let items (d : pydict) : list string :=
  map JsonDumps.encode_item
      (map (fun kv : string * json => let '(k, w) := kv in (k, JsonDumps.dumps false w)) d).

Lemma items_head (k : string) (v : json) (d : pydict) :
  exists t,
    Py.join ", " (items ((k, v) :: d))
    = String dq (JsonDumps.escape k
                 ++ String dq (": " ++ JsonDumps.dumps false v ++ t))
    /\ (d = [] -> t = EmptyString)
    /\ (forall k2 v2 d2, d = (k2, v2) :: d2 ->
          t = ", " ++ Py.join ", " (items ((k2, v2) :: d2))).
Proof.
  destruct d as [|[k2 v2] d2].
  - exists EmptyString. split; [|split; [reflexivity|discriminate]].
    cbn [items map Py.join]. unfold JsonDumps.encode_item, JsonDumps.encode_string.
    cbn [fst snd]. repeat (rewrite ?app_assoc_str; cbn [String.append]).
    rewrite app_empty_r. reflexivity.
  - eexists. split; [|split; [discriminate|]].
    + change (Py.join ", " (items ((k, v) :: (k2, v2) :: d2)))
        with (JsonDumps.encode_item (k, JsonDumps.dumps false v)
              ++ ", " ++ Py.join ", " (items ((k2, v2) :: d2))).
      unfold JsonDumps.encode_item at 1. unfold JsonDumps.encode_string.
      cbn [fst snd]. repeat (rewrite ?app_assoc_str; cbn [String.append]). reflexivity.
    + intros k3 v3 d3 H. inversion H; subst. reflexivity.
Qed.

Lemma parse_members_dumps : forall (d : pydict) (k : string) (v : json) (acc : pydict)
                                   (f : nat) (rest t : string),
  (f < n)%nat ->
  (fold_right (fun kv n => S (nodes (snd kv) + n)) 0 ((k, v) :: d) <= f)%nat ->
  forallb (fun kv => well_formed (snd kv)) ((k, v) :: d) = true ->
  distinct (map fst (acc ++ (k, v) :: d)) = true ->
  Py.join ", " (items ((k, v) :: d)) = String dq t ->
  Json.parse_members f (t ++ String "}" rest) acc
  = Some (JDict (acc ++ (k, v) :: d), rest).
Proof.
  induction d as [|[k2 v2] d IHd]; intros k v acc f rest t Hf Hc Hw Hd Ht;
    (destruct f as [|f]; [cbn in Hc; lia|]);
    cbn [forallb snd] in Hw; apply andb_prop in Hw; destruct Hw as [Hv Hl];
    cbn [fold_right snd] in Hc;
    assert (Hfresh : existsb (String.eqb k) (map fst acc) = false)
      by (rewrite map_app in Hd; exact (distinct_fresh _ _ _ Hd)).
  - destruct (items_head k v []) as (t0 & Ht0 & Hnil & Hcons).
    rewrite Ht0 in Ht. inversion Ht; subst t; clear Ht.
    rewrite (Hnil eq_refl). repeat (rewrite ?app_assoc_str; cbn [String.append]).
    cbn [Json.parse_members]. rewrite scan_string_escape.
    change (Json.skip_ws (String ":" ?x)) with (String ":" x). cbv beta iota.
    cbn [Ascii.eqb Bool.eqb]. cbv beta iota.
    change (Json.skip_ws (String " " ?x)) with (Json.skip_ws x).
    rewrite (skip_ws_dumps v _ Hv).
    rewrite (IH f v (String "}" rest)) by (try reflexivity; auto; lia).
    rewrite (dict_set_fresh _ _ _ Hfresh). reflexivity.
  - destruct (items_head k v ((k2, v2) :: d)) as (t0 & Ht0 & Hnil & Hcons).
    rewrite Ht0 in Ht. inversion Ht; subst t; clear Ht.
    rewrite (Hcons k2 v2 d eq_refl).
    destruct (items_head k2 v2 d) as (t2 & Ht2 & _ & _). rewrite Ht2.
    repeat (rewrite ?app_assoc_str; cbn [String.append]).
    cbn [Json.parse_members]. rewrite scan_string_escape.
    change (Json.skip_ws (String ":" ?x)) with (String ":" x). cbv beta iota.
    cbn [Ascii.eqb Bool.eqb]. cbv beta iota.
    change (Json.skip_ws (String " " ?x)) with (Json.skip_ws x).
    rewrite (skip_ws_dumps v _ Hv).
    rewrite (IH f v) by (try reflexivity; auto; lia).
    rewrite (dict_set_fresh _ _ _ Hfresh).
    change (Json.skip_ws (String "," ?x)) with (String "," x). cbv beta iota.
    cbn [Ascii.eqb Bool.eqb]. cbv beta iota.
    change (Json.skip_ws (String " " (String dq ?x))) with (String dq x).
    cbv beta iota. rewrite Ascii.eqb_refl.
    assert (Hre : JsonDumps.escape k2
                  ++ String dq
                       (String ":"
                          (String " "
                             (JsonDumps.dumps false v2 ++ t2 ++ String "}" rest)))
                  = (JsonDumps.escape k2
                     ++ String dq (": " ++ JsonDumps.dumps false v2 ++ t2))
                    ++ String "}" rest)
      by (repeat (rewrite ?app_assoc_str; cbn [String.append]); reflexivity).
    rewrite Hre.
    rewrite (IHd k2 v2 (acc ++ [(k, v)])%list f rest _)
      by (auto; try (cbn [fold_right snd] in *; lia);
          try (rewrite <- app_assoc; exact Hd)).
    now rewrite <- app_assoc.
Qed.

End ReadingBack.

(** With fuel for its nodes, [parse_value] reads the serialization of a
    well-formed value back, and stops where it ends. *)
Lemma parse_value_dumps : forall (fuel : nat) (v : json) (rest : string),
  (nodes v <= fuel)%nat -> well_formed v = true -> delimited rest = true ->
  Json.parse_value fuel (JsonDumps.dumps false v ++ rest) = Some (v, rest).
Proof.
  induction fuel as [fuel IH] using lt_wf_ind. intros v rest Hn Hw Hd.
  destruct fuel as [|f]; [destruct v; cbn in Hn; lia|].
  assert (IH' : forall (m : nat) (v : json) (rest : string),
             (m < S f)%nat -> (nodes v <= m)%nat -> well_formed v = true ->
             delimited rest = true ->
             Json.parse_value m (JsonDumps.dumps false v ++ rest) = Some (v, rest))
    by (intros m v' rest' Hm; now apply IH).
  destruct v as [|[|]|z|[lit| | |]|s|l|d].
  - destruct rest; reflexivity.
  - destruct rest; reflexivity.
  - destruct rest; reflexivity.
  - apply parse_value_number. now apply scan_number_int.
  - apply parse_value_number. now apply scan_number_float.
  - destruct rest; reflexivity.
  - destruct rest; reflexivity.
  - destruct rest; reflexivity.
  - cbn [JsonDumps.dumps]. unfold JsonDumps.encode_string.
    cbn [String.append]. rewrite app_assoc_str. cbn [String.append Json.parse_value].
    rewrite Ascii.eqb_refl, scan_string_escape. reflexivity.
  - cbn [JsonDumps.dumps]. destruct l as [|e l]; [reflexivity|].
    cbn [well_formed] in Hw. cbn [nodes] in Hn.
    pose proof Hw as Hw'. cbn [forallb] in Hw'. apply andb_prop in Hw'.
    destruct (dumps_head e (proj1 Hw')) as (c & r & Hc & Hws & Hbr).
    cbn [String.append]. rewrite !app_assoc_str.
    cbn [Json.parse_value]. cbn [Ascii.eqb Bool.eqb]. cbv beta iota.
    rewrite (skip_ws_elems e l _ (proj1 Hw')).
    destruct (join_head ", " (JsonDumps.dumps false e)
                        (map (JsonDumps.dumps false) l)) as [t Ht].
    pose proof (parse_elems_dumps (S f) IH' l e [] f rest) as Hp.
    cbn [map] in Hp |- *. rewrite Ht in Hp |- *. rewrite Hc in Hp |- *.
    cbn [String.append] in Hp |- *. cbv beta iota. rewrite Hbr.
    apply Hp; [lia|lia|exact Hw].
  - cbn [JsonDumps.dumps]. destruct d as [|[k w] d]; [reflexivity|].
    cbn [well_formed] in Hw. cbn [nodes] in Hn.
    apply andb_prop in Hw. destruct Hw as [Hdis Hw].
    destruct (items_head k w d) as (t & Ht & _ & _).
    fold JsonDumps.dumps. rewrite Ht.
    cbn [String.append]. rewrite !app_assoc_str.
    cbn [Json.parse_value].
    change (Ascii.eqb "{" dq) with false. rewrite Ascii.eqb_refl. cbv iota.
    change (Json.skip_ws (String dq ?x)) with (String dq x). cbv beta iota.
    change (Ascii.eqb dq "}") with false. cbv iota. rewrite Ascii.eqb_refl.
    pose proof (parse_members_dumps (S f) IH' d k w [] f rest _
                  ltac:(lia) ltac:(lia) Hw Hdis Ht) as Hp.
    repeat (rewrite ?app_assoc_str; cbn [String.append]).
    repeat (rewrite ?app_assoc_str in Hp; cbn [String.append] in Hp).
    exact Hp.
Qed.

(** Induction on a value, its elements and the values of its items. *)
Lemma json_induction (P : json -> Prop) :
  P JNull ->
  (forall b, P (JBool b)) ->
  (forall z, P (JInt z)) ->
  (forall f, P (JFloat f)) ->
  (forall s, P (JStr s)) ->
  (forall l, Forall P l -> P (JList l)) ->
  (forall d, Forall (fun kv => P (snd kv)) d -> P (JDict d)) ->
  forall v, P v.
Proof.
  intros Hnull Hbool Hint Hfloat Hstr Hlist Hdict.
  exact (fix go (v : json) : P v :=
           match v with
           | JNull => Hnull
           | JBool b => Hbool b
           | JInt z => Hint z
           | JFloat f => Hfloat f
           | JStr s => Hstr s
           | JList l =>
               Hlist l ((fix all (l : list json) : Forall P l :=
                           match l with
                           | [] => Forall_nil P
                           | e :: r => Forall_cons e (go e) (all r)
                           end) l)
           | JDict d =>
               Hdict d ((fix all (d : pydict) : Forall (fun kv => P (snd kv)) d :=
                           match d with
                           | [] => Forall_nil _
                           | kv :: r =>
                               Forall_cons (P := fun kv => P (snd kv)) kv
                                           (go (snd kv)) (all r)
                           end) d)
           end).
Qed.

Lemma join_length_cons (sep x : string) (l : list string) :
  (String.length x + String.length (Py.join sep l)
   <= String.length (Py.join sep (x :: l)))%nat.
Proof.
  destruct l as [|y l]; cbn [Py.join]; rewrite ?strlen_app; cbn [String.length]; lia.
Qed.

(** A serialization is longer than half the nodes of its value. *)
Lemma nodes_bound (v : json) :
  well_formed v = true ->
  (S (nodes v) <= 2 * String.length (JsonDumps.dumps false v))%nat.
Proof.
  induction v as [|b|z|f|s|l IHl|d IHd] using json_induction; intros Hw;
    try (destruct (dumps_head _ Hw) as (c & r & -> & _); cbn [nodes String.length]; lia).
  - cbn [nodes JsonDumps.dumps]. rewrite !strlen_app. cbn [String.length].
    cbn [well_formed] in Hw.
    assert (H : (fold_right (fun e n => S (nodes e + n)) 0 l
                 <= 2 * String.length (Py.join ", " (map (JsonDumps.dumps false) l)))%nat).
    { induction IHl as [|e l He Hl IH]; [cbn; lia|].
      cbn [forallb] in Hw. apply andb_prop in Hw. destruct Hw as [Hwe Hwl].
      cbn [fold_right map].
      pose proof (join_length_cons ", " (JsonDumps.dumps false e)
                                   (map (JsonDumps.dumps false) l)).
      specialize (He Hwe). specialize (IH Hwl). lia. }
    lia.
  - cbn [nodes JsonDumps.dumps]. rewrite !strlen_app. cbn [String.length].
    cbn [well_formed] in Hw. apply andb_prop in Hw. destruct Hw as [_ Hw].
    assert (H : (fold_right (fun kv n => S (nodes (snd kv) + n)) 0 d
                 <= 2 * String.length
                          (Py.join ", "
                             (map JsonDumps.encode_item
                                (map (fun kv : string * json =>
                                        let '(k, w) := kv in
                                        (k, JsonDumps.dumps false w)) d))))%nat).
    { induction IHd as [|[k w] d He Hl IH]; [cbn; lia|].
      cbn [forallb snd] in Hw. apply andb_prop in Hw. destruct Hw as [Hwe Hwl].
      cbn [fold_right map snd].
      match goal with
      | |- context [Py.join ", " (?x :: ?r)] =>
          pose proof (join_length_cons ", " x r) as Hj
      end.
      unfold JsonDumps.encode_item at 1 in Hj. cbn [fst snd] in Hj.
      rewrite !strlen_app in Hj.
      specialize (He Hwe). specialize (IH Hwl). cbn [snd] in He. lia. }
    lia.
Qed.

(** [json.loads] reads back what [json.dumps] writes of a well-formed
    value. *)
Lemma loads_dumps (v : json) :
  well_formed v = true -> Json.loads (JsonDumps.dumps false v) = Some v.
Proof.
  intros Hw. unfold Json.loads.
  pose proof (skip_ws_dumps v EmptyString Hw) as Hs. rewrite app_empty_r in Hs.
  rewrite Hs.
  pose proof (parse_value_dumps (S (S (2 * String.length (JsonDumps.dumps false v))))
                v EmptyString) as Hp.
  rewrite app_empty_r in Hp. rewrite Hp; [reflexivity| |exact Hw|reflexivity].
  pose proof (nodes_bound v Hw). lia.
Qed.

Lemma dumps_mapping_trimmed (m : pydict) :
  Py.strip (JsonDumps.dumps false (JDict m)) = JsonDumps.dumps false (JDict m).
Proof.
  cbn [JsonDumps.dumps]. unfold Py.strip.
  match goal with
  | |- context [Py.join ", " ?l] => generalize (Py.join ", " l)
  end.
  intros t.
  exact (strip_with_wrap Py.isspace EmptyString "{" t "}" EmptyString
                         eq_refl eq_refl).
Qed.




(* ===================================================================== *)
(** * The configurations that are listed and resolved *)
(* ===================================================================== *)

Lemma In_insert_name (x y : string) (l : list string) :
  In y (insert_name x l) <-> y = x \/ In y l.
Proof.
  induction l as [|z l IH]; cbn [insert_name].
  - cbn. intuition.
  - destruct (String.leb x z); cbn [In]; [intuition|]. rewrite IH. intuition.
Qed.

Lemma In_sort_names (y : string) (l : list string) :
  In y (sort_names l) <-> In y l.
Proof.
  induction l as [|x l IH]; [reflexivity|].
  cbn [sort_names In]. rewrite In_insert_name, IH. intuition.
Qed.

Lemma existsb_eqb_In (x : string) (l : list string) :
  existsb (String.eqb x) l = true <-> In x l.
Proof.
  rewrite existsb_exists. split.
  - intros (y & Hy & E). apply String.eqb_eq in E. now subst.
  - intros H. exists x. split; [exact H|apply String.eqb_refl].
Qed.

Lemma dedup_spec (l : list string) :
  NoDup (dedup l) /\ forall y, In y (dedup l) <-> In y l.
Proof.
  induction l as [|x l [Hnd Hin]]; [split; [constructor|reflexivity]|].
  cbn [dedup]. destruct (existsb (String.eqb x) l) eqn:E.
  - split; [exact Hnd|]. intros y. rewrite Hin. cbn [In].
    apply existsb_eqb_In in E. split; [auto|]. intros [->|H]; auto.
  - split.
    + constructor; [|exact Hnd]. rewrite Hin. intros H.
      apply existsb_eqb_In in H. congruence.
    + intros y. cbn [In]. rewrite Hin. reflexivity.
Qed.

Lemma leb_ne_ltb (x y : string) :
  String.leb x y = true -> x <> y -> String.ltb x y = true.
Proof.
  unfold String.leb, String.ltb. destruct (String.compare x y) eqn:E; try easy.
  apply String.compare_eq_iff in E. congruence.
Qed.

Lemma leb_false_ltb (x y : string) :
  String.leb x y = false -> String.ltb y x = true.
Proof.
  unfold String.leb, String.ltb. rewrite (String.compare_antisym x y).
  destruct (String.compare y x); cbn; congruence.
Qed.

Lemma ascending_insert (x : string) (l : list string) :
  ascending l = true -> ~ In x l -> ascending (insert_name x l) = true.
Proof.
  induction l as [|y l IH]; [reflexivity|]. intros Ha Hx.
  cbn [insert_name]. destruct (String.leb x y) eqn:E.
  - change (String.ltb x y && ascending (y :: l) = true).
    rewrite Ha, (leb_ne_ltb x y E), andb_true_r; [reflexivity|].
    intros ->. apply Hx. now left.
  - assert (Hl : ascending l = true).
    { cbn [ascending] in Ha. destruct l; [reflexivity|].
      now apply andb_prop in Ha. }
    specialize (IH Hl (fun H => Hx (or_intror H))).
    destruct l as [|z l]; cbn [insert_name] in *.
    + cbn [ascending]. now rewrite (leb_false_ltb x y E).
    + cbn [ascending] in Ha. apply andb_prop in Ha. destruct Ha as [Hyz _].
      destruct (String.leb x z).
      * change (String.ltb y x && ascending (x :: z :: l) = true).
        now rewrite (leb_false_ltb x y E), IH.
      * change (String.ltb y z && ascending (z :: insert_name x l) = true).
        now rewrite Hyz, IH.
Qed.

Lemma ascending_sort (l : list string) :
  NoDup l -> ascending (sort_names l) = true.
Proof.
  induction 1 as [|x l Hx Hnd IH]; [reflexivity|].
  cbn [sort_names]. apply ascending_insert; [exact IH|].
  now rewrite In_sort_names.
Qed.

(** [list_model_configs] lists every name of the directory that ends
    in [.yaml] or [.yml], and nothing else, once, in ascending order;
    for a directory that does not exist the list is empty. *)
Theorem list_model_configs_sorted_and_complete :
  forall entries : option (list string),
  ascending (list_model_configs entries) = true
  /\ (forall name,
        In name (list_model_configs entries)
        <-> exists present,
              entries = Some present /\ In name present
              /\ (endswith ".yaml" name || endswith ".yml" name) = true)
  /\ list_model_configs None = [].
Proof.
  intros entries. split; [|split; [|reflexivity]].
  - destruct entries as [present|]; [|reflexivity]. cbn [list_model_configs].
    apply ascending_sort. apply dedup_spec.
  - intros name. destruct entries as [present|].
    + cbn [list_model_configs].
      rewrite In_sort_names, (proj2 (dedup_spec _)), in_app_iff, !In_sort_names,
        !filter_In.
      split.
      * intros [[Hin E]|[Hin E]]; exists present; rewrite E;
          repeat split; auto using orb_true_r.
      * intros (p & Hp & Hin & E). inversion Hp; subst.
        apply orb_true_iff in E. destruct E as [E|E]; auto.
    + cbn. split; [easy|]. intros (p & Hp & _). discriminate.
Qed.

Section ResolvingFacts.

Variable Path : Type.
Variable of_text : string -> Path.
Variable child : string -> Path.
Variable is_file : Path -> bool.
Variable entries : option (list string).
Variable base_text : string.


End ResolvingFacts.


(* ===================================================================== *)
(** * The lines of the formatted report of a built report *)
(* ===================================================================== *)

Lemma below_listed (bound : nat) (n : N) :
  (n < N.of_nat bound)%N -> In n (map N.of_nat (seq 0 bound)).
Proof.
  intros H. apply in_map_iff. exists (N.to_nat n). split; [apply N2Nat.id|].
  apply in_seq. lia.
Qed.

Lemma hex_digit_char (n : N) : (n < 16)%N -> hex_char (PyStr.hex_digit n) = true.
Proof.
  intros H.
  assert (A : forallb (fun m => hex_char (PyStr.hex_digit m))
                      (map N.of_nat (seq 0 16)) = true) by reflexivity.
  rewrite forallb_forall in A. apply A. now apply (below_listed 16).
Qed.

Lemma hex_text_app (a b : string) :
  hex_text (a ++ b) = hex_text a && hex_text b.
Proof.
  induction a as [|c a IH]; [reflexivity|].
  cbn [String.append]. unfold hex_text in *. cbn [list_ascii_of_string forallb].
  now rewrite IH, andb_assoc.
Qed.

Lemma hex_text_concat (l : list string) :
  Forall (fun s => hex_text s = true) l ->
  hex_text (String.concat EmptyString l) = true.
Proof.
  induction 1 as [|s l Hs Hl IH]; [reflexivity|].
  destruct l as [|t l]; [exact Hs|].
  change (String.concat EmptyString (s :: t :: l))
    with (s ++ EmptyString ++ String.concat EmptyString (t :: l)).
  cbn [String.append]. now rewrite hex_text_app, Hs, IH.
Qed.

Lemma hex_byte_text (b : N) : (b < 256)%N -> hex_text (Sha256.hex_byte b) = true.
Proof.
  intros H. unfold Sha256.hex_byte, hex_text. cbn [list_ascii_of_string forallb].
  rewrite !hex_digit_char; [reflexivity| |].
  - apply N.mod_lt. lia.
  - apply N.Div0.div_lt_upper_bound. exact H.
Qed.

Lemma hex_word_text (w : N) : hex_text (Sha256.hex_word w) = true.
Proof.
  unfold Sha256.hex_word. apply hex_text_concat. apply Forall_map.
  unfold Sha256.be_bytes. apply Forall_map. apply Forall_forall. intros i _.
  apply hex_byte_text.
  change 0xff%N with (N.ones 8). rewrite N.land_ones. apply N.mod_lt. discriminate.
Qed.

Lemma hexdigest_text (msg : list N) : hex_text (Sha256.hexdigest msg) = true.
Proof.
  unfold Sha256.hexdigest. apply hex_text_concat. apply Forall_map.
  apply Forall_forall. intros w _. apply hex_word_text.
Qed.

Lemma hex_text_take (n : nat) : forall s,
  hex_text s = true -> hex_text (str_take n s) = true.
Proof.
  unfold str_take. induction n as [|n IH]; intros s H.
  - destruct s; reflexivity.
  - destruct s as [|c s]; [reflexivity|].
    unfold hex_text in *. cbn [substring list_ascii_of_string forallb] in *.
    apply andb_prop in H. destruct H as [Hc Hs]. rewrite Hc. now apply IH.
Qed.

(** The identifier of a report is written with the digits 0 to 9 and
    the letters a to f. *)
Lemma report_id_hex (user_input : string) (s1 p1 p2 p3 : pydict) :
  hex_text (compute_report_id user_input s1 p1 p2 p3) = true.
Proof. unfold compute_report_id. apply hex_text_take, hexdigest_text. Qed.

Lemma hex_text_clean (s : string) : hex_text s = true -> ends_clean s.
Proof.
  unfold ends_clean, hex_text. induction s as [|c s IH]; [reflexivity|].
  cbn [list_ascii_of_string forallb]. intros H. apply andb_prop in H.
  destruct H as [Hc Hs]. rewrite rstrip_with_keep, (IH Hs); [reflexivity|].
  unfold hex_char in Hc. cbn [list_ascii_of_string existsb] in Hc.
  repeat (apply orb_prop in Hc;
          destruct Hc as [Hc|Hc]; [apply Ascii.eqb_eq in Hc; subst; reflexivity|]).
  discriminate.
Qed.

Lemma trimmed_clean (x : string) : trimmed x -> ends_clean x.
Proof.
  unfold trimmed, ends_clean, Py.strip, Py.strip_with. intros H.
  rewrite <- H at 1. rewrite rstrip_with_idem. exact H.
Qed.

Lemma labelled_clean (label x : string) :
  x <> EmptyString -> ends_clean x -> ends_clean (label ++ x).
Proof.
  unfold ends_clean. intros Hx Hc. rewrite rstrip_with_app; rewrite Hc; auto.
Qed.

Lemma normalized_clean (label x : string) :
  normalized x -> ends_clean (label ++ x).
Proof.
  intros [Hx Ht]. apply labelled_clean; [exact Hx|now apply trimmed_clean].
Qed.

Lemma join_clean (l : list string) :
  normalized_list l -> l <> [] ->
  Py.join ", " l <> EmptyString /\ ends_clean (Py.join ", " l).
Proof.
  induction 1 as [|x l Hx Hl IH]; [congruence|]. intros _.
  destruct l as [|y l].
  - cbn [Py.join]. split; [exact (proj1 Hx)|apply trimmed_clean, Hx].
  - destruct (IH ltac:(discriminate)) as [Hne Hc].
    change (Py.join ", " (x :: y :: l)) with (x ++ ", " ++ Py.join ", " (y :: l)).
    split.
    + apply app_not_empty. discriminate.
    + apply labelled_clean; [discriminate|]. now apply labelled_clean.
Qed.

Lemma item_lines_clean (prefix : string) (items : list string) :
  normalized_list items -> Forall ends_clean (item_lines prefix items).
Proof.
  intros H. destruct items as [|x items]; cbn [item_lines].
  - constructor; [|constructor]. apply labelled_clean; [discriminate|reflexivity].
  - apply Forall_map. revert H. apply Forall_impl. intros a Ha.
    now apply normalized_clean.
Qed.

Lemma branches_lines_clean (bs : list branch) :
  Forall (fun b => normalized (branch_name b) /\ normalized (branch_result b)
                   /\ normalized (goal_impact b)) bs ->
  Forall ends_clean (branches_lines bs).
Proof.
  intros H. unfold branches_lines.
  assert (G : forall idx, Forall ends_clean (flat_map branch_lines (enumerate idx bs))).
  { induction H as [|b bs (Hn & Hr & Hg) Hbs IH]; intros idx; [constructor|].
    cbn [enumerate flat_map branch_lines fst snd app].
    repeat constructor; try (now apply normalized_clean); [|apply IH].
    rewrite <- !app_assoc_str. now apply normalized_clean. }
  destruct bs as [|b bs]; [|apply G].
  constructor; [reflexivity|constructor].
Qed.

Lemma built_report_normal_form (user_input : string) (s1 p1 p2 p3 : pydict) :
  let r := _build_report user_input s1 p1 p2 p3 in
  normalized_list (core_variables (logical r))
  /\ normalized_list (retrieved_internal_knowledge (logical r))
  /\ normalized_list (internal_knowledge_used (logical r))
  /\ normalized_list (knowledge_gaps (logical r))
  /\ normalized_list (hidden_assumptions (logical r))
  /\ normalized_list (reality_gaps (logical r))
  /\ normalized_list (contradiction_path (diagnosis r))
  /\ normalized_list (suggested_mitigation r)
  /\ Forall (fun b => normalized (branch_name b) /\ normalized (branch_result b)
                      /\ normalized (goal_impact b))
            (stress_test_results r)
  /\ normalized (diagnosis_type (diagnosis r))
  /\ trimmed (primary_goal (logical r))
  /\ trimmed (reasoning (diagnosis r)).
Proof.
  intros r. unfold r, _build_report.
  cbn [logical diagnosis core_variables retrieved_internal_knowledge
       internal_knowledge_used knowledge_gaps hidden_assumptions reality_gaps
       contradiction_path suggested_mitigation stress_test_results
       diagnosis_type primary_goal reasoning].
  repeat match goal with |- _ /\ _ => split end;
    try apply as_string_list_normalized.
  - apply core_vars_normalized.
  - apply knowledge_items_normalized.
  - apply branches_normalized.
  - unfold str_or.
    destruct (truthy (Py.strip (PyStr.str (dict_get_or p3 "paradox_type" (JStr "None")))))
      eqn:E.
    + now apply strip_normalized.
    + split; [discriminate | reflexivity].
  - apply strip_with_idem.
  - apply strip_with_idem.
Qed.



(** The identifier of a built report is written with the digits 0 to 9
    and the letters a to f only. *)
Theorem report_id_is_lowercase_hex :
  forall (user_input : string) (s1 p1 p2 p3 : pydict),
  hex_text (report_id (_build_report user_input s1 p1 p2 p3)) = true.
Proof. intros. apply report_id_hex. Qed.
